(** * Auto-Debug-AI: the debug team driver, its task context and its memory bridge

    A shallow embedding of
      - [src/teams/debug_team.py]   (class [DebugTeam]),
      - [src/agents/debug_agents.py] (class [TaskContext], the role declarations),
      - [src/memory/__init__.py]    (class [MemoryManager]),
      - [src/tools/memory_tools.py] (the search and store tools),
      - [src/main.py] and [src/api.py] (the application and its task registry),
      - [src/monitoring/__init__.py] (class [MetricsCollector]),
      - [src/tools/execution_tools.py] (the detection of the test command),
      - [src/tools/code_tools.py]   (code search, line ranges, patches),
    followed by the properties of the specification that concern them.

    Python values are dynamically typed, so the fields of the task context
    hold values of the type [py_value]; calls that may raise return an
    [outcome]; everything the code obtains from a collaborator it does not
    implement (the model conversation, the vector store, the clock, the
    identifier generator, formatting routines of the Python library) is a
    field of the record [world]. *)

From Stdlib Require Import String Ascii List ZArith Bool Lia Floats.
From Stdlib Require DecimalString.
Import ListNotations.
Open Scope list_scope.
Open Scope string_scope.

(** ** Python strings

    A [string] stands for a [str] whose code points are below 256, an
    [ascii] being the code point. *)

Module Py.

(** The line feed, written ['\n'] in the source. *)
Definition nl : ascii := "010"%char.

(** [needle in hay] on two [str] values. *)
Fixpoint contains (needle hay : string) : bool :=
  String.prefix needle hay ||
  match hay with
  | EmptyString => false
  | String _ rest => contains needle rest
  end.

(** [s.startswith(p)]. *)
Definition startswith (s p : string) : bool := String.prefix p s.

(** [s.startswith((p1, ..., pn))]. *)
Definition startswith_any (s : string) (ps : list string) : bool :=
  existsb (startswith s) ps.

(** [s.split('\n')]: never empty, the last piece may be [""]. *)
Fixpoint split_nl (s : string) : list string :=
  match s with
  | EmptyString => [EmptyString]
  | String c rest =>
      if Ascii.eqb c nl then EmptyString :: split_nl rest
      else match split_nl rest with
           | first :: others => String c first :: others
           | [] => [String c EmptyString]
           end
  end.

(** The characters [str.strip()] removes, those for which [isspace]
    holds: tab, line feed, vertical tab, form feed, carriage return, the
    four separators 0x1c..0x1f, the space, the next-line character 0x85
    and the no-break space 0xa0. *)
Definition is_space (c : ascii) : bool :=
  let n := nat_of_ascii c in
  (Nat.leb 9 n && Nat.leb n 13) || (Nat.leb 28 n && Nat.leb n 32)
  || Nat.eqb n 133 || Nat.eqb n 160.

(** [c in chars] for a one-character string [c]. *)
Fixpoint mem_char (c : ascii) (chars : string) : bool :=
  match chars with
  | EmptyString => false
  | String d rest => Ascii.eqb c d || mem_char c rest
  end.

Fixpoint lstrip_by (drop : ascii -> bool) (s : string) : string :=
  match s with
  | EmptyString => EmptyString
  | String c rest => if drop c then lstrip_by drop rest else s
  end.

Fixpoint rstrip_by (drop : ascii -> bool) (s : string) : string :=
  match s with
  | EmptyString => EmptyString
  | String c rest =>
      match rstrip_by drop rest with
      | EmptyString => if drop c then EmptyString else String c EmptyString
      | kept => String c kept
      end
  end.

(** [s.strip()]. *)
Definition strip (s : string) : string := rstrip_by is_space (lstrip_by is_space s).

(** [s.lstrip(chars)]. *)
Definition lstrip (s chars : string) : string :=
  lstrip_by (fun c => mem_char c chars) s.

(** Truth value of a [str]: empty is false. *)
Definition truthy (s : string) : bool :=
  match s with EmptyString => false | _ => true end.

Definition apostrophe : ascii := "039"%char.
Definition double_quote : ascii := "034"%char.
Definition backslash : ascii := "092"%char.

Definition hex_digit (n : nat) : ascii :=
  match n with
  | 0 => "0" | 1 => "1" | 2 => "2" | 3 => "3" | 4 => "4" | 5 => "5"
  | 6 => "6" | 7 => "7" | 8 => "8" | 9 => "9" | 10 => "a" | 11 => "b"
  | 12 => "c" | 13 => "d" | 14 => "e" | _ => "f"
  end%char.

(** [c.isprintable()]: the control characters, the no-break space and the
    soft hyphen are not. *)
Definition printable (c : ascii) : bool :=
  let n := nat_of_ascii c in
  (Nat.leb 32 n && Nat.leb n 126) || (Nat.leb 161 n && negb (Nat.eqb n 173)).

(** What [repr] writes for one character between the quotes [quote]. *)
Definition escape (quote c : ascii) : string :=
  let n := nat_of_ascii c in
  if Ascii.eqb c quote || Ascii.eqb c backslash then
    String backslash (String c EmptyString)
  else if Nat.eqb n 9 then String backslash "t"
  else if Nat.eqb n 10 then String backslash "n"
  else if Nat.eqb n 13 then String backslash "r"
  else if printable c then String c EmptyString
  else
    String backslash
      (String "x"
         (String (hex_digit (n / 16))
            (String (hex_digit (n mod 16)) EmptyString))).

Fixpoint escape_all (quote : ascii) (s : string) : string :=
  match s with
  | EmptyString => EmptyString
  | String c rest => escape quote c ++ escape_all quote rest
  end.

(** [repr(s)]: between apostrophes, or between double quotes when [s]
    has an apostrophe and no double quote. *)
Definition repr (s : string) : string :=
  let quote :=
    if mem_char apostrophe s && negb (mem_char double_quote s)
    then double_quote else apostrophe in
  String quote (escape_all quote s ++ String quote EmptyString).

End Py.

(** ** Plan extraction ([DebugTeam._extract_plan]) *)

(** The body of the [for line in lines] loop, with the two loop variables
    [in_plan] and [plan]; [break] returns the plan collected so far. *)
Fixpoint _extract_plan_loop (lines : list string) (in_plan : bool)
    (plan : list string) : list string :=
  match lines with
  | [] => plan
  | line :: rest =>
      if Py.contains "PLAN:" line then _extract_plan_loop rest true plan
      else if in_plan && Py.truthy (Py.strip line) then
        if Py.startswith_any (Py.strip line) ["-"; "*"; "1."; "2."; "3."] then
          _extract_plan_loop rest in_plan
            (plan ++ [Py.lstrip (Py.strip line) "-*123456789. "])%list
        else if negb (Py.startswith line " ") then plan
        else _extract_plan_loop rest in_plan plan
      else _extract_plan_loop rest in_plan plan
  end.

Definition _extract_plan (content : string) : list string :=
  _extract_plan_loop (Py.split_nl content) false [].

(** ** Raising and returning *)

(** An exception object, identified with its text [str(e)].  Only instances
    of [Exception] are modelled, the ones [except Exception] catches. *)
Definition exn : Type := string.

Inductive outcome (A : Type) : Type :=
| Return (a : A)
| Raise (e : exn).
Arguments Return {A} a.
Arguments Raise {A} e.

Definition bind {A B : Type} (c : outcome A) (k : A -> outcome B) : outcome B :=
  match c with
  | Return a => k a
  | Raise e => Raise e
  end.

(** [try: body  except Exception as e: handler(e)]. *)
Definition try_except {A : Type} (body : outcome A) (handler : exn -> outcome A)
    : outcome A :=
  match body with
  | Return a => Return a
  | Raise e => handler e
  end.

Declare Scope outcome_scope.
Delimit Scope outcome_scope with outcome.
Notation "x <- c ;; k" := (bind c (fun x => k))
  (at level 61, c at next level, right associativity) : outcome_scope.
Open Scope outcome_scope.

(** ** Python values *)

(** The values a caller can put into the [context] mapping and that end up
    in the fields of the task context. *)
#[warnings="-register-all"]
Inductive py_value : Type :=
| PNone
| PBool (b : bool)
| PInt (z : Z)
| PStr (s : string)
| PList (items : list py_value)
| PDict (entries : list (string * py_value)).

(** A [dict] with [str] keys, in insertion order. *)
Definition py_dict : Type := list (string * py_value).

(** [d.get(key)], [None] of Rocq when the key is absent. *)
Fixpoint dict_get (d : py_dict) (key : string) : option py_value :=
  match d with
  | [] => None
  | (k, v) :: rest => if String.eqb k key then Some v else dict_get rest key
  end.

(** [d[key] = v]: replaces the value of a present key, appends otherwise. *)
Fixpoint dict_set (d : py_dict) (key : string) (v : py_value) : py_dict :=
  match d with
  | [] => [(key, v)]
  | (k, old) :: rest =>
      if String.eqb k key then (k, v) :: rest
      else (k, old) :: dict_set rest key v
  end.

(** [d.get(key, default)]. *)
Definition dict_get_default (d : py_dict) (key : string) (default : py_value)
    : py_value :=
  match dict_get d key with
  | Some v => v
  | None => default
  end.

Definition type_name (v : py_value) : string :=
  match v with
  | PNone => "NoneType"
  | PBool _ => "bool"
  | PInt _ => "int"
  | PStr _ => "str"
  | PList _ => "list"
  | PDict _ => "dict"
  end.

(** [len(v)]; a [TypeError] on the values that have no length. *)
Definition py_len (v : py_value) : outcome Z :=
  match v with
  | PStr s => Return (Z.of_nat (String.length s))
  | PList items => Return (Z.of_nat (List.length items))
  | PDict entries => Return (Z.of_nat (List.length entries))
  | _ => Raise ("object of type '" ++ type_name v ++ "' has no len()")
  end.

(** [v.get(key, default)]; an [AttributeError] unless [v] is a [dict]. *)
Definition py_get (v : py_value) (key : string) (default : py_value)
    : outcome py_value :=
  match v with
  | PDict entries => Return (dict_get_default entries key default)
  | _ => Raise ("'" ++ type_name v ++ "' object has no attribute 'get'")
  end.

(** ** The task context ([TaskContext]) *)

(** The nine declared fields.  Pydantic checks the types when the object is
    constructed but not on [setattr], so a field can hold any value. *)
Record TaskContext : Type := {
  task_id : py_value;
  bug_report : py_value;
  plan : py_value;
  located_files : py_value;
  proposed_patches : py_value;
  test_results : py_value;
  critique : py_value;
  iteration : py_value;
  max_iterations : py_value
}.

Definition field_names : list string :=
  ["task_id"; "bug_report"; "plan"; "located_files"; "proposed_patches";
   "test_results"; "critique"; "iteration"; "max_iterations"].

Definition is_field (name : string) : bool :=
  existsb (String.eqb name) field_names.

(** [getattr(tc, name)] on a declared field. *)
Definition get_field (tc : TaskContext) (name : string) : option py_value :=
  if String.eqb name "task_id" then Some (task_id tc)
  else if String.eqb name "bug_report" then Some (bug_report tc)
  else if String.eqb name "plan" then Some (plan tc)
  else if String.eqb name "located_files" then Some (located_files tc)
  else if String.eqb name "proposed_patches" then Some (proposed_patches tc)
  else if String.eqb name "test_results" then Some (test_results tc)
  else if String.eqb name "critique" then Some (critique tc)
  else if String.eqb name "iteration" then Some (iteration tc)
  else if String.eqb name "max_iterations" then Some (max_iterations tc)
  else None.

(** [setattr(tc, name, v)] on a declared field; unchanged otherwise. *)
Definition set_field (tc : TaskContext) (name : string) (v : py_value)
    : TaskContext :=
  let 'Build_TaskContext a b c d e f g h i := tc in
  if String.eqb name "task_id" then Build_TaskContext v b c d e f g h i
  else if String.eqb name "bug_report" then Build_TaskContext a v c d e f g h i
  else if String.eqb name "plan" then Build_TaskContext a b v d e f g h i
  else if String.eqb name "located_files" then Build_TaskContext a b c v e f g h i
  else if String.eqb name "proposed_patches" then Build_TaskContext a b c d v f g h i
  else if String.eqb name "test_results" then Build_TaskContext a b c d e v g h i
  else if String.eqb name "critique" then Build_TaskContext a b c d e f v h i
  else if String.eqb name "iteration" then Build_TaskContext a b c d e f g v i
  else if String.eqb name "max_iterations" then Build_TaskContext a b c d e f g h v
  else tc.

(** [TaskContext(task_id=..., bug_report=..., max_iterations=...)]: the other
    fields take their declared defaults. *)
Definition new_TaskContext (tid : string) (report : string) (max_iter : Z)
    : TaskContext :=
  {| task_id := PStr tid; bug_report := PStr report; plan := PNone;
     located_files := PNone; proposed_patches := PNone; test_results := PNone;
     critique := PNone; iteration := PInt 0; max_iterations := PInt max_iter |}.

(** [tc.model_dump()]: the fields as a [dict]. *)
Definition model_dump (tc : TaskContext) : py_dict :=
  [("task_id", task_id tc); ("bug_report", bug_report tc); ("plan", plan tc);
   ("located_files", located_files tc);
   ("proposed_patches", proposed_patches tc);
   ("test_results", test_results tc); ("critique", critique tc);
   ("iteration", iteration tc); ("max_iterations", max_iterations tc)].

(** ** Configuration ([settings.team], [settings.enable_memory]) *)

Record TeamConfig : Type := {
  max_rounds : Z;
  enable_critic : bool;
  enable_reviewer : bool;
  coordination_mode : string
}.

Record Settings : Type := {
  team : TeamConfig;
  enable_memory : bool
}.

(** ** Roles ([debug_agents.py]) *)

(** What the team sees of an [AssistantAgent]: its name and the hand-off
    targets it declares. *)
Record Agent : Type := {
  agent_name : string;
  handoffs : list string
}.

Definition PlannerAgent : Agent :=
  {| agent_name := "Planner"; handoffs := ["Locator"] |}.
Definition LocatorAgent : Agent :=
  {| agent_name := "Locator"; handoffs := ["Coder"; "Planner"] |}.
Definition CoderAgent : Agent :=
  {| agent_name := "Coder"; handoffs := ["Executor"; "Locator"] |}.
Definition ExecutorAgent : Agent :=
  {| agent_name := "Executor"; handoffs := ["Critic"; "Reviewer"] |}.
Definition CriticAgent : Agent :=
  {| agent_name := "Critic"; handoffs := ["Coder"; "Planner"] |}.
Definition ReviewerAgent : Agent :=
  {| agent_name := "Reviewer"; handoffs := ["Coder"] |}.

(** [DebugAgentFactory.create_all_agents]: the [dict] of agents by key. *)
Definition create_all_agents (cfg : Settings) : list (string * Agent) :=
  ([("planner", PlannerAgent); ("locator", LocatorAgent);
    ("coder", CoderAgent); ("executor", ExecutorAgent)]
   ++ (if enable_critic (team cfg) then [("critic", CriticAgent)] else [])
   ++ (if enable_reviewer (team cfg) then [("reviewer", ReviewerAgent)] else []))%list.

Fixpoint agents_get (agents : list (string * Agent)) (key : string)
    : option Agent :=
  match agents with
  | [] => None
  | (k, a) :: rest => if String.eqb k key then Some a else agents_get rest key
  end.

(** ** Teams ([autogen_agentchat.teams], [autogen_agentchat.conditions]) *)

Inductive termination : Type :=
| MaxMessageTermination (max_messages : Z)
| TextMentionTermination (text : string)
| HandoffTermination (target : string).

Inductive team_kind : Type := Swarm | RoundRobinGroupChat.

Record Team : Type := {
  kind : team_kind;
  participants : list Agent;
  termination_condition : termination
}.

(** ** Messages of a conversation *)

(** The [content] attribute of what a run yields: a [str] for text,
    hand-off and tool-summary messages; a list of call objects for
    tool-call events, on which every [marker in content] test is false;
    no such attribute on the closing task result. *)
Inductive msg_content : Type :=
| NoContent
| Text (s : string)
| Items.

Record Message : Type := {
  source : string;
  content : msg_content
}.

(** The [TaskResult] a batch run returns; [messages] may be missing. *)
Record TaskResult : Type := {
  messages : option (list Message);
  stop_reason : option string
}.

(** ** Memory tool data ([memory_tools.py]) *)

Record MemorySearchInput : Type := {
  query : string;
  category : option string;
  max_results : Z;
  similarity_threshold : float
}.

(** One entry of [formatted_results]: the [dict] with the keys ["id"],
    ["content"], ["metadata"], ["similarity"]. *)
Record Hit : Type := {
  hit_id : string;
  hit_content : string;
  hit_metadata : option py_value;
  hit_similarity : float
}.

Record MemorySearchResult : Type := {
  results : list Hit;
  total_results : Z
}.

Record MemoryStoreInput : Type := {
  store_content : string;
  store_metadata : py_dict;
  store_category : string
}.

Record MemoryStoreResult : Type := {
  memory_id : string;
  store_success : bool
}.

(** The wrapper both tools return: a payload and an optional error text. *)
Record ToolResult (A : Type) : Type := {
  result : option A;
  error : option string
}.
Arguments result {A} _.
Arguments error {A} _.

(** What [collection.query] returns: one row per query embedding. *)
Record QueryResult : Type := {
  ids : list (list string);
  documents : list (list string);
  metadatas : list (list py_value);
  distances : list (list float)
}.

(** ** The collaborators *)

(** Everything the code calls but does not implement.  A theorem that
    quantifies over [world] holds whatever these do. *)
Record world : Type := {
  (** [str(uuid4())] for the task and for a stored memory *)
  w_task_uuid : string;
  w_memory_uuid : string;
  (** [datetime.utcnow().isoformat()] while the [n]-th message of a run is
      processed, and when a solution is stored *)
  w_stamp : nat -> string;
  w_store_stamp : string;
  (** the time from the start of [solve_bug] to its end, in microseconds *)
  w_elapsed : Z;
  (** [str(v)] of a value that is not a [str]; [str(message)] *)
  w_repr : py_value -> string;
  w_str : Message -> string;
  (** [format(x, ".2f")] and [json.dumps(v, indent=2)] *)
  w_format_2f : float -> string;
  w_json_dumps : py_value -> string;
  (** [hasattr] and [setattr] of the pydantic model on a name that is not
      a declared field *)
  w_hasattr_other : string -> bool;
  w_setattr_other : TaskContext -> string -> py_value -> outcome TaskContext;
  (** the vector store: client creation, the embedding call, the nearest
      neighbour query, the insertion *)
  w_chroma_client : outcome unit;
  w_embedding : string -> outcome (list float);
  w_query : list float -> Z -> option string -> outcome QueryResult;
  w_add : string -> list float -> string -> py_dict -> outcome unit;
  (** resolution of a tool's input class through the tool's base class *)
  w_input_class : outcome unit;
  (** the checks of the team constructors: [Some e] when they raise *)
  w_team_check : team_kind -> list Agent -> termination -> option exn;
  (** the conversation: what [run_stream] yields before it ends or raises,
      and what [run] returns *)
  w_run_stream : Team -> string -> list Message * option exn;
  w_run : Team -> string -> outcome TaskResult
}.

(** ** [MemorySearchTool.run] *)

Definition index {A : Type} (l : list A) (i : nat) : outcome A :=
  match nth_error l i with
  | Some a => Return a
  | None => Raise "list index out of range"
  end.

(** [1 - distance], the cosine similarity. *)
Definition similarity_of (distance : float) : float := (1 - distance)%float.

(** [similarity >= threshold] on two [float] values. *)
Definition float_ge (x y : float) : bool := (y <=? x)%float.

(** The body of [for i in range(len(results['ids'][0]))], over the indices
    still to visit. *)
Fixpoint format_results (raw : QueryResult) (threshold : float)
    (todo : list nat) (formatted : list Hit) : outcome (list Hit) :=
  match todo with
  | [] => Return formatted
  | i :: rest =>
      drow <- index (distances raw) 0 ;;
      d <- index drow i ;;
      let similarity := similarity_of d in
      if float_ge similarity threshold then
        irow <- index (ids raw) 0 ;;
        id <- index irow i ;;
        crow <- index (documents raw) 0 ;;
        doc <- index crow i ;;
        mrow <- index (metadatas raw) 0 ;;
        meta <- index mrow i ;;
        format_results raw threshold rest
          (formatted ++ [ {| hit_id := id; hit_content := doc;
                             hit_metadata := Some meta;
                             hit_similarity := similarity |} ])%list
      else format_results raw threshold rest formatted
  end.

(** [args.category] is used as a filter only when it is a non-empty string. *)
Definition where_clause (c : option string) : option string :=
  match c with
  | Some s => if Py.truthy s then Some s else None
  | None => None
  end.

Definition search_body (w : world) (args : MemorySearchInput)
    : outcome (ToolResult MemorySearchResult) :=
  _ <- w_chroma_client w ;;
  query_embedding <- w_embedding w (query args) ;;
  raw <- w_query w query_embedding (max_results args)
           (where_clause (category args)) ;;
  formatted <-
    match ids raw with
    | first :: _ =>
        if (0 <? Z.of_nat (List.length first))%Z then
          format_results raw (similarity_threshold args)
            (seq 0 (List.length first)) []
        else Return []
    | [] => Return []
    end ;;
  Return {| result := Some {| results := formatted;
                              total_results := Z.of_nat (List.length formatted) |};
            error := None |}.

Definition MemorySearchTool_run (w : world) (args : MemorySearchInput)
    : outcome (ToolResult MemorySearchResult) :=
  try_except (search_body w args)
    (fun e => Return {| result := Some {| results := []; total_results := 0 |};
                        error := Some e |}).

(** ** [MemoryStoreTool.run] *)

Definition store_body (w : world) (args : MemoryStoreInput)
    : outcome (ToolResult MemoryStoreResult) :=
  _ <- w_chroma_client w ;;
  embedding <- w_embedding w (store_content args) ;;
  let id := w_memory_uuid w in
  let metadata :=
    dict_set (dict_set (store_metadata args) "category"
                (PStr (store_category args)))
      "stored_at" (PStr (w_store_stamp w)) in
  _ <- w_add w id embedding (store_content args) metadata ;;
  Return {| result := Some {| memory_id := id; store_success := true |};
            error := None |}.

Definition MemoryStoreTool_run (w : world) (args : MemoryStoreInput)
    : outcome (ToolResult MemoryStoreResult) :=
  try_except (store_body w args)
    (fun e => Return {| result := Some {| memory_id := ""; store_success := false |};
                        error := Some e |}).

(** ** [MemoryManager] *)

(** [str(v)] as an f-string inserts it. *)
Definition py_str (w : world) (v : py_value) : string :=
  match v with
  | PStr s => s
  | _ => w_repr w v
  end.

(** The literal [0.7] of the source: the binary64 value nearest to it. *)
Definition default_threshold : float := 0x1.6666666666666p-1%float.

(** The arguments [search_similar_issues] hands to the search tool. *)
Definition search_args (report : string) (n : Z) : MemorySearchInput :=
  {| query := report; category := Some "solution"; max_results := n;
     similarity_threshold := default_threshold |}.

Definition search_similar_issues (w : world) (report : string) (max_res : Z)
    : outcome (option (list Hit)) :=
  try_except
    (_ <- w_input_class w ;;
     res <- MemorySearchTool_run w (search_args report max_res) ;;
     match result res with
     | Some found =>
         match results found with
         | [] => Return None
         | hits => Return (Some hits)
         end
     | None => Return None
     end)
    (fun _ => Return None).

(** The solution record built by [_extract_solution]. *)
Record Solution : Type := {
  description : string;
  patches : list string;
  timestamp : string
}.

Definition solution_to_py (s : Solution) : py_value :=
  PDict [("description", PStr (description s));
         ("patches", PList (map PStr (patches s)));
         ("timestamp", PStr (timestamp s))].

Definition store_solution (w : world) (report : string) (sol : py_value)
    (context : py_dict) : outcome bool :=
  try_except
    (let text :=
       String Py.nl "## Bug Report" ++ String Py.nl report
       ++ String Py.nl (String Py.nl "## Solution")
       ++ String Py.nl (w_json_dumps w sol)
       ++ String Py.nl (String Py.nl "## Context")
       ++ String Py.nl "Task ID: "
       ++ py_str w (dict_get_default context "task_id" (PStr "unknown"))
       ++ String Py.nl "Iterations: "
       ++ py_str w (dict_get_default context "iteration" (PInt 0))
       ++ String Py.nl "Success: True" ++ String Py.nl "" in
     plan_steps <- py_len (dict_get_default context "plan" (PList [])) ;;
     patches_applied <-
       py_len (dict_get_default context "proposed_patches" (PList [])) ;;
     test_passed <-
       py_get (dict_get_default context "test_results" (PDict []))
         "success" (PBool false) ;;
     let metadata :=
       [("task_id", dict_get_default context "task_id" (PStr "unknown"));
        ("iterations", dict_get_default context "iteration" (PInt 0));
        ("timestamp", PStr (w_store_stamp w));
        ("plan_steps", PInt plan_steps);
        ("patches_applied", PInt patches_applied);
        ("test_passed", test_passed)] in
     _ <- w_input_class w ;;
     res <- MemoryStoreTool_run w
              {| store_content := text; store_metadata := metadata;
                 store_category := "solution" |} ;;
     match result res with
     | Some stored => Return (store_success stored)
     | None => Return false
     end)
    (fun _ => Return false).

(** ** [DebugTeam] *)

Record DebugTeam : Type := {
  agents : list (string * Agent);
  (** [self.memory_manager] and [self.metrics] are set *)
  has_memory : bool;
  has_metrics : bool
}.

(** [DebugTeam.__init__]. *)
Definition new_DebugTeam (cfg : Settings) (want_memory want_monitoring : bool)
    : DebugTeam :=
  {| agents := create_all_agents cfg;
     has_memory := want_memory && enable_memory cfg;
     has_metrics := want_monitoring |}.

(** A team constructor of the library: its own checks, then the team. *)
Definition group_chat (w : world) (k : team_kind) (members : list Agent)
    (cond : termination) : outcome Team :=
  match w_team_check w k members cond with
  | Some e => Raise e
  | None => Return {| kind := k; participants := members;
                      termination_condition := cond |}
  end.

(** The [for agent_name in agent_order] loop. *)
Fixpoint collect_agents (known : list (string * Agent)) (order : list string)
    : list Agent :=
  match order with
  | [] => []
  | name :: rest =>
      match agents_get known name with
      | Some a => a :: collect_agents known rest
      | None => collect_agents known rest
      end
  end.

Definition agent_order (cfg : Settings) : list string :=
  (["planner"; "locator"; "coder"; "executor"]
   ++ (if enable_critic (team cfg) then ["critic"] else [])
   ++ (if enable_reviewer (team cfg) then ["reviewer"] else []))%list.

Definition termination_conditions (cfg : Settings) : list termination :=
  [MaxMessageTermination (max_rounds (team cfg));
   TextMentionTermination "TASK_COMPLETE";
   TextMentionTermination "TASK_FAILED";
   HandoffTermination "Human"].

Definition _create_team (w : world) (self : DebugTeam) (cfg : Settings)
    (mode_arg : option string) : outcome Team :=
  let mode :=
    match mode_arg with
    | Some m => if Py.truthy m then m else coordination_mode (team cfg)
    | None => coordination_mode (team cfg)
    end in
  let agent_list := collect_agents (agents self) (agent_order cfg) in
  (* termination_conditions[0]: only the first condition is passed on *)
  let first_condition :=
    hd (HandoffTermination "Human") (termination_conditions cfg) in
  if String.eqb mode "swarm" then group_chat w Swarm agent_list first_condition
  else if String.eqb mode "round_robin" then
    group_chat w RoundRobinGroupChat agent_list first_condition
  else group_chat w Swarm agent_list first_condition.

(** The [for key, value in context.items()] loop of
    [_create_task_context]. *)
Fixpoint apply_context (w : world) (tc : TaskContext) (items : py_dict)
    : outcome TaskContext :=
  match items with
  | [] => Return tc
  | (key, value) :: rest =>
      if is_field key then apply_context w (set_field tc key value) rest
      else if w_hasattr_other w key then
        tc' <- w_setattr_other w tc key value ;;
        apply_context w tc' rest
      else apply_context w tc rest
  end.

Definition _create_task_context (w : world) (cfg : Settings) (report : string)
    (context : option py_dict) : outcome TaskContext :=
  let fresh := new_TaskContext (w_task_uuid w) report (max_rounds (team cfg)) in
  match context with
  | Some (item :: items) => apply_context w fresh (item :: items)
  | _ => Return fresh
  end.

(** *** The initial message *)

(** [str(i)] of a small natural number. *)
Definition nat_str (n : nat) : string :=
  DecimalString.NilEmpty.string_of_uint (Nat.to_uint n).

(** The text one similar solution contributes, [i] counting from 1. *)
Definition solution_entry (w : world) (i : nat) (h : Hit) : string :=
  String Py.nl "### Solution " ++ nat_str i ++ " (Similarity: "
  ++ w_format_2f w (hit_similarity h) ++ ")" ++ String Py.nl ""
  ++ hit_content h ++ String Py.nl ""
  ++ match hit_metadata h with
     | Some meta => "Context: " ++ w_json_dumps w meta ++ String Py.nl ""
     | None => ""
     end.

(** [for i, solution in enumerate(hits, i)], appending to the message. *)
Fixpoint solution_entries (w : world) (i : nat) (hits : list Hit) : string :=
  match hits with
  | [] => ""
  | h :: rest => solution_entry w i h ++ solution_entries w (S i) rest
  end.

Definition similar_heading : string :=
  String Py.nl "## Similar Past Solutions" ++ String Py.nl "".

(** What [if similar_solutions:] adds; [None] and [[]] are both false. *)
Definition similar_section (w : world) (similar : option (list Hit)) : string :=
  match similar with
  | Some (h :: hits) =>
      similar_heading ++ solution_entries w 1 (firstn 3 (h :: hits))
  | _ => ""
  end.

Definition instructions : string :=
  String Py.nl "## Instructions" ++ String Py.nl ""
  ++ "Please analyze this bug report and work together to create a fix. "
  ++ "Start by creating a detailed plan, then locate the relevant code, "
  ++ "implement a fix, test it, and validate the solution.".

Definition _prepare_initial_message (w : world) (report : string)
    (tc : TaskContext) (similar : option (list Hit)) : string :=
  String Py.nl "## Bug Report" ++ String Py.nl report
  ++ String Py.nl (String Py.nl "## Task ID: ") ++ py_str w (task_id tc)
  ++ String Py.nl ""
  ++ similar_section w similar
  ++ instructions.

(** *** Extraction from messages *)

(** [marker in content] on a message that has a [content]. *)
Definition mentions (marker : string) (c : msg_content) : bool :=
  match c with
  | Text s => Py.contains marker s
  | _ => false
  end.

(** [_extract_patch] and [_extract_test_results] build the same record. *)
Definition _extract_patch (content : string) (stamp : string) : py_value :=
  PDict [("content", PStr content); ("timestamp", PStr stamp)].

Definition _extract_test_results (content : string) (stamp : string)
    : py_value :=
  PDict [("content", PStr content); ("timestamp", PStr stamp)].

(** The contents [_extract_solution] keeps, in transcript order. *)
Fixpoint solution_parts (msgs : list Message) : list string :=
  match msgs with
  | [] => []
  | m :: rest =>
      match content m with
      | Text s =>
          if existsb (fun keyword => Py.contains keyword s)
               ["PATCH:"; "FIX:"; "SOLUTION:"]
          then s :: solution_parts rest
          else solution_parts rest
      | _ => solution_parts rest
      end
  end.

Definition _extract_solution (msgs : list Message) (stamp : string) : Solution :=
  {| description := "Combined solution from agent team";
     patches := solution_parts msgs;
     timestamp := stamp |}.

(** *** The result of a run *)

(** The three shapes of the [dict] that [solve_bug] returns. *)
Inductive RunResult : Type :=
| StreamResult (success : bool) (sol : option Solution)
    (transcript : list Message) (snapshot : py_dict) (tid : py_value)
| BatchResult (success : bool) (sol : option Solution)
    (raw : TaskResult) (snapshot : py_dict) (tid : py_value)
| ErrorResult (err : string) (tid : py_value) (duration : Z).

(** [result["success"]]. *)
Definition result_success (r : RunResult) : bool :=
  match r with
  | StreamResult ok _ _ _ _ | BatchResult ok _ _ _ _ => ok
  | ErrorResult _ _ _ => false
  end.

(** [result.get("solution")]. *)
Definition result_solution (r : RunResult) : option Solution :=
  match r with
  | StreamResult _ sol _ _ _ | BatchResult _ sol _ _ _ => sol
  | ErrorResult _ _ _ => None
  end.

(** [result.get("error")]. *)
Definition result_error (r : RunResult) : option string :=
  match r with
  | ErrorResult err _ _ => Some err
  | _ => None
  end.

(** [result.get("task_context")]. *)
Definition result_snapshot (r : RunResult) : option py_dict :=
  match r with
  | StreamResult _ _ _ snap _ | BatchResult _ _ _ snap _ => Some snap
  | ErrorResult _ _ _ => None
  end.

(** *** Streaming *)

(** The local variables of [_run_streaming] together with the task context
    they update. *)
Record StreamState : Type := {
  st_context : TaskContext;
  st_success : bool;
  st_solution : option Solution;
  st_messages : list Message
}.

Definition with_context (st : StreamState) (tc : TaskContext) : StreamState :=
  {| st_context := tc; st_success := st_success st;
     st_solution := st_solution st; st_messages := st_messages st |}.

(** [task_context.proposed_patches.append(patch)] after the [is None]
    test. *)
Definition append_patch (tc : TaskContext) (patch : py_value)
    : outcome TaskContext :=
  match proposed_patches tc with
  | PNone => Return (set_field tc "proposed_patches" (PList [patch]))
  | PList old =>
      Return (set_field tc "proposed_patches" (PList (old ++ [patch])%list))
  | other =>
      Raise ("'" ++ type_name other ++ "' object has no attribute 'append'")
  end.

(** One round of the [async for] loop. *)
Definition stream_step (w : world) (st : StreamState) (m : Message)
    : outcome StreamState :=
  let seen := (st_messages st ++ [m])%list in
  let stamp := w_stamp w (List.length (st_messages st)) in
  let st1 := {| st_context := st_context st; st_success := st_success st;
                st_solution := st_solution st; st_messages := seen |} in
  match content m with
  | NoContent => Return st1
  | Items => Return st1
  | Text s =>
      if Py.contains "PLAN:" s then
        Return (with_context st1
                  (set_field (st_context st) "plan"
                     (PList (map PStr (_extract_plan s)))))
      else if Py.contains "PATCH:" s then
        tc <- append_patch (st_context st) (_extract_patch s stamp) ;;
        Return (with_context st1 tc)
      else if Py.contains "TEST_RESULTS:" s then
        Return (with_context st1
                  (set_field (st_context st) "test_results"
                     (_extract_test_results s stamp)))
      else if Py.contains "TASK_COMPLETE" s then
        Return {| st_context := st_context st; st_success := true;
                  st_solution := Some (_extract_solution seen stamp);
                  st_messages := seen |}
      else Return st1
  end.

Fixpoint stream_loop (w : world) (st : StreamState) (msgs : list Message)
    : outcome StreamState :=
  match msgs with
  | [] => Return st
  | m :: rest =>
      st' <- stream_step w st m ;;
      stream_loop w st' rest
  end.

Definition stream_start (tc : TaskContext) : StreamState :=
  {| st_context := tc; st_success := false; st_solution := None;
     st_messages := [] |}.

(** The streaming driver on the messages the conversation yields; the
    second component is the task context as the run leaves it. *)
Definition run_streaming_on (w : world) (yielded : list Message)
    (failure : option exn) (tc : TaskContext) : outcome (RunResult * TaskContext) :=
  st <- stream_loop w (stream_start tc) yielded ;;
  match failure with
  | Some e => Raise e
  | None =>
      Return (StreamResult (st_success st) (st_solution st) (st_messages st)
                (model_dump (st_context st)) (task_id (st_context st)),
              st_context st)
  end.

Definition _run_streaming (w : world) (t : Team) (initial_message : string)
    (tc : TaskContext) : outcome (RunResult * TaskContext) :=
  let (yielded, failure) := w_run_stream w t initial_message in
  run_streaming_on w yielded failure tc.

(** *** Batch *)

(** The [for message in result.messages] loop with its [break]. *)
Definition batch_scan (w : world) (msgs : list Message)
    : bool * option Solution :=
  if existsb (fun m => Py.contains "TASK_COMPLETE" (w_str w m)) msgs
  then (true, Some (_extract_solution msgs (w_stamp w (List.length msgs))))
  else (false, None).

Definition run_batch_on (w : world) (res : TaskResult) (tc : TaskContext)
    : RunResult :=
  let (success, sol) :=
    match messages res with
    | Some msgs => batch_scan w msgs
    | None => (false, None)
    end in
  BatchResult success sol res (model_dump tc) (task_id tc).

Definition _run_batch (w : world) (t : Team) (initial_message : string)
    (tc : TaskContext) : outcome (RunResult * TaskContext) :=
  res <- w_run w t initial_message ;;
  Return (run_batch_on w res tc, tc).

(** *** [solve_bug] *)

(** The calls [solve_bug] makes on the metrics collector. *)
Inductive MetricEvent : Type :=
| record_task_start (tid : py_value)
| record_task_completion (tid : py_value) (success : bool) (duration : Z)
| record_task_failure (tid : py_value) (err : string).

(** The statements between [try:] and [return result], the metric calls
    aside. *)
Definition solve_bug_body (w : world) (self : DebugTeam) (cfg : Settings)
    (report : string) (tc : TaskContext) (stream : bool) : outcome RunResult :=
  similar_solutions <-
    (if has_memory self then search_similar_issues w report 5
     else Return None) ;;
  t <- _create_team w self cfg None ;;
  let initial_message := _prepare_initial_message w report tc similar_solutions in
  ran <- (if stream then _run_streaming w t initial_message tc
          else _run_batch w t initial_message tc) ;;
  let (res, tc') := ran in
  _ <- (if result_success res && has_memory self then
          store_solution w report
            (match result_solution res with
             | Some sol => solution_to_py sol
             | None => PNone
             end)
            (model_dump tc')
        else Return false) ;;
  Return res.

Definition when_metrics (self : DebugTeam) (events : list MetricEvent)
    : list MetricEvent :=
  if has_metrics self then events else [].

(** Whether [hash(v)] returns: a list and a dict have no hash. *)
Definition hashable (v : py_value) : bool :=
  match v with
  | PList _ | PDict _ => false
  | _ => true
  end.

(** [if self.metrics: self.metrics.record_...(task_id, ...)]: the call
    made, if one is made and returns.  All three calls use the task id as
    a key of [task_metrics] ([record_task_failure] through
    [record_task_completion]), which raises [TypeError] when the id has
    no hash. *)
Definition metric_call (self : DebugTeam) (tid : py_value)
    (event : MetricEvent) : outcome (list MetricEvent) :=
  if has_metrics self then
    if hashable tid then Return [event]
    else Raise ("unhashable type: '" ++ type_name tid ++ "'")
  else Return [].

(** The [except Exception as e] block of [solve_bug], entered after the
    metric calls [so_far]. *)
Definition solve_bug_handler (w : world) (self : DebugTeam) (tc : TaskContext)
    (so_far : list MetricEvent) (e : exn)
    : outcome (RunResult * list MetricEvent) :=
  failed <- metric_call self (task_id tc) (record_task_failure (task_id tc) e) ;;
  Return (ErrorResult e (task_id tc) (w_elapsed w), (so_far ++ failed)%list).

(** [solve_bug]: the result together with the metric calls that returned.
    The task context is created before the [try]; the report of the start
    is the first statement inside it. *)
Definition solve_bug (w : world) (self : DebugTeam) (cfg : Settings)
    (report : string) (context : option py_dict) (stream : bool)
    : outcome (RunResult * list MetricEvent) :=
  tc <- _create_task_context w cfg report context ;;
  match metric_call self (task_id tc) (record_task_start (task_id tc)) with
  | Raise e => solve_bug_handler w self tc [] e
  | Return started =>
      match solve_bug_body w self cfg report tc stream with
      | Raise e => solve_bug_handler w self tc started e
      | Return res =>
          match metric_call self (task_id tc)
                  (record_task_completion (task_id tc) (result_success res)
                     (w_elapsed w)) with
          | Raise e => solve_bug_handler w self tc started e
          | Return completed => Return (res, (started ++ completed)%list)
          end
      end
  end.

(** ** A sample world

    A conversation that yields nothing, a vector store that is unreachable
    and library routines that print nothing.  The closed examples below run
    the code in it. *)
Definition quiet_world : world :=
  {| w_task_uuid := "3f2b8c1e-0000-4000-8000-000000000001";
     w_memory_uuid := "3f2b8c1e-0000-4000-8000-000000000002";
     w_stamp := fun _ => "2024-01-01T00:00:00";
     w_store_stamp := "2024-01-01T00:00:01";
     w_elapsed := 1000000;
     w_repr := fun _ => "";
     w_str := fun m => match content m with Text s => s | _ => "" end;
     w_format_2f := fun _ => "0.00";
     w_json_dumps := fun _ => "{}";
     w_hasattr_other := fun _ => false;
     w_setattr_other := fun _ name _ =>
       Raise ("object has no field " ++ name);
     w_chroma_client := Raise "store unreachable";
     w_embedding := fun _ => Raise "embedding failure";
     w_query := fun _ _ _ => Raise "store unreachable";
     w_add := fun _ _ _ _ => Raise "store unreachable";
     w_input_class := Return tt;
     w_team_check := fun _ _ _ => None;
     w_run_stream := fun _ _ => ([], None);
     w_run := fun _ _ => Return {| messages := Some []; stop_reason := None |} |}.

(** The same world with a fixed conversation, which ends normally or with
    the exception [failure]. *)
Definition world_with (transcript : list Message) (failure : option exn)
    : world :=
  {| w_task_uuid := w_task_uuid quiet_world;
     w_memory_uuid := w_memory_uuid quiet_world;
     w_stamp := w_stamp quiet_world;
     w_store_stamp := w_store_stamp quiet_world;
     w_elapsed := w_elapsed quiet_world;
     w_repr := w_repr quiet_world;
     w_str := w_str quiet_world;
     w_format_2f := w_format_2f quiet_world;
     w_json_dumps := w_json_dumps quiet_world;
     w_hasattr_other := w_hasattr_other quiet_world;
     w_setattr_other := w_setattr_other quiet_world;
     w_chroma_client := w_chroma_client quiet_world;
     w_embedding := w_embedding quiet_world;
     w_query := w_query quiet_world;
     w_add := w_add quiet_world;
     w_input_class := w_input_class quiet_world;
     w_team_check := w_team_check quiet_world;
     w_run_stream := fun _ _ => (transcript, failure);
     w_run := fun _ _ =>
       match failure with
       | Some e => Raise e
       | None => Return {| messages := Some transcript; stop_reason := None |}
       end |}.

Definition say (who text : string) : Message :=
  {| source := who; content := Text text |}.

Definition default_settings : Settings :=
  {| team := {| max_rounds := 20; enable_critic := true;
                enable_reviewer := true; coordination_mode := "swarm" |};
     enable_memory := true |}.

(** ** Sample inputs *)

(** The planning message of the specification's scenario. *)
Definition scenario_plan_message : string :=
  "PLAN:" ++ String Py.nl ("- step one" ++ String Py.nl
    ("- step two" ++ String Py.nl "TASK_COMPLETE")).

(** A plan of four numbered steps. *)
Definition four_step_plan : string :=
  "PLAN:" ++ String Py.nl ("1. a" ++ String Py.nl ("2. b" ++ String Py.nl
    ("3. c" ++ String Py.nl "4. d"))).

(** A fresh task context, as [_create_task_context] builds it without
    caller overrides. *)
Definition sample_context : TaskContext :=
  new_TaskContext "3f2b8c1e-0000-4000-8000-000000000001"
    "TypeError: unsupported operand type(s) for +: 'int' and 'str'" 20.

(** A conversation in which a failure report is followed by a completion
    report; only the round bound is wired into the team, so the
    conversation goes on after [TASK_FAILED]. *)
Definition failed_then_complete : list Message :=
  [say "Executor" "Tests still red. TASK_FAILED";
   say "Reviewer" "Looks fine to me. TASK_COMPLETE"].

(** A conversation that ends with a patch and a completion report. *)
Definition patch_then_complete : list Message :=
  [say "Coder" "PATCH: cast the input to int";
   say "Reviewer" "TASK_COMPLETE"].

(** The scenario's conversation: three messages, the third the planning
    message that also carries the completion marker. *)
Definition scenario_transcript : list Message :=
  [say "user" "Fix the TypeError in calculator.py";
   say "Planner" "Reading the report";
   say "Planner" scenario_plan_message].

(** The configuration with both optional roles switched off. *)
Definition lean_settings : Settings :=
  {| team := {| max_rounds := 20; enable_critic := false;
                enable_reviewer := false; coordination_mode := "swarm" |};
     enable_memory := true |}.

(** The team [DebugTeam()] under the default settings. *)
Definition default_team : DebugTeam :=
  new_DebugTeam default_settings true true.

Definition sample_report : string :=
  "TypeError: unsupported operand type(s) for +: 'int' and 'str'".

(** A world whose model call fails after the first message. *)
Definition failing_world : world :=
  world_with [say "user" "Fix the TypeError in calculator.py"]
    (Some "model call failed: 503").

(** What the stocked store below holds: two past solutions, at cosine
    distance 0.125 and 0.5 from any query. *)
Definition stock : QueryResult :=
  {| ids := [["m-1"; "m-2"]];
     documents := [["cast the input with int()"; "upgrade the dependency"]];
     metadatas := [[PDict [("category", PStr "solution")];
                    PDict [("category", PStr "solution")]]];
     distances := [[0.125%float; 0.5%float]] |}.

Definition truncate (n : nat) (raw : QueryResult) : QueryResult :=
  {| ids := map (firstn n) (ids raw);
     documents := map (firstn n) (documents raw);
     metadatas := map (firstn n) (metadatas raw);
     distances := map (firstn n) (distances raw) |}.

(** A world whose vector store works: it answers every query with the
    nearest [n_results] entries of [stock] and refuses a count that is not
    positive. *)
Definition stocked_world : world :=
  {| w_task_uuid := w_task_uuid quiet_world;
     w_memory_uuid := w_memory_uuid quiet_world;
     w_stamp := w_stamp quiet_world;
     w_store_stamp := w_store_stamp quiet_world;
     w_elapsed := w_elapsed quiet_world;
     w_repr := w_repr quiet_world;
     w_str := w_str quiet_world;
     w_format_2f := w_format_2f quiet_world;
     w_json_dumps := w_json_dumps quiet_world;
     w_hasattr_other := w_hasattr_other quiet_world;
     w_setattr_other := w_setattr_other quiet_world;
     w_chroma_client := Return tt;
     w_embedding := fun _ => Return [];
     w_query := fun _ n _ =>
       if (0 <? n)%Z then Return (truncate (Z.to_nat n) stock)
       else Raise "Number of requested results cannot be negative, or zero";
     w_add := fun _ _ _ _ => Return tt;
     w_input_class := w_input_class quiet_world;
     w_team_check := w_team_check quiet_world;
     w_run_stream := w_run_stream quiet_world;
     w_run := w_run quiet_world |}.

(** A bug report that quotes the heading the composer uses for past
    solutions. *)
Definition quoting_report : string :=
  "Crash on start. The last session printed:" ++ String Py.nl ""
  ++ similar_heading
  ++ String Py.nl "### Solution 1 (Similarity: 0.99)" ++ String Py.nl ""
  ++ "delete the lock file".

(** A caller context that names four fields and one unknown key. *)
Definition overriding_context : py_dict :=
  [("task_id", PStr "ticket-42"); ("iteration", PInt 7);
   ("max_iterations", PInt 3); ("severity", PStr "high");
   ("plan", PList [PStr "reproduce"])].

(** ** Predicates of the statements *)

(** [proposed_patches] holds what its declaration allows. *)
Definition patches_ok (tc : TaskContext) : Prop :=
  proposed_patches tc = PNone \/ exists l, proposed_patches tc = PList l.

(** A message that reaches the [TASK_COMPLETE] branch of the [elif]
    chain. *)
Definition completes (m : Message) : bool :=
  match content m with
  | Text s =>
      Py.contains "TASK_COMPLETE" s
      && negb (Py.contains "PLAN:" s)
      && negb (Py.contains "PATCH:" s)
      && negb (Py.contains "TEST_RESULTS:" s)
  | _ => false
  end.

(** The fields no round writes. *)
Definition same_identity (a b : TaskContext) : Prop :=
  task_id a = task_id b /\ bug_report a = bug_report b
  /\ iteration a = iteration b /\ max_iterations a = max_iterations b.

(** Success, once set, stays set: no round resets it. *)
Definition succeeded (st : StreamState) : Prop :=
  st_success st = true /\ st_solution st <> None.

(** The text form of a message shows its content: a marker made of
    letters and underscores survives [str(message)]. *)
Definition str_shows_content (w : world) : Prop :=
  forall m s, content m = Text s ->
    Py.contains "TASK_COMPLETE" s = true ->
    Py.contains "TASK_COMPLETE" (w_str w m) = true.

(** The roles of a team in their fixed order. *)
Definition roster (cfg : Settings) : list Agent :=
  ([PlannerAgent; LocatorAgent; CoderAgent; ExecutorAgent]
   ++ (if enable_critic (team cfg) then [CriticAgent] else [])
   ++ (if enable_reviewer (team cfg) then [ReviewerAgent] else []))%list.

(** Some role of the team names a hand-off target that is no role of the
    team. *)
Definition dangling_handoff (t : Team) : Prop :=
  exists a target,
    In a (participants t) /\ In target (handoffs a)
    /\ ~ In target (map agent_name (participants t)).

(** Every call of the store tool fails inside the tool. *)
Definition store_fails (w : world) : Prop :=
  forall args, exists e, store_body w args = Raise e.

(** Every call of the search tool fails inside the tool. *)
Definition search_fails (w : world) : Prop :=
  forall args, exists e, search_body w args = Raise e.

(** The same team with [self.memory_manager] unset. *)
Definition without_memory (self : DebugTeam) : DebugTeam :=
  {| agents := agents self; has_memory := false;
     has_metrics := has_metrics self |}.

(** The run proper: what [solve_bug_body] does once the similar solutions
    are known, memory aside. *)
Definition team_run (w : world) (self : DebugTeam) (cfg : Settings)
    (report : string) (tc : TaskContext) (stream : bool)
    (similar : option (list Hit)) : outcome (RunResult * TaskContext) :=
  t <- _create_team w self cfg None ;;
  if stream then
    _run_streaming w t (_prepare_initial_message w report tc similar) tc
  else _run_batch w t (_prepare_initial_message w report tc similar) tc.

(** [iteration] and [max_iterations] hold integers, the first at most
    the second. *)
Definition bounded (tc : TaskContext) : Prop :=
  exists i m, iteration tc = PInt i /\ max_iterations tc = PInt m /\ (i <= m)%Z.

(** The collector takes the start of the task: the first statement of
    the [try] of [solve_bug] returns, with the calls [started]. *)
Definition start_recorded (self : DebugTeam) (tc : TaskContext)
    (started : list MetricEvent) : Prop :=
  metric_call self (task_id tc) (record_task_start (task_id tc))
  = Return started.

(** A task context whose [task_id] is a string, as the field is declared,
    and whose [iteration] is within [max_iterations]. *)
Definition well_formed (tc : TaskContext) : Prop :=
  (exists s, task_id tc = PStr s) /\ bounded tc.

(** The same, read off a snapshot. *)
Definition snapshot_bounded (snap : py_dict) : Prop :=
  exists i m,
    dict_get snap "iteration" = Some (PInt i)
    /\ dict_get snap "max_iterations" = Some (PInt m)
    /\ (i <= m)%Z.

(** The store answers a query for [n] results with at most [n] of them. *)
Definition top_k_store (w : world) : Prop :=
  forall embedding n filter raw first rest,
    w_query w embedding n filter = Return raw ->
    ids raw = first :: rest ->
    (Z.of_nat (List.length first) <= n)%Z.

(** A result whose similarity reaches the threshold. *)
Definition above (threshold : float) (h : Hit) : Prop :=
  float_ge (hit_similarity h) threshold = true.

(** The words of the heading of the section of past solutions. *)
Definition past_solutions_words : string := "Similar Past Solutions".

(** The keys of the caller context that [hasattr] accepts are declared
    fields. *)
Definition only_fields_known (w : world) (items : py_dict) : Prop :=
  forall key, In key (map fst items) ->
    is_field key = false -> w_hasattr_other w key = false.

(** ** Branches of the streaming loop *)

(** The text of a message, [""] when it has none. *)
Definition text_of (m : Message) : string :=
  match content m with
  | Text s => s
  | _ => ""
  end.

(** The message takes the [PLAN:] branch. *)
Definition reaches_plan (m : Message) : bool :=
  mentions "PLAN:" (content m).

(** The message takes the [PATCH:] branch. *)
Definition reaches_patch (m : Message) : bool :=
  negb (mentions "PLAN:" (content m)) && mentions "PATCH:" (content m).

(** The message takes the [TEST_RESULTS:] branch. *)
Definition reaches_test (m : Message) : bool :=
  negb (mentions "PLAN:" (content m))
  && negb (mentions "PATCH:" (content m))
  && mentions "TEST_RESULTS:" (content m).

(** The items of a list value, none for any other value. *)
Definition items_of (v : py_value) : list py_value :=
  match v with
  | PList items => items
  | _ => []
  end.

(** The patch records of a conversation whose first message is the
    [pos]-th of the run: one for each message that takes the [PATCH:]
    branch, in order. *)
Fixpoint collected_patches (w : world) (pos : nat) (msgs : list Message)
    : list py_value :=
  match msgs with
  | [] => []
  | m :: rest =>
      if reaches_patch m
      then _extract_patch (text_of m) (w_stamp w pos)
           :: collected_patches w (S pos) rest
      else collected_patches w (S pos) rest
  end.

(** A world in which the model object has the listed attributes besides
    its fields, none of which can be assigned. *)
Definition with_attributes (w : world) (names : list string) : world :=
  {| w_task_uuid := w_task_uuid w;
     w_memory_uuid := w_memory_uuid w;
     w_stamp := w_stamp w;
     w_store_stamp := w_store_stamp w;
     w_elapsed := w_elapsed w;
     w_repr := w_repr w;
     w_str := w_str w;
     w_format_2f := w_format_2f w;
     w_json_dumps := w_json_dumps w;
     w_hasattr_other := fun name => existsb (String.eqb name) names;
     w_setattr_other := fun _ name _ =>
       Raise ("'TaskContext' object has no field '" ++ name ++ "'");
     w_chroma_client := w_chroma_client w;
     w_embedding := w_embedding w;
     w_query := w_query w;
     w_add := w_add w;
     w_input_class := w_input_class w;
     w_team_check := w_team_check w;
     w_run_stream := w_run_stream w;
     w_run := w_run w |}.

(** A value on which [append] is not defined and which is not [None]. *)
Definition not_appendable (v : py_value) : Prop :=
  match v with
  | PNone | PList _ => False
  | _ => True
  end.

(** The keys of these items are declared fields or no attributes at all:
    the creation loop passes them without raising. *)
Definition harmless_keys (w : world) (items : py_dict) : Prop :=
  forall key, In key (map fst items) ->
    is_field key = true \/ w_hasattr_other w key = false.

(** ** The answer of the store, entry by entry *)

(** The entries of one answer row by row, with their similarity. *)
Fixpoint stored_hits (row_ids row_documents : list string)
    (row_metadatas : list py_value) (row_distances : list float) : list Hit :=
  match row_ids, row_documents, row_metadatas, row_distances with
  | id :: row_ids', doc :: row_documents', meta :: row_metadatas',
    d :: row_distances' =>
      {| hit_id := id; hit_content := doc; hit_metadata := Some meta;
         hit_similarity := similarity_of d |}
      :: stored_hits row_ids' row_documents' row_metadatas' row_distances'
  | _, _, _, _ => []
  end.

(** [similarity >= threshold], as a test on a result. *)
Definition reaches (threshold : float) (h : Hit) : bool :=
  float_ge (hit_similarity h) threshold.

(** A value [len] accepts. *)
Definition has_len (v : py_value) : Prop :=
  match v with
  | PStr _ | PList _ | PDict _ => True
  | _ => False
  end.

(** A world whose vector store is reachable and answers every query with
    [answer]. *)
Definition with_store (w : world) (answer : outcome QueryResult) : world :=
  {| w_task_uuid := w_task_uuid w;
     w_memory_uuid := w_memory_uuid w;
     w_stamp := w_stamp w;
     w_store_stamp := w_store_stamp w;
     w_elapsed := w_elapsed w;
     w_repr := w_repr w;
     w_str := w_str w;
     w_format_2f := w_format_2f w;
     w_json_dumps := w_json_dumps w;
     w_hasattr_other := w_hasattr_other w;
     w_setattr_other := w_setattr_other w;
     w_chroma_client := Return tt;
     w_embedding := fun _ => Return [];
     w_query := fun _ _ _ => answer;
     w_add := fun _ _ _ _ => Return tt;
     w_input_class := w_input_class w;
     w_team_check := w_team_check w;
     w_run_stream := w_run_stream w;
     w_run := w_run w |}.

(** An answer with two ids and one distance. *)
Definition gapped_answer : QueryResult :=
  {| ids := [["m-1"; "m-2"]];
     documents := [["cast the input with int()"; "upgrade the dependency"]];
     metadatas := [[PNone; PNone]];
     distances := [[0.125%float]] |}.

(** A task context as a run with a plan, a patch and test results leaves
    it. *)
Definition worked_context : TaskContext :=
  {| task_id := PStr "3f2b8c1e-0000-4000-8000-000000000001";
     bug_report := PStr "TypeError";
     plan := PList [PStr "step one"; PStr "step two"];
     located_files := PNone;
     proposed_patches := PList [_extract_patch "PATCH: x" "2024-01-01T00:00:00"];
     test_results := _extract_test_results "TEST_RESULTS: ok" "2024-01-01T00:00:00";
     critique := PNone;
     iteration := PInt 0;
     max_iterations := PInt 20 |}.

(** The mode [_create_team] works with: its argument unless that is
    [None] or empty, the configured mode otherwise. *)
Definition effective_mode (cfg : Settings) (mode_arg : option string) : string :=
  match mode_arg with
  | Some m => if Py.truthy m then m else coordination_mode (team cfg)
  | None => coordination_mode (team cfg)
  end.

(** The configuration under which the agents were created and the one in
    force at assembly both enable the role. *)
Definition both (flag : TeamConfig -> bool) (cfg0 cfg1 : Settings) : bool :=
  flag (team cfg0) && flag (team cfg1).

(** ** The application object ([main.py], class [AutoDebugAI]) *)

(** [self.team], unset until the first use. *)
Record AutoDebugAI : Type := {
  app_team : option DebugTeam
}.

(** [AutoDebugAI.initialize]: the team under the settings in force;
    [telemetry] is [settings.enable_telemetry].  [parts] is what the
    constructors do that [DebugTeam(...)] calls, those of the agents, of
    the memory manager and of the collector: they may raise. *)
Definition initialize (parts : outcome unit) (cfg : Settings)
    (telemetry : bool) : outcome AutoDebugAI :=
  _ <- parts ;;
  Return {| app_team := Some (new_DebugTeam cfg (enable_memory cfg) telemetry) |}.

(** The application after [if not self.team: await self.initialize()]. *)
Definition ensure_team (parts : outcome unit) (cfg : Settings)
    (telemetry : bool) (app : AutoDebugAI) : outcome AutoDebugAI :=
  match app_team app with
  | Some _ => Return app
  | None => initialize parts cfg telemetry
  end.

(** The team [AutoDebugAI.solve_bug] hands the report to. *)
Definition team_in_charge (cfg : Settings) (telemetry : bool)
    (app : AutoDebugAI) : DebugTeam :=
  match app_team app with
  | Some t => t
  | None => new_DebugTeam cfg (enable_memory cfg) telemetry
  end.

(** [AutoDebugAI.solve_bug]: the outcome of the team's [solve_bug], an
    exception logged and raised again, and the application afterwards.
    The initialization is outside the [try]. *)
Definition app_solve_bug (w : world) (parts : outcome unit) (cfg : Settings)
    (telemetry : bool) (app : AutoDebugAI) (report : string)
    (context : option py_dict) (stream : bool)
    : outcome RunResult * AutoDebugAI :=
  match ensure_team parts cfg telemetry app with
  | Raise e => (Raise e, app)
  | Return app' =>
      (try_except
         (ran <- solve_bug w (team_in_charge cfg telemetry app) cfg report
                   context stream ;;
          Return (fst ran))
         (fun e => Raise e),
       app')
  end.

(** ** The task registry of the server ([api.py]) *)

Record BugReportRequest : Type := {
  req_bug_report : string;
  req_context : option py_dict;
  req_stream : bool
}.

(** One entry of the module-level dictionary [tasks]. *)
Record Task : Type := {
  t_id : string;
  t_status : string;
  t_created_at : string;
  t_updated_at : string;
  t_request : BugReportRequest;
  t_result : option RunResult;
  t_error : option string
}.

Definition registry : Type := list (string * Task).

(** [task_id in tasks] and [tasks[task_id]]. *)
Fixpoint registry_get (tasks : registry) (task_id : string) : option Task :=
  match tasks with
  | [] => None
  | (k, t) :: rest =>
      if String.eqb k task_id then Some t else registry_get rest task_id
  end.

(** [tasks[task_id] = task]. *)
Fixpoint registry_set (tasks : registry) (task_id : string) (task : Task)
    : registry :=
  match tasks with
  | [] => [(task_id, task)]
  | (k, t) :: rest =>
      if String.eqb k task_id then (k, task) :: rest
      else (k, t) :: registry_set rest task_id task
  end.

(** [tasks[task_id][field] = value]: a [KeyError] when the task is not
    registered; [str] of a [KeyError] is [repr] of the key. *)
Definition update_task (tasks : registry) (task_id : string)
    (change : Task -> Task) : outcome registry :=
  match registry_get tasks task_id with
  | Some t => Return (registry_set tasks task_id (change t))
  | None => Raise (Py.repr task_id)
  end.

Definition set_status (status : string) (t : Task) : Task :=
  {| t_id := t_id t; t_status := status; t_created_at := t_created_at t;
     t_updated_at := t_updated_at t; t_request := t_request t;
     t_result := t_result t; t_error := t_error t |}.

Definition set_updated_at (stamp : string) (t : Task) : Task :=
  {| t_id := t_id t; t_status := t_status t; t_created_at := t_created_at t;
     t_updated_at := stamp; t_request := t_request t;
     t_result := t_result t; t_error := t_error t |}.

Definition set_result (r : RunResult) (t : Task) : Task :=
  {| t_id := t_id t; t_status := t_status t; t_created_at := t_created_at t;
     t_updated_at := t_updated_at t; t_request := t_request t;
     t_result := Some r; t_error := t_error t |}.

Definition set_error (e : string) (t : Task) : Task :=
  {| t_id := t_id t; t_status := t_status t; t_created_at := t_created_at t;
     t_updated_at := t_updated_at t; t_request := t_request t;
     t_result := t_result t; t_error := Some e |}.

(** What an endpoint answers: a response or an [HTTPException]. *)
Inductive http (A : Type) : Type :=
| Ok (a : A)
| HTTPException (status_code : Z) (detail : string).
Arguments Ok {A} a.
Arguments HTTPException {A} status_code detail.

Record TaskResponse : Type := {
  resp_task_id : string;
  resp_status : string;
  resp_created_at : string
}.

Record TaskStatusResponse : Type := {
  ts_task_id : string;
  ts_status : string;
  ts_result : option RunResult;
  ts_error : option string;
  ts_created_at : string;
  ts_updated_at : string
}.

(** The endpoint [POST /solve]: [fresh_id] is [str(uuid.uuid4())], [now]
    the successive readings of the clock.  The background call of
    [solve_task] it schedules is run by the server afterwards. *)
Definition create_task (app_instance : option AutoDebugAI) (tasks : registry)
    (request : BugReportRequest) (fresh_id : string) (now : nat -> string)
    : http TaskResponse * registry :=
  match app_instance with
  | None => (HTTPException 503 "System not initialized", tasks)
  | Some _ =>
      let task := {| t_id := fresh_id; t_status := "pending";
                     t_created_at := now 0%nat; t_updated_at := now 1%nat;
                     t_request := request; t_result := None;
                     t_error := None |} in
      (Ok {| resp_task_id := fresh_id; resp_status := "pending";
             resp_created_at := t_created_at task |},
       registry_set tasks fresh_id task)
  end.

(** The endpoint [GET /tasks/{task_id}]. *)
Definition get_task_status (tasks : registry) (task_id : string)
    : http TaskStatusResponse :=
  match registry_get tasks task_id with
  | None => HTTPException 404 "Task not found"
  | Some task =>
      Ok {| ts_task_id := task_id; ts_status := t_status task;
            ts_result := t_result task; ts_error := t_error task;
            ts_created_at := t_created_at task;
            ts_updated_at := t_updated_at task |}
  end.

(** The state [solve_task] works on: the registry and the application. *)
Record Server : Type := {
  srv_tasks : registry;
  srv_app : option AutoDebugAI
}.

(** Between [try:] and [except] of [solve_task]; the server is returned
    as the statements left it, also when one of them raises. *)
Definition solve_task_body (w : world) (parts : outcome unit)
    (cfg : Settings) (telemetry : bool) (srv : Server) (task_id report : string) (context : option py_dict)
    (stream : bool) (now : nat -> string) : outcome unit * Server :=
  match update_task (srv_tasks srv) task_id (set_status "processing") with
  | Raise e => (Raise e, srv)
  | Return tasks1 =>
      match update_task tasks1 task_id (set_updated_at (now 0%nat)) with
      | Raise e => (Raise e, {| srv_tasks := tasks1; srv_app := srv_app srv |})
      | Return tasks2 =>
          match srv_app srv with
          | None =>
              (Raise "'NoneType' object has no attribute 'solve_bug'",
               {| srv_tasks := tasks2; srv_app := None |})
          | Some app =>
              let (ran, app') :=
                app_solve_bug w parts cfg telemetry app report context
                  stream in
              match ran with
              | Raise e =>
                  (Raise e, {| srv_tasks := tasks2; srv_app := Some app' |})
              | Return r =>
                  match
                    (t3 <- update_task tasks2 task_id (set_status "completed") ;;
                     t4 <- update_task t3 task_id (set_result r) ;;
                     update_task t4 task_id (set_updated_at (now 1%nat)))
                  with
                  | Raise e =>
                      (Raise e,
                       {| srv_tasks := tasks2; srv_app := Some app' |})
                  | Return tasks5 =>
                      (Return tt,
                       {| srv_tasks := tasks5; srv_app := Some app' |})
                  end
              end
          end
      end
  end.

(** [solve_task]: an exception of the body is written into the task; an
    exception of the handler itself reaches the server. *)
Definition solve_task (w : world) (parts : outcome unit) (cfg : Settings)
    (telemetry : bool) (srv : Server) (task_id report : string)
    (context : option py_dict) (stream : bool) (now : nat -> string)
    : outcome unit * Server :=
  match solve_task_body w parts cfg telemetry srv task_id report context
          stream now
  with
  | (Return tt, srv') => (Return tt, srv')
  | (Raise e, srv') =>
      match
        (t1 <- update_task (srv_tasks srv') task_id (set_status "failed") ;;
         t2 <- update_task t1 task_id (set_error e) ;;
         update_task t2 task_id (set_updated_at (now 1%nat)))
      with
      | Raise e' => (Raise e', srv')
      | Return tasks' =>
          (Return tt, {| srv_tasks := tasks'; srv_app := srv_app srv' |})
      end
  end.

(** A registered task, as [create_task] leaves it. *)
Definition pending_task (task_id : string) (request : BugReportRequest) : Task :=
  {| t_id := task_id; t_status := "pending";
     t_created_at := "2024-01-01T00:00:00";
     t_updated_at := "2024-01-01T00:00:00"; t_request := request;
     t_result := None; t_error := None |}.

Definition sample_request : BugReportRequest :=
  {| req_bug_report := sample_report; req_context := None;
     req_stream := true |}.

Definition sample_server : Server :=
  {| srv_tasks := [("t-1", pending_task "t-1" sample_request);
                   ("t-2", pending_task "t-2" sample_request)];
     srv_app := Some {| app_team := None |} |}.

Definition sample_clock (n : nat) : string :=
  match n with
  | O => "2024-01-01T00:00:01"
  | _ => "2024-01-01T00:00:09"
  end.

(** ** The metrics collector ([monitoring/__init__.py]) *)

(** One value of [self.task_metrics]: a [dict] whose keys appear as the
    task proceeds. *)
Record TaskEntry : Type := {
  start_time : option float;
  status : option string;
  duration : option float;
  end_time : option float
}.

(** One value of [self.agent_metrics]. *)
Record AgentEntry : Type := {
  calls : option Z;
  total_duration : option float;
  total_tokens : option Z
}.

(** The collector together with the process-wide Prometheus objects it
    updates: the gauge of active tasks (its value a whole number, since it
    only moves by one), the task counter by status label, and the
    observations of the duration histogram. *)
Record Collector : Type := {
  task_metrics : list (string * TaskEntry);
  agent_metrics : list (string * AgentEntry);
  active_tasks_gauge : Z;
  task_counter : list (string * Z);
  task_duration_histogram : list (string * float)
}.

Fixpoint entry_get {A : Type} (entries : list (string * A)) (key : string)
    : option A :=
  match entries with
  | [] => None
  | (k, v) :: rest => if String.eqb k key then Some v else entry_get rest key
  end.

Fixpoint entry_set {A : Type} (entries : list (string * A)) (key : string)
    (v : A) : list (string * A) :=
  match entries with
  | [] => [(key, v)]
  | (k, old) :: rest =>
      if String.eqb k key then (k, v) :: rest
      else (k, old) :: entry_set rest key v
  end.

(** [task_counter.labels(status=label, agent='system').inc()]. *)
Definition counter_inc (counter : list (string * Z)) (label : string)
    : list (string * Z) :=
  entry_set counter label
    (match entry_get counter label with
     | Some n => n + 1
     | None => 1
     end)%Z.

(** [record_task_start]; [now] is the reading of [time.time()]. *)
Definition collector_task_start (c : Collector) (task_id : string)
    (now : float) : Collector :=
  {| task_metrics :=
       entry_set (task_metrics c) task_id
         {| start_time := Some now; status := Some "in_progress";
            duration := None; end_time := None |};
     agent_metrics := agent_metrics c;
     active_tasks_gauge := (active_tasks_gauge c + 1)%Z;
     task_counter := counter_inc (task_counter c) "started";
     task_duration_histogram := task_duration_histogram c |}.

(** [record_task_completion]; [now] gives the successive readings of
    [time.time()] the call makes: three when no duration is passed, one
    otherwise. *)
Definition collector_task_completion (c : Collector) (task_id : string)
    (success : bool) (given : option float) (now : nat -> float) : Collector :=
  match entry_get (task_metrics c) task_id with
  | None => c
  | Some entry =>
      let measured :=
        match given with
        | Some d => d
        | None =>
            let started :=
              match start_time entry with
              | Some t => t
              | None => now 0%nat
              end in
            (now 1%nat - started)%float
        end in
      let ended :=
        match given with
        | Some _ => now 0%nat
        | None => now 2%nat
        end in
      let label := if success then "success" else "failure" in
      {| task_metrics :=
           entry_set (task_metrics c) task_id
             {| start_time := start_time entry; status := Some label;
                duration := Some measured; end_time := Some ended |};
         agent_metrics := agent_metrics c;
         active_tasks_gauge := (active_tasks_gauge c - 1)%Z;
         task_counter := counter_inc (task_counter c) label;
         task_duration_histogram :=
           (task_duration_histogram c ++ [(label, measured)])%list |}
  end.

(** [record_task_failure]: a completion without success and without a
    duration, then a log line. *)
Definition collector_task_failure (c : Collector) (task_id : string)
    (err : string) (now : nat -> float) : Collector :=
  collector_task_completion c task_id false None now.

(** What [get_task_metrics] returns: the entry of one task, the empty
    [dict] when it has none, or a copy of the whole mapping. *)
Inductive TaskMetricsView : Type :=
| OneTask (entry : TaskEntry)
| AllTasks (entries : list (string * TaskEntry)).

(** [get_task_metrics(task_id)]: [if task_id:] is false of [None] and of
    the empty id. *)
Definition get_task_metrics (c : Collector) (task_id : option string)
    : TaskMetricsView :=
  match task_id with
  | Some tid =>
      if Py.truthy tid then
        OneTask match entry_get (task_metrics c) tid with
                | Some entry => entry
                | None => {| start_time := None; status := None;
                             duration := None; end_time := None |}
                end
      else AllTasks (task_metrics c)
  | None => AllTasks (task_metrics c)
  end.

(** [successful_tasks / total_tasks if total_tasks > 0 else 0]: the
    integer [0] or the quotient as a [float]. *)
Inductive rate : Type :=
| RateZero
| RateFloat (q : float).

Record SystemMetrics : Type := {
  total_tasks : Z;
  successful_tasks : Z;
  success_rate : rate;
  active_tasks : Z;
  total_agent_calls : Z;
  total_tokens_used : Z
}.

(** [sum(1 for task in ... if task.get('status') == 'success')]. *)
Fixpoint count_successful (entries : list (string * TaskEntry)) : Z :=
  match entries with
  | [] => 0
  | (_, entry) :: rest =>
      match status entry with
      | Some s => if String.eqb s "success" then 1 + count_successful rest
                  else count_successful rest
      | None => count_successful rest
      end
  end%Z.

Definition or_zero (v : option Z) : Z :=
  match v with
  | Some n => n
  | None => 0%Z
  end.

(** The quotient of two counts below 2^53, as Python's true division of
    integers gives it. *)
Definition true_div (a b : Z) : float :=
  (PrimFloat.of_uint63 (Uint63.of_Z a) / PrimFloat.of_uint63 (Uint63.of_Z b))%float.

Definition get_system_metrics (c : Collector) : SystemMetrics :=
  let total := Z.of_nat (List.length (task_metrics c)) in
  let successful := count_successful (task_metrics c) in
  {| total_tasks := total;
     successful_tasks := successful;
     success_rate := if (0 <? total)%Z then RateFloat (true_div successful total)
                     else RateZero;
     active_tasks := active_tasks_gauge c;
     total_agent_calls :=
       fold_right (fun e acc => or_zero (calls (snd e)) + acc)%Z 0%Z
         (agent_metrics c);
     total_tokens_used :=
       fold_right (fun e acc => or_zero (total_tokens (snd e)) + acc)%Z 0%Z
         (agent_metrics c) |}.

(** A collector before any task. *)
Definition new_collector : Collector :=
  {| task_metrics := []; agent_metrics := []; active_tasks_gauge := 0;
     task_counter := []; task_duration_histogram := [] |}.

Definition sample_readings (n : nat) : float :=
  match n with
  | O => 100%float
  | S O => 104%float
  | _ => 105%float
  end.

(** ** Detection of the test command ([RunTestsTool._detect_test_command]) *)

(** What the function sees of the working directory: which files exist,
    and what opening and parsing [package.json] gives. *)
Record Project : Type := {
  has_file : string -> bool;
  package_json : outcome py_value
}.

(** [key in v]; a [TypeError] on a value that is not iterable. *)
Definition py_in (key : string) (v : py_value) : outcome bool :=
  match v with
  | PDict entries =>
      Return (match dict_get entries key with Some _ => true | None => false end)
  | PList items =>
      Return (existsb (fun item => match item with
                                   | PStr s => String.eqb s key
                                   | _ => false
                                   end) items)
  | PStr s => Return (Py.contains key s)
  | _ => Raise ("argument of type '" ++ type_name v ++ "' is not iterable")
  end.

(** The [try] block of the [package.json] branch: the command it returns,
    if it returns one. *)
Definition npm_command (p : Project) : outcome (option string) :=
  package <- package_json p ;;
  scripts <- py_get package "scripts" (PDict []) ;;
  has_test <- py_in "test" scripts ;;
  if has_test then Return (Some "npm test")
  else
    has_jest <- py_in "jest" scripts ;;
    if has_jest then Return (Some "npm run jest") else Return None.

Definition _detect_test_command (p : Project) : string :=
  if has_file p "pytest.ini" || has_file p "pyproject.toml" then "pytest -xvs"
  else if has_file p "setup.py" then "python -m pytest"
  else if has_file p "manage.py" then "python manage.py test"
  else if has_file p "package.json" then
    match npm_command p with
    | Return (Some command) => command
    | Return None => "python -m pytest"
    | Raise _ => "python -m pytest"     (* except: pass *)
    end
  else if has_file p "go.mod" then "go test ./..."
  else if has_file p "Cargo.toml" then "cargo test"
  else "python -m pytest".

(** A Go module that also ships a [package.json] without test script. *)
Definition go_with_package_json : Project :=
  {| has_file := fun name =>
       String.eqb name "go.mod" || String.eqb name "package.json";
     package_json := Return (PDict [("name", PStr "docs")]) |}.

(** ** Code search ([CodeSearchTool.run]) *)

(** One entry that ripgrep yields, as far as the tool reads it. *)
Record RgMatch : Type := {
  rg_path : string;
  rg_line_number : Z;
  rg_lines : string;
  rg_submatches : list string
}.

Record CodeSearchInput : Type := {
  pattern : string;
  file_pattern : option string;
  search_path : option string;
  search_max_results : Z;
  context_lines : Z
}.

(** One element of [matches]. *)
Record CodeMatch : Type := {
  cm_file : string;
  cm_line : Z;
  cm_content : string;
  cm_match_text : string
}.

Record CodeSearchResult : Type := {
  matches : list CodeMatch;
  total_matches : Z;
  truncated : bool
}.

Definition code_match (m : RgMatch) : CodeMatch :=
  {| cm_file := rg_path m; cm_line := rg_line_number m;
     cm_content := rg_lines m;
     cm_match_text := match rg_submatches m with
                      | first :: _ => first
                      | [] => ""
                      end |}.

(** The [for match in rg] loop with its [break]. *)
Fixpoint collect_matches (max : Z) (found : list RgMatch)
    (so_far : list CodeMatch) : list CodeMatch :=
  match found with
  | [] => so_far
  | m :: rest =>
      if (max <=? Z.of_nat (List.length so_far))%Z then so_far
      else collect_matches max rest (so_far ++ [code_match m])%list
  end.

(** [CodeSearchTool.run]; [rg] is what building and running the search
    gives: the entries, or an exception. *)
Definition CodeSearchTool_run (rg : CodeSearchInput -> outcome (list RgMatch))
    (args : CodeSearchInput) : ToolResult CodeSearchResult :=
  match rg args with
  | Return found =>
      let collected := collect_matches (search_max_results args) found [] in
      {| result :=
           Some {| matches := collected;
                   total_matches := Z.of_nat (List.length collected);
                   truncated :=
                     (search_max_results args
                      <=? Z.of_nat (List.length collected))%Z |};
         error := None |}
  | Raise e =>
      {| result := Some {| matches := []; total_matches := 0;
                           truncated := false |};
         error := Some e |}
  end.

Definition sample_search : CodeSearchInput :=
  {| pattern := "calculate"; file_pattern := Some "*.py";
     search_path := Some "."; search_max_results := 2; context_lines := 2 |}.

Definition sample_found : list RgMatch :=
  [ {| rg_path := "calculator.py"; rg_line_number := 2;
       rg_lines := "def calculate(base_value, user_input):";
       rg_submatches := ["calculate"] |};
    {| rg_path := "calculator.py"; rg_line_number := 11;
       rg_lines := "    result = calculate(base, user_value)";
       rg_submatches := ["calculate"] |} ].

(** ** Reading a range of lines ([FileReadTool.run]) *)

(** The line boundaries of [str.splitlines] among the code points below
    256: line feed, vertical tab, form feed, carriage return, the
    separators 0x1c, 0x1d and 0x1e, and the next-line character 0x85. *)
Definition is_line_break (c : ascii) : bool :=
  let n := nat_of_ascii c in
  (Nat.leb 10 n && Nat.leb n 13) || (Nat.leb 28 n && Nat.leb n 30)
  || Nat.eqb n 133.

Definition cr : ascii := "013"%char.

(** [s.splitlines()]: a carriage return followed by a line feed is one
    boundary; a boundary at the end opens no further line. *)
Fixpoint splitlines (s : string) : list string :=
  match s with
  | EmptyString => []
  | String c rest =>
      if is_line_break c then
        EmptyString
        :: (if Ascii.eqb c cr then
              match rest with
              | String d rest' =>
                  if Ascii.eqb d Py.nl then splitlines rest'
                  else splitlines rest
              | EmptyString => splitlines rest
              end
            else splitlines rest)
      else
        match splitlines rest with
        | first :: others => String c first :: others
        | [] => [String c EmptyString]
        end
  end.

(** ['\n'.join(lines)]. *)
Fixpoint join_nl (lines : list string) : string :=
  match lines with
  | [] => ""
  | [line] => line
  | line :: rest => line ++ String Py.nl (join_nl rest)
  end.

(** An index of a slice, brought into [0 .. len]: a negative one counts
    from the end. *)
Definition slice_index (len i : Z) : Z :=
  let j := if (i <? 0)%Z then (i + len)%Z else i in
  Z.max 0 (Z.min len j).

(** [l[start:stop]]. *)
Definition py_slice {A : Type} (l : list A) (start stop : Z) : list A :=
  let len := Z.of_nat (List.length l) in
  let first := slice_index len start in
  let last := slice_index len stop in
  firstn (Z.to_nat (last - first)) (skipn (Z.to_nat first) l).

(** [x or default] on an optional integer: [None] and [0] are false. *)
Definition int_or (x : option Z) (default : Z) : Z :=
  match x with
  | Some n => if (n =? 0)%Z then default else n
  | None => default
  end.

Definition int_truthy (x : option Z) : bool :=
  match x with
  | Some n => negb (n =? 0)%Z
  | None => false
  end.

(** The statements of [FileReadTool.run] between reading the file and
    detecting the language: the content that is returned and
    [total_lines]. *)
Definition select_lines (text : string) (start_line end_line : option Z)
    : string * Z :=
  let lines := splitlines text in
  let total_lines := Z.of_nat (List.length lines) in
  if int_truthy start_line || int_truthy end_line then
    let start := (int_or start_line 1 - 1)%Z in
    let stop := int_or end_line total_lines in
    (join_nl (py_slice lines start stop), total_lines)
  else (text, total_lines).

(** A text whose only line boundary is the line feed and which does not
    end with one. *)
Fixpoint plain_text (s : string) : bool :=
  match s with
  | EmptyString => true
  | String c rest =>
      (if Ascii.eqb c Py.nl then
         match rest with
         | EmptyString => false
         | _ => true
         end
       else negb (is_line_break c))
      && plain_text rest
  end.

Definition sample_file : string :=
  "def calculate(a, b):" ++ String Py.nl
    ("    return a + b" ++ String Py.nl
      ("" ++ String Py.nl "print(calculate(1, 2))")).

(** ** Applying patches ([ApplyPatchTool.run]) *)

(** What the tool asks of the file system: a run of [patch -p1] on a
    target with the text of the patch set, and a [write_text]. *)
Inductive FileOp : Type :=
| RunPatch (target : string) (patch_text : string)
| WriteText (path : string) (content : py_value).

(** The libraries and the file system behind the tool.  The file system
    answers by what has been asked of it so far. *)
Record PatchWorld : Type := {
  (** [str(Path(s))] *)
  pw_str : string -> string;
  (** [str(e)] of the [TypeError] of [Path(v)] for a [v] that is no
      string *)
  pw_path_error : py_value -> exn;
  (** [PatchSet(v)]: the [target_file] of each patched file and
      [str(patch)] *)
  pw_patch_set : py_value -> outcome (list string * string);
  (** [target_file.exists()] *)
  pw_exists : list FileOp -> string -> bool;
  (** the temporary file, [subprocess.run] and [os.unlink]: the return
      code and [stderr] *)
  pw_patch : list FileOp -> string -> string -> outcome (Z * string);
  (** [file_path.parent.mkdir] and [file_path.write_text] *)
  pw_write_text : list FileOp -> string -> py_value -> outcome unit;
  (** what a [str] field of a model makes of a value that is no string *)
  pw_str_field : py_value -> outcome string
}.

Record ApplyPatchInput : Type := {
  ap_patches : list py_dict;
  ap_dry_run : bool
}.

Record ApplyPatchResult : Type := {
  patch_success : bool;
  applied_patches : list string;
  failed_patches : list (string * string)
}.

(** The [for patched_file in patch] loop. *)
Fixpoint patch_targets (pw : PatchWorld) (text : string)
    (targets : list string) (ops : list FileOp)
    : outcome unit * list FileOp :=
  match targets with
  | [] => (Return tt, ops)
  | target :: rest =>
      if pw_exists pw ops target then
        let ops' := (ops ++ [RunPatch (pw_str pw target) text])%list in
        match pw_patch pw ops (pw_str pw target) text with
        | Return (returncode, stderr) =>
            if (returncode =? 0)%Z then patch_targets pw text rest ops'
            else (Raise ("Patch failed: " ++ stderr), ops')
        | Raise e => (Raise e, ops')
        end
      else patch_targets pw text rest ops
  end.

(** How the body of the [try] ends when it raises nothing: with an
    [applied.append] or with the ['Invalid patch format'] entry. *)
Inductive PatchVerdict : Type :=
| Applied (file : string)
| Invalid (file : string).

Definition has_key (d : py_dict) (key : string) : bool :=
  match dict_get d key with
  | Some _ => true
  | None => false
  end.

(** The body of the [try] for one patch. *)
Definition patch_body (pw : PatchWorld) (dry_run : bool) (patch_data : py_dict)
    (ops : list FileOp) : outcome PatchVerdict * list FileOp :=
  match dict_get patch_data "file_path" with
  | None => (Raise "'file_path'", ops)
  | Some (PStr p) =>
      let file_path := pw_str pw p in
      if has_key patch_data "unified_diff" then
        if dry_run then (Return (Applied file_path), ops)
        else
          match pw_patch_set pw
                  (dict_get_default patch_data "unified_diff" PNone) with
          | Return (targets, text) =>
              match patch_targets pw text targets ops with
              | (Return _, ops') => (Return (Applied file_path), ops')
              | (Raise e, ops') => (Raise e, ops')
              end
          | Raise e => (Raise e, ops)
          end
      else if has_key patch_data "content" then
        if dry_run then (Return (Applied file_path), ops)
        else
          let content := dict_get_default patch_data "content" PNone in
          let ops' := (ops ++ [WriteText file_path content])%list in
          match pw_write_text pw ops file_path content with
          | Return _ => (Return (Applied file_path), ops')
          | Raise e => (Raise e, ops')
          end
      else (Return (Invalid file_path), ops)
  | Some v => (Raise (pw_path_error pw v), ops)
  end.

(** The [for patch_data in args.patches] loop: [applied], [failed] with
    its ['file'] and ['error'] values, and the file operations. *)
Fixpoint apply_patches (pw : PatchWorld) (dry_run : bool)
    (todo : list py_dict) (applied : list string)
    (failed : list (py_value * string)) (ops : list FileOp)
    : list string * list (py_value * string) * list FileOp :=
  match todo with
  | [] => (applied, failed, ops)
  | patch_data :: rest =>
      match patch_body pw dry_run patch_data ops with
      | (Return (Applied file), ops') =>
          apply_patches pw dry_run rest (applied ++ [file])%list failed ops'
      | (Return (Invalid file), ops') =>
          apply_patches pw dry_run rest applied
            (failed ++ [(PStr file, "Invalid patch format")])%list ops'
      | (Raise e, ops') =>
          apply_patches pw dry_run rest applied
            (failed
             ++ [(dict_get_default patch_data "file_path" (PStr "unknown"),
                  e)])%list ops'
      end
  end.

(** A value given for a [str] field. *)
Definition str_field (pw : PatchWorld) (v : py_value) : outcome string :=
  match v with
  | PStr s => Return s
  | _ => pw_str_field pw v
  end.

(** [failed_patches: List[Dict[str, str]]] built from [failed]. *)
Fixpoint failed_field (pw : PatchWorld) (failed : list (py_value * string))
    : outcome (list (string * string)) :=
  match failed with
  | [] => Return []
  | (file, message) :: rest =>
      name <- str_field pw file ;;
      others <- failed_field pw rest ;;
      Return ((name, message) :: others)
  end.

(** [ApplyPatchTool.run], with the file operations it asked for. *)
Definition ApplyPatchTool_run (pw : PatchWorld) (args : ApplyPatchInput)
    : outcome (ToolResult ApplyPatchResult) * list FileOp :=
  match apply_patches pw (ap_dry_run args) (ap_patches args) [] [] [] with
  | (applied, failed, ops) =>
      (reported <- failed_field pw failed ;;
       Return {| result :=
                   Some {| patch_success := Nat.eqb (List.length failed) 0;
                           applied_patches := applied;
                           failed_patches := reported |};
                 error := None |},
       ops)
  end.

(** The patches whose ['file_path'], when there is one, is a string. *)
Definition string_paths (todo : list py_dict) : bool :=
  forallb (fun patch_data =>
             match dict_get patch_data "file_path" with
             | Some (PStr _) | None => true
             | Some _ => false
             end) todo.

(** The patches that have a string ['file_path'] and one of the keys
    ['unified_diff'] and ['content']. *)
Definition well_keyed (todo : list py_dict) : bool :=
  forallb (fun patch_data =>
             match dict_get patch_data "file_path" with
             | Some (PStr _) =>
                 has_key patch_data "unified_diff"
                 || has_key patch_data "content"
             | _ => false
             end) todo.

(** [str(file_path)] of a patch with a string ['file_path']. *)
Definition path_of (pw : PatchWorld) (patch_data : py_dict) : string :=
  match dict_get patch_data "file_path" with
  | Some (PStr p) => pw_str pw p
  | _ => ""
  end.

(** A file system in which every target exists, [patch] fails on
    [calculator.py] and writing succeeds; a [PatchSet] is given here by
    the list of its targets. *)
Definition patching_world : PatchWorld :=
  {| pw_str := fun s => s;
     pw_path_error := fun v =>
       "expected str, bytes or os.PathLike object, not " ++ type_name v;
     pw_patch_set := fun v =>
       match v with
       | PStr s => Return ([s], s)
       | _ => Raise "expected string"
       end;
     pw_exists := fun _ _ => true;
     pw_patch := fun _ target _ =>
       if String.eqb target "calculator.py"
       then Return (1%Z, "Hunk #1 FAILED at 2.")
       else Return (0%Z, "");
     pw_write_text := fun _ _ _ => Return tt;
     pw_str_field := fun _ => Raise "Input should be a valid string" |}.

Definition sample_patches : list py_dict :=
  [ [("file_path", PStr "calculator.py");
     ("unified_diff", PStr "calculator.py")];
    [("file_path", PStr "notes.txt"); ("content", PStr "fixed")];
    [("file_path", PStr "README.md")];
    [("content", PStr "orphan")] ].

Definition keyed_patches : list py_dict :=
  [ [("file_path", PStr "calculator.py");
     ("unified_diff", PInt 7)];
    [("file_path", PStr "notes.txt"); ("content", PNone)] ].

(** * Properties *)

(** ** Plan extraction *)

Example extract_plan_scenario :
  _extract_plan scenario_plan_message = ["step one"; "step two"].
Proof. reflexivity. Qed.

Example extract_plan_asterisk_indent :
  _extract_plan ("Intro" ++ String Py.nl ("PLAN: now" ++ String Py.nl
     ("  * look" ++ String Py.nl ("  note" ++ String Py.nl
     ("" ++ String Py.nl ("2. patch" ++ String Py.nl
     ("done" ++ String Py.nl "- late")))))))
  = ["look"; "patch"].
Proof. reflexivity. Qed.

(** C7 (the code against the claim).  A plan of four numbered steps:
    the line ["4. d"] begins with a numeric-dot prefix, yet it is not
    collected; the test [startswith(('-', '*', '1.', '2.', '3.'))] knows
    the numbers 1 to 3 only, so the line counts as the first non-list line
    and ends the collection.  The set given to [lstrip] reaches up to 9,
    and [lstrip] removes every leading character of that set, so a step
    that begins with a digit loses it along with the prefix. *)
Theorem C7_numbered_step_four_is_dropped :
  _extract_plan four_step_plan = ["a"; "b"; "c"]
  /\ _extract_plan ("PLAN:" ++ String Py.nl "4. d") = []
  /\ _extract_plan ("PLAN:" ++ String Py.nl ("4. d" ++ String Py.nl "- e")) = []
  /\ _extract_plan ("PLAN:" ++ String Py.nl "10. j") = []
  /\ _extract_plan ("PLAN:" ++ String Py.nl "- 3 retries at most")
     = ["retries at most"].
Proof. repeat split; reflexivity. Qed.

(** ** The streaming loop, one round at a time *)

Lemma same_identity_refl tc : same_identity tc tc.
Proof. repeat split. Qed.

Lemma same_identity_trans a b c :
  same_identity a b -> same_identity b c -> same_identity a c.
Proof.
  unfold same_identity; intros (?&?&?&?) (?&?&?&?).
  repeat split; congruence.
Qed.

Lemma append_patch_identity tc patch tc' :
  append_patch tc patch = Return tc' ->
  same_identity tc tc' /\ patches_ok tc'.
Proof.
  unfold append_patch, patches_ok, same_identity.
  destruct tc as [a b c d e f g h i]; simpl.
  destruct e; intros H; inversion H; subst; simpl;
    (split; [repeat split | right; eexists; reflexivity]).
Qed.

Lemma append_patch_total tc patch :
  patches_ok tc -> exists tc', append_patch tc patch = Return tc'.
Proof.
  unfold append_patch; intros [H | [l H]]; rewrite H; eexists; reflexivity.
Qed.

(** What a round that returns has done. *)
Lemma stream_step_returns w st m st' :
  stream_step w st m = Return st' ->
  st_messages st' = (st_messages st ++ [m])%list
  /\ same_identity (st_context st) (st_context st')
  /\ (patches_ok (st_context st) -> patches_ok (st_context st'))
  /\ ((st_success st' = st_success st /\ st_solution st' = st_solution st)
      \/ (completes m = true /\ st_success st' = true
          /\ exists sol, st_solution st' = Some sol))
  /\ (completes m = true -> st_success st' = true /\ st_solution st' <> None).
Proof.
  unfold stream_step, completes.
  destruct (content m) as [| s |].
  1, 3: intros H; inversion H; subst; simpl;
        repeat split; auto using same_identity_refl; discriminate.
  destruct (Py.contains "PLAN:" s) eqn:Eplan.
  { intros H; inversion H; subst; clear H; simpl.
    rewrite andb_false_r; simpl.
    destruct (st_context st) as [a b c d e f g h i]; unfold patches_ok; simpl.
    repeat split; auto; discriminate. }
  destruct (Py.contains "PATCH:" s) eqn:Epatch.
  { destruct (append_patch (st_context st) _) as [tc |] eqn:Eapp; simpl;
      [| discriminate].
    intros H; inversion H; subst; clear H; simpl.
    apply append_patch_identity in Eapp as [Hid Hok].
    rewrite andb_false_r; simpl.
    repeat split; auto; try apply Hid; discriminate. }
  destruct (Py.contains "TEST_RESULTS:" s) eqn:Etest.
  { intros H; inversion H; subst; clear H; simpl.
    rewrite andb_false_r; simpl.
    destruct (st_context st) as [a b c d e f g h i]; unfold patches_ok; simpl.
    repeat split; auto; discriminate. }
  destruct (Py.contains "TASK_COMPLETE" s) eqn:Edone;
    intros H; inversion H; subst; clear H; simpl.
  - repeat split; auto; try discriminate.
    right; repeat split; eauto.
  - repeat split; auto; discriminate.
Qed.

(** A round raises only through [append] on something that is not a list. *)
Lemma stream_step_total w st m :
  patches_ok (st_context st) -> exists st', stream_step w st m = Return st'.
Proof.
  intros Hok; unfold stream_step.
  destruct (content m) as [| s |]; try (eexists; reflexivity).
  destruct (Py.contains "PLAN:" s); [eexists; reflexivity |].
  destruct (Py.contains "PATCH:" s).
  { destruct (append_patch_total (st_context st)
                (_extract_patch s (w_stamp w (List.length (st_messages st)))) Hok)
      as [tc Htc].
    rewrite Htc; simpl; eexists; reflexivity. }
  destruct (Py.contains "TEST_RESULTS:" s); [eexists; reflexivity |].
  destruct (Py.contains "TASK_COMPLETE" s); eexists; reflexivity.
Qed.

Lemma completes_mentions m :
  completes m = true -> mentions "TASK_COMPLETE" (content m) = true.
Proof.
  unfold completes, mentions; destruct (content m); try discriminate.
  intros H; repeat (apply andb_prop in H as [H _]); exact H.
Qed.

Lemma stream_loop_returns w msgs : forall st st',
  stream_loop w st msgs = Return st' ->
  st_messages st' = (st_messages st ++ msgs)%list
  /\ same_identity (st_context st) (st_context st')
  /\ (patches_ok (st_context st) -> patches_ok (st_context st'))
  /\ (succeeded st -> succeeded st')
  /\ ((exists m, In m msgs /\ completes m = true) -> succeeded st')
  /\ ((forall m, In m msgs -> mentions "TASK_COMPLETE" (content m) = false) ->
      st_success st' = st_success st /\ st_solution st' = st_solution st).
Proof.
  induction msgs as [| m rest IH]; intros st st' H; simpl in H.
  - inversion H; subst; rewrite app_nil_r.
    refine (conj eq_refl (conj (same_identity_refl _)
             (conj (fun x => x) (conj (fun x => x) (conj _ _))))).
    + intros [m [[] _]].
    + intros _; split; reflexivity.
  - destruct (stream_step w st m) as [st1 |] eqn:Estep; simpl in H;
      [| discriminate].
    apply stream_step_returns in Estep as (Hmsgs & Hid & Hok & Hkeep & Hdone).
    apply IH in H as (Hmsgs' & Hid' & Hok' & Hlatch & Hhit & Hmiss).
    assert (Hstep_latch : succeeded st -> succeeded st1).
    { unfold succeeded; intros [Hs Hn].
      destruct Hkeep as [[E1 E2] | (_ & E1 & sol & E2)].
      - rewrite E1, E2; auto.
      - rewrite E1, E2; split; [reflexivity | discriminate]. }
    refine (conj _ (conj _ (conj _ (conj _ (conj _ _))))).
    + rewrite Hmsgs', Hmsgs, <- app_assoc; reflexivity.
    + eapply same_identity_trans; eauto.
    + auto.
    + auto.
    + intros [m0 [[-> | Hin] Hc]].
      * apply Hlatch, Hdone, Hc.
      * apply Hhit; eauto.
    + intros Hnone.
      destruct (Hmiss (fun m0 Hin => Hnone m0 (or_intror Hin))) as [E1 E2].
      rewrite E1, E2.
      destruct Hkeep as [E | (Hc & _)]; [exact E |].
      apply completes_mentions in Hc.
      rewrite (Hnone m (or_introl eq_refl)) in Hc; discriminate.
Qed.

Lemma stream_loop_total w msgs : forall st,
  patches_ok (st_context st) -> exists st', stream_loop w st msgs = Return st'.
Proof.
  induction msgs as [| m rest IH]; intros st Hok; simpl.
  - eexists; reflexivity.
  - destruct (stream_step_total w st m Hok) as [st1 Hst1].
    rewrite Hst1; simpl.
    apply IH.
    apply stream_step_returns in Hst1 as (_ & _ & Hok' & _); auto.
Qed.

(** ** Completion and failure markers *)

Lemma existsb_In_true {A : Type} (f : A -> bool) (l : list A) (x : A) :
  In x l -> f x = true -> existsb f l = true.
Proof. intros Hin Hf; apply existsb_exists; eauto. Qed.

Lemma existsb_all_false {A : Type} (f : A -> bool) (l : list A) :
  (forall x, In x l -> f x = false) -> existsb f l = false.
Proof.
  induction l as [| a l IH]; simpl; intros H; [reflexivity |].
  rewrite (H a (or_introl eq_refl)), IH; auto.
Qed.

(** C1 (the claim as stated fails).  [TASK_FAILED] in the first message,
    no [TASK_COMPLETE] before it, and the run reports success, in both
    modes: the drivers never look for [TASK_FAILED] and read the
    conversation to its end. *)
Lemma C1_failed_then_complete_succeeds :
  (exists m rest, failed_then_complete = m :: rest
     /\ mentions "TASK_FAILED" (content m) = true)
  /\ (exists r tc', run_streaming_on quiet_world failed_then_complete None
                      sample_context = Return (r, tc')
        /\ result_success r = true)
  /\ result_success
       (run_batch_on quiet_world
          {| messages := Some failed_then_complete; stop_reason := None |}
          sample_context) = true.
Proof.
  split; [| split].
  - do 2 eexists; split; reflexivity.
  - do 2 eexists; split; reflexivity.
  - reflexivity.
Qed.

(** C1 (amended).  In a batch run a message that contains [TASK_COMPLETE]
    gives [success = true] and a solution.  In a streaming run whose task
    context holds a list or nothing as patches, the run returns, and a
    message that contains [TASK_COMPLETE] and none of [PLAN:], [PATCH:],
    [TEST_RESULTS:] gives [success = true] and a solution.  In both modes
    [TASK_FAILED] plays no part: the result has [success = false] and no
    solution when no message contains [TASK_COMPLETE]. *)
Theorem C1_completion_marker_decides_success :
  forall (w : world) (msgs : list Message) (tc : TaskContext),
    patches_ok tc ->
    str_shows_content w ->
    (exists r tc',
        run_streaming_on w msgs None tc = Return (r, tc')
        /\ ((exists m, In m msgs /\ completes m = true) ->
            result_success r = true /\ result_solution r <> None)
        /\ ((forall m, In m msgs ->
               mentions "TASK_COMPLETE" (content m) = false) ->
            result_success r = false /\ result_solution r = None))
    /\ (forall res, messages res = Some msgs ->
          ((exists m, In m msgs
                      /\ mentions "TASK_COMPLETE" (content m) = true) ->
           result_success (run_batch_on w res tc) = true
           /\ result_solution (run_batch_on w res tc) <> None)
          /\ ((forall m, In m msgs ->
                 Py.contains "TASK_COMPLETE" (w_str w m) = false) ->
              result_success (run_batch_on w res tc) = false
              /\ result_solution (run_batch_on w res tc) = None)).
Proof.
  intros w msgs tc Hok Hstr; split.
  - destruct (stream_loop_total w msgs (stream_start tc) Hok) as [st Hst].
    unfold run_streaming_on; rewrite Hst; simpl.
    apply stream_loop_returns in Hst as (_ & _ & _ & _ & Hhit & Hmiss).
    do 2 eexists; split; [reflexivity |]; simpl; split.
    + intros H; apply Hhit, H.
    + intros H; apply Hmiss, H.
  - intros res Hres; unfold run_batch_on, batch_scan; rewrite Hres; split.
    + intros (m & Hin & Hm).
      assert (E : existsb
                    (fun m0 => Py.contains "TASK_COMPLETE" (w_str w m0)) msgs
                  = true).
      { apply existsb_In_true with (x := m); [exact Hin |].
        unfold mentions in Hm; destruct (content m) as [| s |] eqn:Ec;
          try discriminate.
        apply (Hstr m s Ec Hm). }
      rewrite E; simpl; split; [reflexivity | discriminate].
    + intros Hnone.
      rewrite (existsb_all_false _ msgs Hnone); simpl; split; reflexivity.
Qed.

Lemma quiet_world_shows_content : str_shows_content quiet_world.
Proof. intros m s Ec Hs; simpl; rewrite Ec; exact Hs. Qed.

(** The theorem of C1 at a conversation that ends with a patch and a
    completion report. *)
Lemma C1_completion_marker_witness :
  patches_ok sample_context
  /\ str_shows_content quiet_world
  /\ exists r tc',
      run_streaming_on quiet_world patch_then_complete None sample_context
        = Return (r, tc')
      /\ result_success r = true.
Proof.
  assert (Hok : patches_ok sample_context) by (left; reflexivity).
  split; [exact Hok |]; split; [exact quiet_world_shows_content |].
  destruct (C1_completion_marker_decides_success quiet_world
              patch_then_complete sample_context Hok
              quiet_world_shows_content)
    as [(r & tc' & Hrun & Hhit & _) _].
  exists r, tc'; split; [exact Hrun |].
  apply Hhit.
  exists (say "Reviewer" "TASK_COMPLETE"); split;
    [right; left; reflexivity | reflexivity].
Defined.

(** A round on a message that does not reach the completion branch leaves
    the success flag and the solution as they were. *)
Lemma stream_step_keeps w st m st' :
  stream_step w st m = Return st' ->
  completes m = false ->
  st_success st' = st_success st /\ st_solution st' = st_solution st.
Proof.
  intros Hstep Hc.
  apply stream_step_returns in Hstep as (_ & _ & _ & [E | (Hc' & _)] & _).
  - exact E.
  - rewrite Hc in Hc'; discriminate.
Qed.

(** C2 (the code against the claim).  A streaming run of three messages
    whose third is the scenario's planning message: the plan is
    [["step one"; "step two"]] as claimed, but the message is consumed by
    the [PLAN:] branch, the [elif] for [TASK_COMPLETE] is not reached, and
    unless an earlier message completes the run the result has
    [success = false] and no solution. *)
Theorem C2_plan_message_does_not_complete :
  forall (w : world) (m1 m2 : Message) (who : string) (tc : TaskContext),
    patches_ok tc ->
    completes m1 = false ->
    completes m2 = false ->
    exists r tc',
      run_streaming_on w [m1; m2; say who scenario_plan_message] None tc
        = Return (r, tc')
      /\ plan tc' = PList [PStr "step one"; PStr "step two"]
      /\ result_snapshot r = Some (model_dump tc')
      /\ result_success r = false
      /\ result_solution r = None.
Proof.
  intros w m1 m2 who tc Hok H1 H2.
  unfold run_streaming_on; simpl stream_loop.
  destruct (stream_step_total w (stream_start tc) m1 Hok) as [st1 E1].
  rewrite E1; simpl bind.
  pose proof (stream_step_keeps _ _ _ _ E1 H1) as [S1 L1].
  apply stream_step_returns in E1 as (_ & _ & Hok1 & _).
  destruct (stream_step_total w st1 m2 (Hok1 Hok)) as [st2 E2].
  rewrite E2; simpl bind.
  pose proof (stream_step_keeps _ _ _ _ E2 H2) as [S2 L2].
  simpl in S1, L1; rewrite S1 in S2; rewrite L1 in L2.
  unfold stream_step; simpl.
  do 2 eexists; split; [reflexivity |]; simpl.
  destruct (st_context st2); simpl; auto.
Qed.

(** The theorem of C2 at the scenario's conversation. *)
Lemma C2_plan_message_witness :
  patches_ok sample_context
  /\ exists r tc',
      run_streaming_on quiet_world scenario_transcript None sample_context
        = Return (r, tc')
      /\ plan tc' = PList [PStr "step one"; PStr "step two"]
      /\ result_success r = false
      /\ result_solution r = None.
Proof.
  assert (Hok : patches_ok sample_context) by (left; reflexivity).
  split; [exact Hok |].
  destruct (C2_plan_message_does_not_complete quiet_world
              (say "user" "Fix the TypeError in calculator.py")
              (say "Planner" "Reading the report") "Planner"
              sample_context Hok eq_refl eq_refl)
    as (r & tc' & Hrun & Hplan & _ & Hs & Hsol).
  exists r, tc'; auto.
Defined.

(** ** Team assembly *)

Lemma collect_agents_roster cfg :
  collect_agents (create_all_agents cfg) (agent_order cfg) = roster cfg.
Proof.
  unfold create_all_agents, agent_order, roster.
  destruct (enable_critic (team cfg)), (enable_reviewer (team cfg));
    reflexivity.
Qed.

Lemma create_team_is_constructor w cfg want_memory want_monitoring mode :
  exists k,
    _create_team w (new_DebugTeam cfg want_memory want_monitoring) cfg mode
    = group_chat w k (roster cfg)
        (MaxMessageTermination (max_rounds (team cfg))).
Proof.
  unfold _create_team; simpl agents; rewrite collect_agents_roster.
  match goal with
  | |- context [String.eqb ?m "swarm"] =>
      destruct (String.eqb m "swarm"); [exists Swarm; reflexivity |];
      destruct (String.eqb m "round_robin");
        [exists RoundRobinGroupChat | exists Swarm]; reflexivity
  end.
Qed.

(** C6 (the claim as stated fails).  Critic and reviewer switched off:
    the executor still declares the hand-off targets [Critic] and
    [Reviewer], and assembly returns the team of the four remaining
    roles. *)
Lemma C6_assembly_accepts_absent_target :
  exists t,
    _create_team quiet_world (new_DebugTeam lean_settings true true)
      lean_settings None = Return t
    /\ participants t = [PlannerAgent; LocatorAgent; CoderAgent; ExecutorAgent]
    /\ In "Critic" (handoffs ExecutorAgent)
    /\ ~ In "Critic" (map agent_name (participants t)).
Proof.
  eexists; split; [reflexivity |]; split; [reflexivity |]; split.
  - left; reflexivity.
  - simpl; intros [H | [H | [H | [H | []]]]]; discriminate.
Qed.

(** C6 (amended).  Assembly checks no hand-off target: [_create_team] is
    the library constructor applied to the roster and to the round bound,
    so it raises only when that constructor does.  With critic or
    reviewer switched off and a constructor that accepts the roster, it
    returns a team in which a role names an absent role. *)
Theorem C6_assembly_checks_no_handoff :
  forall (w : world) (cfg : Settings) (want_memory want_monitoring : bool)
         (mode : option string),
    (exists k,
        _create_team w (new_DebugTeam cfg want_memory want_monitoring) cfg mode
        = group_chat w k (roster cfg)
            (MaxMessageTermination (max_rounds (team cfg))))
    /\ (enable_critic (team cfg) = false \/ enable_reviewer (team cfg) = false ->
        (forall k c, w_team_check w k (roster cfg) c = None) ->
        exists t,
          _create_team w (new_DebugTeam cfg want_memory want_monitoring)
            cfg mode = Return t
          /\ participants t = roster cfg
          /\ dangling_handoff t).
Proof.
  intros w cfg wm wo mode; split;
    [apply create_team_is_constructor |].
  intros Hoff Hacc.
  destruct (create_team_is_constructor w cfg wm wo mode) as [k ->].
  unfold group_chat; rewrite Hacc.
  eexists; split; [reflexivity |]; split; [reflexivity |].
  exists ExecutorAgent; simpl participants; unfold roster.
  destruct Hoff as [Hoff | Hoff]; rewrite Hoff.
  - exists "Critic"; split; [simpl; auto |]; split; [simpl; auto |].
    destruct (enable_reviewer (team cfg)); simpl;
      intuition discriminate.
  - exists "Reviewer"; split; [simpl; auto |]; split; [simpl; auto |].
    destruct (enable_critic (team cfg)); simpl;
      intuition discriminate.
Qed.

(** The theorem of C6 at the configuration without critic and reviewer. *)
Lemma C6_assembly_witness :
  (enable_critic (team lean_settings) = false
   \/ enable_reviewer (team lean_settings) = false)
  /\ (forall k c, w_team_check quiet_world k (roster lean_settings) c = None)
  /\ exists t,
      _create_team quiet_world (new_DebugTeam lean_settings true true)
        lean_settings None = Return t
      /\ participants t = roster lean_settings
      /\ dangling_handoff t.
Proof.
  split; [left; reflexivity |]; split; [reflexivity |].
  exact (proj2 (C6_assembly_checks_no_handoff quiet_world lean_settings
                  true true None)
           (or_introl eq_refl) (fun _ _ => eq_refl)).
Defined.

(** ** The memory bridge never raises *)

Lemma try_except_returns {A : Type} (body : outcome A)
    (handler : exn -> outcome A) :
  (forall e, exists a, handler e = Return a) ->
  exists a, try_except body handler = Return a.
Proof.
  intros H; destruct body as [a | e]; simpl; [eexists; reflexivity | apply H].
Qed.

Lemma search_tool_returns w args :
  exists res, MemorySearchTool_run w args = Return res.
Proof. apply try_except_returns; intros e; eexists; reflexivity. Qed.

Lemma search_tool_failure w args e :
  search_body w args = Raise e ->
  MemorySearchTool_run w args
  = Return {| result := Some {| results := []; total_results := 0 |};
              error := Some e |}.
Proof. unfold MemorySearchTool_run; intros ->; reflexivity. Qed.


Lemma search_similar_issues_returns w report n :
  exists v, search_similar_issues w report n = Return v.
Proof. apply try_except_returns; intros e; eexists; reflexivity. Qed.

Lemma store_solution_returns w report sol context :
  exists b, store_solution w report sol context = Return b.
Proof. apply try_except_returns; intros e; eexists; reflexivity. Qed.




Lemma embedding_failure_fails w :
  (forall text, exists e, w_embedding w text = Raise e) ->
  search_fails w /\ store_fails w.
Proof.
  intros H; split; intros args; unfold search_body, store_body;
    destruct (w_chroma_client w) as [[] | e0]; simpl;
    try (exists e0; reflexivity).
  - destruct (H (query args)) as [e He]; rewrite He;
      simpl; eexists; reflexivity.
  - destruct (H (store_content args)) as [e He]; rewrite He;
      simpl; eexists; reflexivity.
Qed.

(** ** [solve_bug] as a whole *)

(** Storing the solution does not change the outcome of the body. *)
Lemma solve_bug_body_run w self cfg report tc stream :
  exists similar,
    (if has_memory self then search_similar_issues w report 5
     else Return None) = Return similar
    /\ solve_bug_body w self cfg report tc stream
       = (ran <- team_run w self cfg report tc stream similar ;;
          Return (fst ran)).
Proof.
  assert (Hs : exists similar,
             (if has_memory self then search_similar_issues w report 5
              else Return None) = Return similar).
  { destruct (has_memory self);
      [apply search_similar_issues_returns | eexists; reflexivity]. }
  destruct Hs as [similar Hs]; exists similar; split; [exact Hs |].
  unfold solve_bug_body, team_run; rewrite Hs; simpl.
  destruct (_create_team w self cfg None) as [t |]; simpl; [| reflexivity].
  match goal with
  | |- bind ?run _ = _ => destruct run as [[res tc'] |]; simpl;
                          [| reflexivity]
  end.
  destruct (result_success res && has_memory self); [| reflexivity].
  match goal with
  | |- context [store_solution w report ?sol ?ctx] =>
      destruct (store_solution_returns w report sol ctx) as [b ->]
  end.
  reflexivity.
Qed.

(** The metric calls of one run return together or raise together: they
    use the same task id. *)
Lemma metric_call_returns self tid event :
  has_metrics self = false \/ hashable tid = true ->
  metric_call self tid event = Return (when_metrics self [event]).
Proof.
  unfold metric_call, when_metrics; intros [-> | ->];
    [reflexivity | destruct (has_metrics self); reflexivity].
Qed.

Lemma metric_call_raises self tid event :
  has_metrics self = true -> hashable tid = false ->
  metric_call self tid event
  = Raise ("unhashable type: '" ++ type_name tid ++ "'").
Proof. unfold metric_call; intros -> ->; reflexivity. Qed.

Lemma start_recorded_accepts self tc started :
  start_recorded self tc started ->
  (has_metrics self = false \/ hashable (task_id tc) = true)
  /\ started = when_metrics self [record_task_start (task_id tc)].
Proof.
  unfold start_recorded, metric_call, when_metrics.
  destruct (has_metrics self); [| intros [= <-]; auto].
  destruct (hashable (task_id tc)); [intros [= <-]; auto | discriminate].
Qed.

Lemma string_id_recorded self tc :
  (exists s, task_id tc = PStr s) ->
  start_recorded self tc (when_metrics self [record_task_start (task_id tc)]).
Proof.
  intros [s Hs]; apply metric_call_returns; right; rewrite Hs; reflexivity.
Qed.

Lemma solve_bug_on_raise w self cfg report context stream tc started e :
  _create_task_context w cfg report context = Return tc ->
  start_recorded self tc started ->
  solve_bug_body w self cfg report tc stream = Raise e ->
  solve_bug w self cfg report context stream
  = Return (ErrorResult e (task_id tc) (w_elapsed w),
            (when_metrics self [record_task_start (task_id tc)]
             ++ when_metrics self [record_task_failure (task_id tc) e])%list).
Proof.
  intros Htc Hstart Hbody; unfold solve_bug; rewrite Htc; simpl.
  apply start_recorded_accepts in Hstart as [Hacc _].
  rewrite (metric_call_returns _ _ _ Hacc), Hbody.
  unfold solve_bug_handler; rewrite (metric_call_returns _ _ _ Hacc).
  reflexivity.
Qed.

Lemma solve_bug_on_return w self cfg report context stream tc started res :
  _create_task_context w cfg report context = Return tc ->
  start_recorded self tc started ->
  solve_bug_body w self cfg report tc stream = Return res ->
  solve_bug w self cfg report context stream
  = Return (res,
            (when_metrics self [record_task_start (task_id tc)]
             ++ when_metrics self
                  [record_task_completion (task_id tc) (result_success res)
                     (w_elapsed w)])%list).
Proof.
  intros Htc Hstart Hbody; unfold solve_bug; rewrite Htc; simpl.
  apply start_recorded_accepts in Hstart as [Hacc _].
  rewrite (metric_call_returns _ _ _ Hacc), Hbody.
  rewrite (metric_call_returns _ _ _ Hacc); reflexivity.
Qed.


(** When the collector cannot take the task id, the error of the start
    is met again in the handler and leaves [solve_bug]. *)
Lemma solve_bug_unhashable w self cfg report context stream tc :
  _create_task_context w cfg report context = Return tc ->
  has_metrics self = true -> hashable (task_id tc) = false ->
  solve_bug w self cfg report context stream
  = Raise ("unhashable type: '" ++ type_name (task_id tc) ++ "'").
Proof.
  intros Htc Hm Hh; unfold solve_bug; rewrite Htc; simpl.
  rewrite (metric_call_raises _ _ _ Hm Hh).
  unfold solve_bug_handler; rewrite (metric_call_raises _ _ _ Hm Hh).
  reflexivity.
Qed.

(** ** Failures of a run *)

Lemma streaming_raises w t initial tc e :
  patches_ok tc ->
  snd (w_run_stream w t initial) = Some e ->
  _run_streaming w t initial tc = Raise e.
Proof.
  intros Hok Hf; unfold _run_streaming.
  destruct (w_run_stream w t initial) as [yielded failure]; simpl in Hf; subst.
  unfold run_streaming_on.
  destruct (stream_loop_total w yielded (stream_start tc) Hok) as [st ->].
  reflexivity.
Qed.



(** X20.  Once the turn loop is entered, that is when the task context has
    been created and the collector has taken the start of the task,
    [solve_bug] returns a result whatever happens between [try] and
    [except]: if the body raises [e] the result is the error record with
    [success = false] and [error] the text of [e], and the failure is
    reported to the metrics collector.  The body raises when the team
    constructor raises, when the streamed conversation raises, and when
    the batch run raises. *)
Theorem X20_run_failures_become_results :
  forall (w : world) (self : DebugTeam) (cfg : Settings) (report : string)
         (context : option py_dict) (stream : bool) (tc : TaskContext)
         (started : list MetricEvent),
    _create_task_context w cfg report context = Return tc ->
    start_recorded self tc started ->
    (exists r log,
        solve_bug w self cfg report context stream = Return (r, log)
        /\ forall e,
            solve_bug_body w self cfg report tc stream = Raise e ->
            r = ErrorResult e (task_id tc) (w_elapsed w)
            /\ result_success r = false
            /\ result_error r = Some e
            /\ (has_metrics self = true ->
                log = [record_task_start (task_id tc);
                       record_task_failure (task_id tc) e]))
    /\ (forall e,
          _create_team w self cfg None = Raise e ->
          solve_bug_body w self cfg report tc stream = Raise e)
    /\ (forall t e,
          _create_team w self cfg None = Return t ->
          stream = true -> patches_ok tc ->
          (forall initial, snd (w_run_stream w t initial) = Some e) ->
          solve_bug_body w self cfg report tc stream = Raise e)
    /\ (forall t e,
          _create_team w self cfg None = Return t ->
          stream = false ->
          (forall initial, w_run w t initial = Raise e) ->
          solve_bug_body w self cfg report tc stream = Raise e).
Proof.
  intros w self cfg report context stream tc started Htc Hstart.
  destruct (solve_bug_body_run w self cfg report tc stream)
    as (similar & _ & Hbody).
  split; [| split; [| split]].
  - destruct (solve_bug_body w self cfg report tc stream) as [res | e0] eqn:Eb.
    + exists res; eexists; split.
      * eapply solve_bug_on_return; [exact Htc | exact Hstart | exact Eb].
      * intros e He; discriminate.
    + exists (ErrorResult e0 (task_id tc) (w_elapsed w)); eexists; split.
      * eapply solve_bug_on_raise; [exact Htc | exact Hstart | exact Eb].
      * intros e He; inversion He; subst.
        repeat split.
        intros Hm; unfold when_metrics; rewrite Hm; reflexivity.
  - intros e He; rewrite Hbody; unfold team_run; rewrite He; reflexivity.
  - intros t e Ht -> Hok Hf; rewrite Hbody; unfold team_run; rewrite Ht.
    simpl; rewrite (streaming_raises _ _ _ _ e Hok (Hf _)); reflexivity.
  - intros t e Ht -> Hf; rewrite Hbody; unfold team_run; rewrite Ht.
    simpl; unfold _run_batch; rewrite Hf; reflexivity.
Qed.

(** The theorem of X20 at a conversation whose model call fails. *)
Lemma X20_run_failures_witness :
  _create_task_context failing_world default_settings sample_report None
    = Return (new_TaskContext (w_task_uuid failing_world) sample_report 20)
  /\ start_recorded default_team
       (new_TaskContext (w_task_uuid failing_world) sample_report 20)
       [record_task_start (PStr (w_task_uuid failing_world))]
  /\ exists r log,
      solve_bug failing_world default_team default_settings sample_report
        None true = Return (r, log)
      /\ result_success r = false
      /\ result_error r = Some "model call failed: 503".
Proof.
  split; [reflexivity |]; split; [reflexivity |].
  destruct (X20_run_failures_become_results failing_world default_team
              default_settings sample_report None true
              (new_TaskContext (w_task_uuid failing_world) sample_report 20)
              [record_task_start (PStr (w_task_uuid failing_world))]
              eq_refl eq_refl)
    as ((r & log & Hrun & Hraise) & _).
  exists r, log; split; [exact Hrun |].
  destruct (Hraise "model call failed: 503" eq_refl) as (_ & Hs & He & _).
  split; assumption.
Defined.

(** ** Memory failures *)

Lemma create_team_without_memory w self cfg mode :
  _create_team w (without_memory self) cfg mode = _create_team w self cfg mode.
Proof. reflexivity. Qed.





(** ** The iteration bound *)

Lemma bounded_snapshot tc tc' :
  bounded tc -> same_identity tc tc' -> snapshot_bounded (model_dump tc').
Proof.
  intros (i & m & Hi & Hm & Hle) (_ & _ & Ei & Em).
  exists i, m; simpl; rewrite <- Ei, <- Em, Hi, Hm; auto.
Qed.

Lemma run_streaming_snapshot w msgs failure tc r tc' :
  run_streaming_on w msgs failure tc = Return (r, tc') ->
  result_snapshot r = Some (model_dump tc') /\ same_identity tc tc'.
Proof.
  unfold run_streaming_on.
  destruct (stream_loop w (stream_start tc) msgs) as [st |] eqn:Eloop;
    simpl; [| discriminate].
  destruct failure; [discriminate |].
  intros H; inversion H; subst; clear H; simpl.
  apply stream_loop_returns in Eloop as (_ & Hid & _).
  split; [reflexivity | exact Hid].
Qed.

Lemma team_run_snapshot w self cfg report tc stream similar r tc' :
  team_run w self cfg report tc stream similar = Return (r, tc') ->
  result_snapshot r = Some (model_dump tc') /\ same_identity tc tc'.
Proof.
  unfold team_run.
  destruct (_create_team w self cfg None) as [t |]; simpl; [| discriminate].
  destruct stream.
  - unfold _run_streaming.
    destruct (w_run_stream w t _) as [yielded failure].
    apply run_streaming_snapshot.
  - unfold _run_batch.
    destruct (w_run w t _) as [res |]; simpl; [| discriminate].
    intros H; inversion H; subst; clear H.
    split; [| apply same_identity_refl].
    unfold run_batch_on.
    destruct (match messages res with
              | Some msgs => batch_scan w msgs
              | None => (false, None)
              end); reflexivity.
Qed.

(** C5.  No statement of a run writes [iteration] or [max_iterations]:
    when the task context is well formed, its [task_id] a string and its
    [iteration] at most [max_iterations], [solve_bug] returns, and the
    snapshot in its result, if there is one, has
    [iteration <= max_iterations].  The context built without caller
    overrides is well formed, with [iteration = 0] and the configured
    bound. *)
Theorem C5_iteration_stays_within_bound :
  forall (w : world) (self : DebugTeam) (cfg : Settings) (report : string)
         (context : option py_dict) (stream : bool) (tc : TaskContext),
    _create_task_context w cfg report context = Return tc ->
    well_formed tc ->
    (exists r log,
        solve_bug w self cfg report context stream = Return (r, log)
        /\ forall snap, result_snapshot r = Some snap -> snapshot_bounded snap)
    /\ ((0 <= max_rounds (team cfg))%Z ->
        exists fresh,
          _create_task_context w cfg report None = Return fresh
          /\ iteration fresh = PInt 0
          /\ well_formed fresh).
Proof.
  intros w self cfg report context stream tc Htc [Hid Hb]; split.
  - pose proof (string_id_recorded self tc Hid) as Hstart.
    destruct (solve_bug_body_run w self cfg report tc stream)
      as (similar & _ & Hbody).
    destruct (team_run w self cfg report tc stream similar)
      as [[res tc'] |] eqn:Erun; simpl in Hbody.
    + exists res; eexists; split.
      * eapply solve_bug_on_return; [exact Htc | exact Hstart | exact Hbody].
      * intros snap Hsnap.
        apply team_run_snapshot in Erun as [Es Hsame].
        rewrite Es in Hsnap; inversion Hsnap; subst.
        eapply bounded_snapshot; eauto.
    + eexists; eexists; split.
      * eapply solve_bug_on_raise; [exact Htc | exact Hstart | exact Hbody].
      * intros snap Hsnap; discriminate.
  - intros Hpos; eexists; split; [reflexivity |]; split; [reflexivity |].
    split; [eexists; reflexivity |].
    exists 0%Z, (max_rounds (team cfg)); simpl; auto.
Qed.

(** The theorem of C5 at a run that completes. *)
Lemma C5_iteration_witness :
  _create_task_context (world_with patch_then_complete None) default_settings
    sample_report None
    = Return (new_TaskContext (w_task_uuid quiet_world) sample_report 20)
  /\ well_formed (new_TaskContext (w_task_uuid quiet_world) sample_report 20)
  /\ exists r log snap,
      solve_bug (world_with patch_then_complete None) default_team
        default_settings sample_report None true = Return (r, log)
      /\ result_snapshot r = Some snap
      /\ snapshot_bounded snap.
Proof.
  assert (Hb : well_formed (new_TaskContext (w_task_uuid quiet_world)
                              sample_report 20)).
  { split; [eexists; reflexivity |].
    exists 0%Z, 20%Z; repeat split; lia. }
  split; [reflexivity |]; split; [exact Hb |].
  destruct (C5_iteration_stays_within_bound
              (world_with patch_then_complete None) default_team
              default_settings sample_report None true _ eq_refl Hb)
    as ((r & log & Hrun & Hsnap) & _).
  assert (Hhas : exists snap, result_snapshot r = Some snap).
  { vm_compute in Hrun; inversion Hrun; subst; eexists; reflexivity. }
  destruct Hhas as [snap Hs].
  exists r, log, snap; auto.
Defined.

(** ** Ranking and truncation of similar solutions *)

Lemma format_results_spec raw threshold todo : forall formatted out,
  format_results raw threshold todo formatted = Return out ->
  Forall (above threshold) formatted ->
  Forall (above threshold) out
  /\ (List.length out <= List.length formatted + List.length todo)%nat.
Proof.
  induction todo as [| i rest IH]; intros formatted out H Hall; simpl in H.
  - inversion H; subst; split; [assumption | lia].
  - destruct (index (distances raw) 0) as [drow |]; simpl in H;
      [| discriminate].
    destruct (index drow i) as [d |]; simpl in H; [| discriminate].
    destruct (float_ge (similarity_of d) threshold) eqn:Ege.
    + destruct (index (ids raw) 0) as [irow |]; simpl in H; [| discriminate].
      destruct (index irow i) as [id |]; simpl in H; [| discriminate].
      destruct (index (documents raw) 0) as [crow |]; simpl in H;
        [| discriminate].
      destruct (index crow i) as [doc |]; simpl in H; [| discriminate].
      destruct (index (metadatas raw) 0) as [mrow |]; simpl in H;
        [| discriminate].
      destruct (index mrow i) as [meta |]; simpl in H; [| discriminate].
      apply IH in H.
      * destruct H as [Hout Hlen]; split; [exact Hout |].
        rewrite length_app in Hlen; simpl in *; lia.
      * apply Forall_app; split; [assumption |].
        constructor; [exact Ege | constructor].
    + apply IH in H; [| assumption].
      destruct H as [Hout Hlen]; split; [exact Hout | simpl; lia].
Qed.

Lemma similar_section_top3 w hits :
  similar_section w (Some hits) = similar_section w (Some (firstn 3 hits)).
Proof.
  destruct hits as [| a [| b [| c rest]]]; reflexivity.
Qed.

(** C8.  For a store that answers a query for [n] results with at most
    [n] and a non-negative [max_results]: the search tool returns, every
    result it returns has [similarity >= similarity_threshold], there are
    at most [max_results] of them, and the composed message is the one
    composed from the first three results alone. *)
Theorem C8_results_filtered_capped_and_truncated :
  forall (w : world) (args : MemorySearchInput),
    top_k_store w ->
    (0 <= max_results args)%Z ->
    (exists res found,
        MemorySearchTool_run w args = Return res
        /\ result res = Some found
        /\ Forall (above (similarity_threshold args)) (results found)
        /\ (Z.of_nat (List.length (results found)) <= max_results args)%Z
        /\ total_results found = Z.of_nat (List.length (results found)))
    /\ (forall report tc hits,
          _prepare_initial_message w report tc (Some hits)
          = _prepare_initial_message w report tc (Some (firstn 3 hits))
          /\ (List.length (firstn 3 hits) <= 3)%nat
          /\ (forall h rest, hits = h :: rest ->
                similar_section w (Some hits)
                = similar_heading ++ solution_entries w 1 (firstn 3 hits))).
Proof.
  intros w args Htop Hpos; split.
  - unfold MemorySearchTool_run.
    destruct (search_body w args) as [res |] eqn:Ebody; simpl.
    2:{ do 2 eexists; split; [reflexivity |]; split; [reflexivity |]; simpl.
        split; [constructor |]; split; [lia | reflexivity]. }
    unfold search_body in Ebody.
    destruct (w_chroma_client w) as [[] |]; simpl in Ebody; [| discriminate].
    destruct (w_embedding w (query args)) as [emb |]; simpl in Ebody;
      [| discriminate].
    destruct (w_query w emb (max_results args) (where_clause (category args)))
      as [raw |] eqn:Eq; simpl in Ebody; [| discriminate].
    destruct (ids raw) as [| first rest] eqn:Eids.
    { simpl in Ebody; inversion Ebody; subst.
      do 2 eexists; split; [reflexivity |]; split; [reflexivity |]; simpl.
      split; [constructor |]; split; [lia | reflexivity]. }
    pose proof (Htop _ _ _ _ _ _ Eq Eids) as Hk.
    destruct (0 <? Z.of_nat (List.length first))%Z.
    2:{ simpl in Ebody; inversion Ebody; subst.
        do 2 eexists; split; [reflexivity |]; split; [reflexivity |]; simpl.
        split; [constructor |]; split; [lia | reflexivity]. }
    destruct (format_results raw (similarity_threshold args)
                (seq 0 (List.length first)) []) as [out |] eqn:Ef;
      simpl in Ebody; [| discriminate].
    inversion Ebody; subst.
    apply format_results_spec in Ef as [Hall Hlen]; [| constructor].
    rewrite length_seq in Hlen; simpl in Hlen.
    do 2 eexists; split; [reflexivity |]; split; [reflexivity |]; simpl.
    split; [exact Hall |]; split; [lia | reflexivity].
  - intros report tc hits; split; [| split].
    + unfold _prepare_initial_message.
      rewrite similar_section_top3; reflexivity.
    + rewrite length_firstn; lia.
    + intros h rest ->; reflexivity.
Qed.

Lemma stocked_world_top_k : top_k_store stocked_world.
Proof.
  intros embedding n filter raw first rest Hq Hids; simpl in Hq.
  destruct (0 <? n)%Z eqn:Hn; [| discriminate].
  apply Z.ltb_lt in Hn.
  inversion Hq; subst; simpl in Hids; inversion Hids; subst.
  rewrite length_firstn; lia.
Qed.

(** The theorem of C8 at a store that holds two past solutions. *)
Lemma C8_results_witness :
  top_k_store stocked_world
  /\ (0 <= max_results (search_args sample_report 5))%Z
  /\ exists res found,
      MemorySearchTool_run stocked_world (search_args sample_report 5)
        = Return res
      /\ result res = Some found
      /\ Forall (above default_threshold) (results found)
      /\ (Z.of_nat (List.length (results found)) <= 5)%Z.
Proof.
  assert (Hpos : (0 <= max_results (search_args sample_report 5))%Z)
    by (simpl; lia).
  split; [exact stocked_world_top_k |]; split; [exact Hpos |].
  destruct (C8_results_filtered_capped_and_truncated stocked_world
              (search_args sample_report 5) stocked_world_top_k Hpos)
    as ((res & found & Hrun & Hres & Hall & Hlen & _) & _).
  exists res, found; auto.
Defined.

(** ** The initial message without similar solutions *)

Section Substrings.

Import Py.

Lemma prefix_sep needle c : mem_char c needle = false ->
  forall a b, String.prefix needle (a ++ String c b) = String.prefix needle a.
Proof.
  revert c; induction needle as [| x needle IH]; intros c Hc a b.
  - destruct a; reflexivity.
  - simpl in Hc; apply orb_false_elim in Hc as [Hx Hrest].
    destruct a as [| y a]; simpl.
    + destruct (ascii_dec x c) as [-> | _]; [| reflexivity].
      rewrite Ascii.eqb_refl in Hx; discriminate.
    + destruct (ascii_dec x y); [apply IH; exact Hrest | reflexivity].
Qed.

(** A needle without the character [c] cannot straddle an occurrence of
    [c]: it lies to its left or to its right. *)
Lemma contains_sep needle c a b : mem_char c needle = false ->
  contains needle (a ++ String c b) = contains needle a || contains needle b.
Proof.
  intros Hc; induction a as [| y a IH].
  - change ("" ++ String c b) with (String c b).
    change (contains needle (String c b))
      with (String.prefix needle (String c b) || contains needle b).
    pose proof (prefix_sep needle c Hc "" b) as P.
    change ("" ++ String c b) with (String c b) in P; rewrite P.
    change (contains needle "") with (String.prefix needle "" || false).
    rewrite orb_false_r; reflexivity.
  - change (contains needle (String y a ++ String c b))
      with (String.prefix needle (String y (a ++ String c b))
            || contains needle (a ++ String c b)).
    change (String y (a ++ String c b)) with (String y a ++ String c b).
    rewrite (prefix_sep needle c Hc), IH.
    change (contains needle (String y a))
      with (String.prefix needle (String y a) || contains needle a).
    rewrite orb_assoc; reflexivity.
Qed.

Lemma contains_app_r needle a b :
  contains needle b = true -> contains needle (a ++ b) = true.
Proof.
  intros H; induction a as [| y a IH]; [exact H |].
  change (contains needle (String y a ++ b))
    with (String.prefix needle (String y (a ++ b)) || contains needle (a ++ b)).
  rewrite IH; apply orb_true_r.
Qed.

Lemma prefix_app needle b : String.prefix needle (needle ++ b) = true.
Proof.
  induction needle as [| x needle IH]; [destruct b; reflexivity |]; simpl.
  destruct (ascii_dec x x); [exact IH | congruence].
Qed.

Lemma contains_here needle b : contains needle (needle ++ b) = true.
Proof.
  destruct (needle ++ b) eqn:E; unfold contains; fold contains;
    rewrite <- E, prefix_app; reflexivity.
Qed.

End Substrings.

(** The shape of the message when the search found nothing. *)
Lemma initial_message_plain w report tc similar :
  similar = None \/ similar = Some [] ->
  _prepare_initial_message w report tc similar
  = String Py.nl "## Bug Report"
    ++ String Py.nl
         (report
          ++ String Py.nl
               ("" ++ String Py.nl
                  ("## Task ID"
                   ++ String ":"
                        (String " "
                           (py_str w (task_id tc)
                            ++ String Py.nl instructions))))).
Proof. intros [-> | ->]; reflexivity. Qed.

(** C9 (the claim as stated fails).  No similar solutions, and a bug
    report that quotes the heading: the composed message contains the
    heading of a "Similar Past Solutions" section. *)
Lemma C9_report_quoting_heading :
  Py.contains similar_heading
    (_prepare_initial_message quiet_world quoting_report sample_context None)
  = true
  /\ Py.contains past_solutions_words
       (_prepare_initial_message quiet_world quoting_report sample_context None)
     = true.
Proof. split; vm_compute; reflexivity. Qed.

(** C9 (amended).  When the search found nothing ([None] or an empty
    list) the composed message contains the bug report, the composer adds
    no section of past solutions, and the words "Similar Past Solutions"
    occur in the message exactly when they occur in the bug report or in
    the task id. *)
Theorem C9_no_section_without_similar_cases :
  forall (w : world) (report : string) (tc : TaskContext)
         (similar : option (list Hit)),
    similar = None \/ similar = Some [] ->
    Py.contains report (_prepare_initial_message w report tc similar) = true
    /\ similar_section w similar = ""
    /\ Py.contains past_solutions_words
         (_prepare_initial_message w report tc similar)
       = Py.contains past_solutions_words report
         || Py.contains past_solutions_words (py_str w (task_id tc)).
Proof.
  intros w report tc similar Hnone.
  rewrite (initial_message_plain w report tc similar Hnone).
  split; [| split].
  - apply contains_app_r.
    change (String Py.nl (report ++ ?x)) with (String Py.nl "" ++ report ++ x).
    apply (contains_app_r report (String Py.nl "")), contains_here.
  - destruct Hnone as [-> | ->]; reflexivity.
  - assert (Hnl : Py.mem_char Py.nl past_solutions_words = false)
      by reflexivity.
    assert (Hcolon : Py.mem_char ":" past_solutions_words = false)
      by reflexivity.
    rewrite (contains_sep _ _ _ _ Hnl).
    rewrite (contains_sep _ _ report _ Hnl).
    rewrite (contains_sep _ _ "" _ Hnl).
    rewrite (contains_sep _ _ "## Task ID" _ Hcolon).
    change (Py.contains past_solutions_words
              (String " " (py_str w (task_id tc) ++ String Py.nl instructions)))
      with (Py.contains past_solutions_words
              (py_str w (task_id tc) ++ String Py.nl instructions)).
    rewrite (contains_sep _ _ (py_str w (task_id tc)) _ Hnl).
    replace (Py.contains past_solutions_words (String Py.nl "## Bug Report"))
      with false by (vm_compute; reflexivity).
    replace (Py.contains past_solutions_words "") with false by reflexivity.
    replace (Py.contains past_solutions_words "## Task ID")
      with false by (vm_compute; reflexivity).
    replace (Py.contains past_solutions_words instructions)
      with false by (vm_compute; reflexivity).
    simpl orb; rewrite orb_false_r; reflexivity.
Qed.

(** The theorem of C9 at the scenario's bug report. *)
Lemma C9_no_section_witness :
  (@None (list Hit) = None \/ @None (list Hit) = Some [])
  /\ Py.contains sample_report
       (_prepare_initial_message quiet_world sample_report sample_context None)
     = true
  /\ Py.contains past_solutions_words
       (_prepare_initial_message quiet_world sample_report sample_context None)
     = false.
Proof.
  split; [left; reflexivity |].
  destruct (C9_no_section_without_similar_cases quiet_world sample_report
              sample_context None (or_introl eq_refl)) as (Hin & _ & Hwords).
  split; [exact Hin |].
  rewrite Hwords; vm_compute; reflexivity.
Defined.

(** ** Caller overrides at context creation *)

Lemma is_field_cases name :
  is_field name = true -> In name field_names.
Proof.
  unfold is_field; intros H.
  apply existsb_exists in H as (f & Hin & Heq).
  apply String.eqb_eq in Heq; subst; exact Hin.
Qed.

(** Reading a field after writing a field. *)
Lemma get_set_field tc key value name :
  is_field key = true -> is_field name = true ->
  get_field (set_field tc key value) name
  = if String.eqb key name then Some value else get_field tc name.
Proof.
  intros Hk Hn.
  apply is_field_cases in Hk; apply is_field_cases in Hn.
  destruct tc as [a b c d e f g h i].
  simpl in Hk, Hn.
  repeat (destruct Hk as [<- | Hk]);
    try (exfalso; exact Hk);
    repeat (destruct Hn as [<- | Hn]);
    try (exfalso; exact Hn); reflexivity.
Qed.

Lemma dict_get_absent (d : py_dict) key :
  ~ In key (map fst d) -> dict_get d key = None.
Proof.
  induction d as [| [k v] d IH]; simpl; intros H; [reflexivity |].
  destruct (String.eqb_spec k key) as [-> | _]; [exfalso; auto |].
  apply IH; auto.
Qed.

Lemma apply_context_fields w items : forall tc,
  NoDup (map fst items) ->
  only_fields_known w items ->
  exists tc',
    apply_context w tc items = Return tc'
    /\ forall name, is_field name = true ->
         get_field tc' name
         = match dict_get items name with
           | Some v => Some v
           | None => get_field tc name
           end.
Proof.
  induction items as [| [key value] rest IH]; intros tc Hnd Hknown.
  - exists tc; split; reflexivity.
  - simpl in Hnd; inversion Hnd as [| k l Hnotin Hnd']; subst.
    assert (Hknown' : only_fields_known w rest)
      by (intros k Hin; apply Hknown; right; exact Hin).
    simpl apply_context.
    destruct (is_field key) eqn:Hf.
    + destruct (IH (set_field tc key value) Hnd' Hknown') as (tc' & Hrun & Hget).
      exists tc'; split; [exact Hrun |].
      intros name Hname; rewrite (Hget name Hname); simpl dict_get.
      rewrite (get_set_field tc key value name Hf Hname).
      destruct (String.eqb_spec key name) as [-> | _]; [| reflexivity].
      rewrite (dict_get_absent rest name Hnotin); reflexivity.
    + rewrite (Hknown key (or_introl eq_refl) Hf).
      destruct (IH tc Hnd' Hknown') as (tc' & Hrun & Hget).
      exists tc'; split; [exact Hrun |].
      intros name Hname; rewrite (Hget name Hname); simpl dict_get.
      destruct (String.eqb_spec key name) as [-> | _]; [| reflexivity].
      rewrite Hf in Hname; discriminate.
Qed.

(** C10.  For a caller context with distinct keys, of which [hasattr]
    accepts the declared fields only: the task context is created, every
    field named by a key holds the caller's value, and every other field
    holds its initial value; so [task_id] is the generated identifier and
    [max_iterations] the configured bound exactly when the caller's
    context has no such key. *)
Theorem C10_caller_context_overrides_fields :
  forall (w : world) (cfg : Settings) (report : string) (context : py_dict),
    NoDup (map fst context) ->
    only_fields_known w context ->
    exists tc,
      _create_task_context w cfg report (Some context) = Return tc
      /\ (forall name, is_field name = true ->
            get_field tc name
            = match dict_get context name with
              | Some v => Some v
              | None =>
                  get_field
                    (new_TaskContext (w_task_uuid w) report
                       (max_rounds (team cfg))) name
              end)
      /\ task_id tc
         = dict_get_default context "task_id" (PStr (w_task_uuid w))
      /\ bug_report tc = dict_get_default context "bug_report" (PStr report)
      /\ iteration tc = dict_get_default context "iteration" (PInt 0)
      /\ max_iterations tc
         = dict_get_default context "max_iterations"
             (PInt (max_rounds (team cfg))).
Proof.
  intros w cfg report context Hnd Hknown.
  set (fresh := new_TaskContext (w_task_uuid w) report (max_rounds (team cfg))).
  destruct (apply_context_fields w context fresh Hnd Hknown)
    as (tc & Hrun & Hget).
  exists tc; split.
  - unfold _create_task_context; fold fresh.
    destruct context as [| item items]; [| exact Hrun].
    simpl in Hrun; exact Hrun.
  - split; [exact Hget |].
    pose proof (Hget "task_id" eq_refl) as H1.
    pose proof (Hget "bug_report" eq_refl) as H2.
    pose proof (Hget "iteration" eq_refl) as H3.
    pose proof (Hget "max_iterations" eq_refl) as H4.
    unfold dict_get_default.
    change (get_field tc "task_id") with (Some (task_id tc)) in H1.
    change (get_field tc "bug_report") with (Some (bug_report tc)) in H2.
    change (get_field tc "iteration") with (Some (iteration tc)) in H3.
    change (get_field tc "max_iterations") with (Some (max_iterations tc)) in H4.
    destruct (dict_get context "task_id"), (dict_get context "bug_report"),
      (dict_get context "iteration"), (dict_get context "max_iterations");
      simpl in H1, H2, H3, H4;
      inversion H1; inversion H2; inversion H3; inversion H4;
      repeat split; reflexivity.
Qed.

Lemma overriding_context_distinct : NoDup (map fst overriding_context).
Proof.
  simpl; repeat constructor; simpl;
    intros H; repeat (destruct H as [H | H]; [discriminate |]); exact H.
Qed.

(** The theorem of C10 at a caller context that overrides four fields. *)
Lemma C10_caller_context_witness :
  NoDup (map fst overriding_context)
  /\ only_fields_known quiet_world overriding_context
  /\ exists tc,
      _create_task_context quiet_world default_settings sample_report
        (Some overriding_context) = Return tc
      /\ task_id tc = PStr "ticket-42"
      /\ iteration tc = PInt 7
      /\ max_iterations tc = PInt 3
      /\ bug_report tc = PStr sample_report.
Proof.
  assert (Hknown : only_fields_known quiet_world overriding_context)
    by (intros key _ _; reflexivity).
  split; [exact overriding_context_distinct |]; split; [exact Hknown |].
  destruct (C10_caller_context_overrides_fields quiet_world default_settings
              sample_report overriding_context overriding_context_distinct
              Hknown)
    as (tc & Hrun & _ & H1 & H2 & H3 & H4).
  exists tc; split; [exact Hrun |].
  rewrite H1, H2, H3, H4; repeat split; reflexivity.
Defined.

(** * Further properties of the code *)

(** ** Lines and markers *)

(** The first line of a text and the rest. *)
Lemma split_nl_head s :
  exists first others,
    Py.split_nl s = first :: others
    /\ ((s = first /\ others = [])
        \/ exists tail, s = first ++ String Py.nl tail
                        /\ others = Py.split_nl tail).
Proof.
  induction s as [| c rest IH].
  - exists "", []; split; [reflexivity | left; split; reflexivity].
  - simpl; destruct (Ascii.eqb_spec c Py.nl) as [-> | Hc].
    + exists "", (Py.split_nl rest); split; [reflexivity |].
      right; exists rest; split; reflexivity.
    + destruct IH as (first & others & Hs & Hshape); rewrite Hs.
      exists (String c first), others; split; [reflexivity |].
      destruct Hshape as [[-> ->] | (tail & -> & ->)].
      * left; split; reflexivity.
      * right; exists tail; split; reflexivity.
Qed.

Lemma split_nl_app a b :
  Py.split_nl (a ++ String Py.nl b) = (Py.split_nl a ++ Py.split_nl b)%list.
Proof.
  induction a as [| c a IH]; [reflexivity |].
  change (String c a ++ String Py.nl b) with (String c (a ++ String Py.nl b)).
  simpl; destruct (Ascii.eqb c Py.nl).
  - rewrite IH; reflexivity.
  - rewrite IH.
    destruct (split_nl_head a) as (first & others & -> & _); reflexivity.
Qed.

(** A needle without a line feed occurs in a text exactly when it occurs
    in one of its lines. *)
Lemma contains_lines needle s :
  Py.mem_char Py.nl needle = false ->
  Py.contains needle s = existsb (Py.contains needle) (Py.split_nl s).
Proof.
  intros Hnl; induction s as [| c rest IH].
  - simpl; rewrite !orb_false_r; reflexivity.
  - destruct (split_nl_head rest) as (first & others & Hs & Hshape).
    change (Py.contains needle (String c rest))
      with (String.prefix needle (String c rest) || Py.contains needle rest).
    rewrite IH; simpl Py.split_nl.
    destruct (Ascii.eqb_spec c Py.nl) as [-> | Hc].
    + pose proof (prefix_sep needle Py.nl Hnl "" rest) as P.
      change ("" ++ String Py.nl rest) with (String Py.nl rest) in P.
      rewrite P; simpl; rewrite orb_false_r; reflexivity.
    + rewrite Hs; simpl existsb.
      change (Py.contains needle (String c first))
        with (String.prefix needle (String c first)
              || Py.contains needle first).
      assert (E : String.prefix needle (String c rest)
                  = String.prefix needle (String c first)).
      { destruct Hshape as [[-> _] | (tail & -> & _)]; [reflexivity |].
        apply (prefix_sep needle Py.nl Hnl (String c first) tail). }
      rewrite E, orb_assoc; reflexivity.
Qed.

(** Lines without the marker, met before any marker, change nothing. *)
Lemma extract_plan_loop_skips before : forall after plan,
  Forall (fun line => Py.contains "PLAN:" line = false) before ->
  _extract_plan_loop (before ++ after)%list false plan
  = _extract_plan_loop after false plan.
Proof.
  induction before as [| line before IH]; intros after plan H; [reflexivity |].
  inversion H as [| l ls Hline Hrest]; subst.
  simpl; rewrite Hline; simpl; apply IH; exact Hrest.
Qed.

Lemma no_marker_lines s :
  Py.contains "PLAN:" s = false ->
  Forall (fun line => Py.contains "PLAN:" line = false) (Py.split_nl s).
Proof.
  intros H; rewrite (contains_lines "PLAN:" s eq_refl) in H.
  apply Forall_forall; intros line Hin.
  destruct (Py.contains "PLAN:" line) eqn:E; [| reflexivity].
  rewrite (existsb_In_true _ _ line Hin E) in H; discriminate.
Qed.

(** X1.  A content without the marker [PLAN:] has the empty plan,
    whatever list items it holds. *)
Theorem X1_no_marker_no_plan :
  forall content : string,
    Py.contains "PLAN:" content = false -> _extract_plan content = [].
Proof.
  intros content H; unfold _extract_plan.
  rewrite <- (app_nil_r (Py.split_nl content)).
  rewrite (extract_plan_loop_skips _ [] [] (no_marker_lines content H)).
  reflexivity.
Qed.

(** The theorem of X1 at a list without a marker. *)
Lemma X1_no_marker_witness :
  Py.contains "PLAN:" ("- step one" ++ String Py.nl "- step two") = false
  /\ _extract_plan ("- step one" ++ String Py.nl "- step two") = [].
Proof.
  split; [reflexivity |].
  apply X1_no_marker_no_plan; reflexivity.
Defined.

(** X2.  Whatever comes before the line that carries the marker has no
    effect on the plan. *)
Theorem X2_text_before_marker_is_ignored :
  forall before rest : string,
    Py.contains "PLAN:" before = false ->
    _extract_plan (before ++ String Py.nl rest) = _extract_plan rest.
Proof.
  intros before rest H; unfold _extract_plan.
  rewrite split_nl_app.
  apply extract_plan_loop_skips, no_marker_lines, H.
Qed.

(** The theorem of X2 at an introduction with list items of its own. *)
Lemma X2_text_before_marker_witness :
  Py.contains "PLAN:" "- an aside" = false
  /\ _extract_plan ("- an aside" ++ String Py.nl scenario_plan_message)
     = ["step one"; "step two"].
Proof.
  split; [reflexivity |].
  rewrite (X2_text_before_marker_is_ignored "- an aside"
             scenario_plan_message eq_refl).
  reflexivity.
Defined.

Lemma lstrip_by_head drop s c rest :
  Py.lstrip_by drop s = String c rest -> drop c = false.
Proof.
  induction s as [| x s IH]; simpl; [discriminate |].
  destruct (drop x) eqn:E; [exact IH |].
  intros H; inversion H; subst; exact E.
Qed.

Lemma extract_plan_loop_steps lines : forall in_plan plan (P : string -> Prop),
  Forall P plan ->
  (forall line, P (Py.lstrip (Py.strip line) "-*123456789. ")) ->
  Forall P (_extract_plan_loop lines in_plan plan).
Proof.
  induction lines as [| line rest IH]; intros in_plan plan P Hplan Hstep;
    cbn [_extract_plan_loop]; [exact Hplan |].
  destruct (Py.contains "PLAN:" line); [apply IH; assumption |].
  destruct (in_plan && Py.truthy (Py.strip line)); [| apply IH; assumption].
  destruct (Py.startswith_any (Py.strip line) ["-"; "*"; "1."; "2."; "3."]).
  - apply IH; [| assumption].
    apply Forall_app; split;
      [assumption | constructor; [apply Hstep | constructor]].
  - destruct (negb (Py.startswith line " ")); [exact Hplan |].
    apply IH; assumption.
Qed.

(** X3.  No step of an extracted plan begins with a dash, an asterisk, a
    digit from 1 to 9, a dot or a space. *)
Theorem X3_steps_carry_no_prefix_character :
  forall (content step : string) (c : ascii) (rest : string),
    In step (_extract_plan content) ->
    step = String c rest ->
    Py.mem_char c "-*123456789. " = false.
Proof.
  intros content step c rest Hin ->.
  pose proof (extract_plan_loop_steps (Py.split_nl content) false []
                (fun s => forall c rest, s = String c rest ->
                            Py.mem_char c "-*123456789. " = false)
                (Forall_nil _)) as H.
  unfold _extract_plan in Hin.
  assert (Hstep : forall line c0 rest0,
             Py.lstrip (Py.strip line) "-*123456789. " = String c0 rest0 ->
             Py.mem_char c0 "-*123456789. " = false).
  { intros line c0 rest0 E; unfold Py.lstrip in E.
    exact (lstrip_by_head _ _ _ _ E). }
  pose proof (proj1 (Forall_forall _ _) (H Hstep) _ Hin) as Hc.
  exact (Hc c rest eq_refl).
Qed.

(** The theorem of X3 at the scenario's plan. *)
Lemma X3_steps_witness :
  In "step one" (_extract_plan scenario_plan_message)
  /\ Py.mem_char "s" "-*123456789. " = false.
Proof.
  assert (Hin : In "step one" (_extract_plan scenario_plan_message))
    by (left; reflexivity).
  split; [exact Hin |].
  exact (X3_steps_carry_no_prefix_character scenario_plan_message "step one"
           "s" "tep one" Hin eq_refl).
Defined.

(** ** The streaming loop, field by field *)

Lemma completes_branches m :
  completes m
  = mentions "TASK_COMPLETE" (content m)
    && negb (reaches_plan m) && negb (reaches_patch m) && negb (reaches_test m).
Proof.
  unfold completes, reaches_plan, reaches_patch, reaches_test, mentions.
  destruct (content m) as [| s |]; try reflexivity.
  destruct (Py.contains "TASK_COMPLETE" s), (Py.contains "PLAN:" s),
    (Py.contains "PATCH:" s), (Py.contains "TEST_RESULTS:" s); reflexivity.
Qed.

(** What one round writes into the task context. *)
Lemma stream_step_fields w st m st' :
  stream_step w st m = Return st' ->
  let tc := st_context st in
  let tc' := st_context st' in
  let stamp := w_stamp w (List.length (st_messages st)) in
  plan tc' = (if reaches_plan m
              then PList (map PStr (_extract_plan (text_of m)))
              else plan tc)
  /\ proposed_patches tc'
     = (if reaches_patch m
        then PList (items_of (proposed_patches tc)
                    ++ [_extract_patch (text_of m) stamp])%list
        else proposed_patches tc)
  /\ test_results tc'
     = (if reaches_test m
        then _extract_test_results (text_of m) stamp
        else test_results tc)
  /\ located_files tc' = located_files tc
  /\ critique tc' = critique tc.
Proof.
  unfold stream_step, reaches_plan, reaches_patch, reaches_test, text_of,
    mentions.
  destruct (content m) as [| s |].
  1, 3: intros H; inversion H; subst; simpl; repeat split.
  destruct (Py.contains "PLAN:" s).
  { intros H; inversion H; subst; clear H; simpl.
    destruct (st_context st); simpl; repeat split. }
  destruct (Py.contains "PATCH:" s).
  { unfold append_patch.
    destruct (st_context st) as [a b c d e f g h i]; simpl.
    destruct e; simpl; intros H; inversion H; subst; clear H; simpl;
      repeat split. }
  destruct (Py.contains "TEST_RESULTS:" s).
  { intros H; inversion H; subst; clear H; simpl.
    destruct (st_context st); simpl; repeat split. }
  destruct (Py.contains "TASK_COMPLETE" s);
    intros H; inversion H; subst; clear H; simpl; repeat split.
Qed.

(** A round on a message that reaches the completion branch. *)
Lemma stream_step_completes w st m :
  completes m = true ->
  stream_step w st m
  = Return {| st_context := st_context st; st_success := true;
              st_solution :=
                Some (_extract_solution (st_messages st ++ [m])%list
                        (w_stamp w (List.length (st_messages st))));
              st_messages := (st_messages st ++ [m])%list |}.
Proof.
  unfold completes, stream_step.
  destruct (content m) as [| s |]; try discriminate.
  destruct (Py.contains "PLAN:" s); [rewrite andb_false_r; discriminate |].
  destruct (Py.contains "PATCH:" s); [rewrite andb_false_r; discriminate |].
  destruct (Py.contains "TEST_RESULTS:" s);
    [rewrite andb_false_r; discriminate |].
  destruct (Py.contains "TASK_COMPLETE" s); [reflexivity | discriminate].
Qed.

Lemma stream_loop_app w a : forall b st,
  stream_loop w st (a ++ b)%list
  = (st1 <- stream_loop w st a ;; stream_loop w st1 b).
Proof.
  induction a as [| m a IH]; intros b st; [reflexivity |].
  simpl; destruct (stream_step w st m); simpl; [apply IH | reflexivity].
Qed.

(** Rounds on messages that do not complete leave flag and solution. *)
Lemma stream_loop_keeps w msgs : forall st st',
  stream_loop w st msgs = Return st' ->
  existsb completes msgs = false ->
  st_success st' = st_success st /\ st_solution st' = st_solution st.
Proof.
  induction msgs as [| m rest IH]; intros st st' H Hnone; simpl in H.
  - inversion H; split; reflexivity.
  - simpl in Hnone; apply orb_false_elim in Hnone as [Hm Hrest].
    destruct (stream_step w st m) as [st1 |] eqn:E; simpl in H;
      [| discriminate].
    destruct (stream_step_keeps _ _ _ _ E Hm) as [E1 E2].
    destruct (IH _ _ H Hrest) as [E3 E4].
    split; congruence.
Qed.

Lemma stream_loop_success w msgs : forall st st',
  stream_loop w st msgs = Return st' ->
  st_success st' = st_success st || existsb completes msgs.
Proof.
  induction msgs as [| m rest IH]; intros st st' H; simpl in H.
  - inversion H; rewrite orb_false_r; reflexivity.
  - destruct (stream_step w st m) as [st1 |] eqn:E; simpl in H;
      [| discriminate].
    rewrite (IH _ _ H); simpl.
    destruct (completes m) eqn:Hc.
    + rewrite (stream_step_completes w st m Hc) in E.
      inversion E; subst; simpl; rewrite orb_true_r; reflexivity.
    + destruct (stream_step_keeps _ _ _ _ E Hc) as [-> _]; reflexivity.
Qed.

(** X4.  A streaming run that returns hands back the yielded messages,
    all of them and in order, the task id it was given, and the final
    task context as snapshot. *)
Theorem X4_streaming_result_carries_the_transcript :
  forall (w : world) (msgs : list Message) (tc : TaskContext)
         (r : RunResult) (tc' : TaskContext),
    run_streaming_on w msgs None tc = Return (r, tc') ->
    exists ok sol,
      r = StreamResult ok sol msgs (model_dump tc') (task_id tc).
Proof.
  intros w msgs tc r tc'; unfold run_streaming_on.
  destruct (stream_loop w (stream_start tc) msgs) as [st |] eqn:E; simpl;
    [| discriminate].
  intros H; inversion H; subst; clear H.
  apply stream_loop_returns in E as (Hm & (Hid & _) & _).
  simpl in Hm, Hid; rewrite Hm, <- Hid.
  do 2 eexists; reflexivity.
Qed.

(** The theorem of X4 at a conversation that completes. *)
Lemma X4_streaming_transcript_witness :
  exists r tc',
    run_streaming_on quiet_world patch_then_complete None sample_context
      = Return (r, tc')
    /\ exists ok sol,
        r = StreamResult ok sol patch_then_complete (model_dump tc')
              (task_id sample_context).
Proof.
  eexists; eexists; split; [reflexivity |].
  eapply X4_streaming_result_carries_the_transcript; reflexivity.
Defined.

(** X5.  In a streaming run the success flag is set exactly when some
    message contains [TASK_COMPLETE] and none of [PLAN:], [PATCH:],
    [TEST_RESULTS:]; there is a solution exactly when the flag is set. *)
Theorem X5_streaming_success_is_exact :
  forall (w : world) (msgs : list Message) (tc : TaskContext)
         (r : RunResult) (tc' : TaskContext),
    run_streaming_on w msgs None tc = Return (r, tc') ->
    result_success r = existsb completes msgs
    /\ (result_solution r = None <-> result_success r = false).
Proof.
  intros w msgs tc r tc'; unfold run_streaming_on.
  destruct (stream_loop w (stream_start tc) msgs) as [st |] eqn:E; simpl;
    [| discriminate].
  intros H; inversion H; subst; clear H; simpl.
  pose proof (stream_loop_success _ _ _ _ E) as Hs; simpl in Hs.
  split; [exact Hs |].
  destruct (existsb completes msgs) eqn:Hex.
  - apply existsb_exists in Hex as (m & Hin & Hc).
    apply stream_loop_returns in E as (_ & _ & _ & _ & Hhit & _).
    destruct (Hhit (ex_intro _ m (conj Hin Hc))) as [Hok Hsol].
    rewrite Hok; split; [intros Hn; contradiction | discriminate].
  - destruct (stream_loop_keeps _ _ _ _ E Hex) as [E1 E2].
    simpl in E1, E2; rewrite E1, E2; split; reflexivity.
Qed.

(** The theorem of X5 at the scenario, whose last message takes the plan
    branch. *)
Lemma X5_streaming_success_witness :
  exists r tc',
    run_streaming_on quiet_world scenario_transcript None sample_context
      = Return (r, tc')
    /\ result_success r = false.
Proof.
  eexists; eexists; split; [reflexivity |].
  rewrite (proj1 (X5_streaming_success_is_exact quiet_world
                    scenario_transcript sample_context _ _ eq_refl)).
  reflexivity.
Defined.

Lemma stream_loop_messages w msgs st st' :
  stream_loop w st msgs = Return st' ->
  st_messages st' = (st_messages st ++ msgs)%list.
Proof. intros H; apply stream_loop_returns in H as (Hm & _); exact Hm. Qed.

(** X6.  The solution of a streaming run is extracted when the last
    completing message arrives: it covers the messages up to and
    including that one and none of the later ones. *)
Theorem X6_streaming_solution_stops_at_last_completion :
  forall (w : world) (before after : list Message) (m : Message)
         (tc : TaskContext) (r : RunResult) (tc' : TaskContext),
    completes m = true ->
    existsb completes after = false ->
    run_streaming_on w (before ++ m :: after)%list None tc = Return (r, tc') ->
    result_solution r
    = Some (_extract_solution (before ++ [m])%list
              (w_stamp w (List.length before))).
Proof.
  intros w before after m tc r tc' Hm Hafter; unfold run_streaming_on.
  rewrite stream_loop_app.
  destruct (stream_loop w (stream_start tc) before) as [st1 |] eqn:E1;
    simpl; [| discriminate].
  rewrite (stream_step_completes w st1 m Hm); simpl.
  match goal with
  | |- context [stream_loop w ?s after] =>
      destruct (stream_loop w s after) as [st2 |] eqn:E2; simpl;
        [| discriminate]
  end.
  intros H; inversion H; subst; clear H; simpl.
  destruct (stream_loop_keeps _ _ _ _ E2 Hafter) as [_ ->]; simpl.
  rewrite (stream_loop_messages _ _ _ _ E1); reflexivity.
Qed.

(** The theorem of X6 at a conversation that goes on after the
    completion report. *)
Lemma X6_streaming_solution_witness :
  completes (say "Reviewer" "TASK_COMPLETE") = true
  /\ existsb completes [say "Coder" "FIX: one more change"] = false
  /\ exists r tc',
      run_streaming_on quiet_world
        ([say "Coder" "PATCH: cast the input to int"]
         ++ say "Reviewer" "TASK_COMPLETE"
            :: [say "Coder" "FIX: one more change"])%list
        None sample_context = Return (r, tc')
      /\ option_map patches (result_solution r)
         = Some ["PATCH: cast the input to int"].
Proof.
  split; [reflexivity |]; split; [reflexivity |].
  eexists; eexists; split; [reflexivity |].
  rewrite (X6_streaming_solution_stops_at_last_completion quiet_world
             [say "Coder" "PATCH: cast the input to int"]
             [say "Coder" "FIX: one more change"]
             (say "Reviewer" "TASK_COMPLETE") sample_context _ _
             eq_refl eq_refl eq_refl).
  reflexivity.
Defined.

Lemma stream_loop_patches w msgs : forall st st',
  stream_loop w st msgs = Return st' ->
  proposed_patches (st_context st')
  = match collected_patches w (List.length (st_messages st)) msgs with
    | [] => proposed_patches (st_context st)
    | added =>
        PList (items_of (proposed_patches (st_context st)) ++ added)%list
    end.
Proof.
  induction msgs as [| m rest IH]; intros st st' H; simpl in H.
  - inversion H; reflexivity.
  - destruct (stream_step w st m) as [st1 |] eqn:E; simpl in H;
      [| discriminate].
    rewrite (IH _ _ H).
    pose proof (stream_step_fields _ _ _ _ E) as (_ & Hp & _).
    apply stream_step_returns in E as (Hm & _).
    rewrite Hm, length_app, Nat.add_1_r; simpl collected_patches.
    rewrite Hp; destruct (reaches_patch m).
    + simpl items_of.
      destruct (collected_patches w (S (List.length (st_messages st))) rest);
        [reflexivity | rewrite <- app_assoc; reflexivity].
    + reflexivity.
Qed.

(** X7.  Patches are only ever appended: after a streaming run the
    context holds the patches it had before, followed by one record for
    each message that contains [PATCH:] and not [PLAN:], in the order of
    the conversation, each with the raw content of its message.  Without
    such a message the field is left as it was. *)
Theorem X7_patches_are_appended_in_order :
  forall (w : world) (msgs : list Message) (tc : TaskContext),
    patches_ok tc ->
    exists r tc',
      run_streaming_on w msgs None tc = Return (r, tc')
      /\ proposed_patches tc'
         = match collected_patches w 0 msgs with
           | [] => proposed_patches tc
           | added => PList (items_of (proposed_patches tc) ++ added)%list
           end.
Proof.
  intros w msgs tc Hok; unfold run_streaming_on.
  destruct (stream_loop_total w msgs (stream_start tc) Hok) as [st E].
  rewrite E; simpl; do 2 eexists; split; [reflexivity |].
  exact (stream_loop_patches _ _ _ _ E).
Qed.

(** The theorem of X7 at a conversation with two patches. *)
Lemma X7_patches_witness :
  patches_ok sample_context
  /\ exists r tc',
      run_streaming_on quiet_world
        [say "Coder" "PATCH: first"; say "Executor" "still failing";
         say "Coder" "PATCH: second"] None sample_context = Return (r, tc')
      /\ proposed_patches tc'
         = PList [_extract_patch "PATCH: first" (w_stamp quiet_world 0);
                  _extract_patch "PATCH: second" (w_stamp quiet_world 2)].
Proof.
  assert (Hok : patches_ok sample_context) by (left; reflexivity).
  split; [exact Hok |].
  destruct (X7_patches_are_appended_in_order quiet_world
              [say "Coder" "PATCH: first"; say "Executor" "still failing";
               say "Coder" "PATCH: second"] sample_context Hok)
    as (r & tc' & Hrun & Hp).
  exists r, tc'; split; [exact Hrun | exact Hp].
Defined.

Lemma stream_loop_untouched w msgs : forall st st',
  stream_loop w st msgs = Return st' ->
  (existsb reaches_plan msgs = false ->
   plan (st_context st') = plan (st_context st))
  /\ (existsb reaches_test msgs = false ->
      test_results (st_context st') = test_results (st_context st))
  /\ located_files (st_context st') = located_files (st_context st)
  /\ critique (st_context st') = critique (st_context st).
Proof.
  induction msgs as [| m rest IH]; intros st st' H; simpl in H.
  - inversion H; repeat split.
  - destruct (stream_step w st m) as [st1 |] eqn:E; simpl in H;
      [| discriminate].
    destruct (IH _ _ H) as (Hplan & Htest & Hloc & Hcrit).
    pose proof (stream_step_fields _ _ _ _ E) as (Ep & _ & Et & El & Ec).
    simpl in Ep, Et, El, Ec.
    refine (conj _ (conj _ (conj _ _))).
    + simpl; intros Hn; apply orb_false_elim in Hn as [Hm Hr].
      rewrite (Hplan Hr), Ep, Hm; reflexivity.
    + simpl; intros Hn; apply orb_false_elim in Hn as [Hm Hr].
      rewrite (Htest Hr), Et, Hm; reflexivity.
    + congruence.
    + congruence.
Qed.

(** X8.  The last planning message wins: after a streaming run the plan
    is the one extracted from the last message that contains [PLAN:],
    and the plan the context started with when there is no such message.
    The test results are the record of the last message that takes the
    [TEST_RESULTS:] branch. *)
Theorem X8_last_plan_and_test_results_win :
  forall (w : world) (before after : list Message) (m : Message)
         (tc : TaskContext) (r : RunResult) (tc' : TaskContext),
    run_streaming_on w (before ++ m :: after)%list None tc = Return (r, tc') ->
    (reaches_plan m = true -> existsb reaches_plan after = false ->
     plan tc' = PList (map PStr (_extract_plan (text_of m))))
    /\ (reaches_test m = true -> existsb reaches_test after = false ->
        test_results tc'
        = _extract_test_results (text_of m) (w_stamp w (List.length before)))
    /\ (existsb reaches_plan (before ++ m :: after)%list = false ->
        plan tc' = plan tc).
Proof.
  intros w before after m tc r tc'; unfold run_streaming_on.
  destruct (stream_loop w (stream_start tc) (before ++ m :: after))
    as [st |] eqn:E; simpl; [| discriminate].
  intros H; inversion H; subst; clear H.
  pose proof (stream_loop_untouched _ _ _ _ E) as (Hall & _).
  rewrite stream_loop_app in E.
  destruct (stream_loop w (stream_start tc) before) as [st1 |] eqn:E1;
    simpl in E; [| discriminate].
  destruct (stream_step w st1 m) as [st2 |] eqn:E2; simpl in E;
    [| discriminate].
  pose proof (stream_loop_untouched _ _ _ _ E) as (Hplan & Htest & _).
  pose proof (stream_step_fields _ _ _ _ E2) as (Ep & _ & Et & _).
  simpl in Ep, Et.
  rewrite (stream_loop_messages _ _ _ _ E1) in Et; simpl in Et.
  refine (conj _ (conj _ _)).
  - intros Hm Hafter; rewrite (Hplan Hafter), Ep, Hm; reflexivity.
  - intros Hm Hafter; rewrite (Htest Hafter), Et, Hm; reflexivity.
  - exact Hall.
Qed.

(** The theorem of X8 at a conversation with two plans. *)
Lemma X8_last_plan_witness :
  exists r tc',
    run_streaming_on quiet_world
      ([say "Planner" ("PLAN:" ++ String Py.nl "- guess")]
       ++ say "Planner" scenario_plan_message
          :: [say "Coder" "PATCH: cast the input to int"])%list
      None sample_context = Return (r, tc')
    /\ plan tc' = PList [PStr "step one"; PStr "step two"].
Proof.
  eexists; eexists; split; [reflexivity |].
  exact (proj1 (X8_last_plan_and_test_results_win quiet_world
                  [say "Planner" ("PLAN:" ++ String Py.nl "- guess")]
                  [say "Coder" "PATCH: cast the input to int"]
                  (say "Planner" scenario_plan_message) sample_context
                  _ _ eq_refl) eq_refl eq_refl).
Defined.

(** X9.  No run writes the located files or the critique, nor the task
    id, the bug report, the iteration count or its bound: in either mode
    the final task context has them as the run found them. *)
Theorem X9_run_never_writes_these_fields :
  forall (w : world) (t : Team) (initial : string) (stream : bool)
         (tc : TaskContext) (r : RunResult) (tc' : TaskContext),
    (if stream then _run_streaming w t initial tc
     else _run_batch w t initial tc) = Return (r, tc') ->
    located_files tc' = located_files tc
    /\ critique tc' = critique tc
    /\ task_id tc' = task_id tc
    /\ bug_report tc' = bug_report tc
    /\ iteration tc' = iteration tc
    /\ max_iterations tc' = max_iterations tc.
Proof.
  intros w t initial stream tc r tc'; destruct stream.
  - unfold _run_streaming, run_streaming_on.
    destruct (w_run_stream w t initial) as [msgs failure].
    destruct (stream_loop w (stream_start tc) msgs) as [st |] eqn:E; simpl;
      [| discriminate].
    destruct failure; [discriminate |].
    intros H; inversion H; subst; clear H.
    pose proof (stream_loop_untouched _ _ _ _ E) as (_ & _ & Hl & Hc).
    apply stream_loop_returns in E as (_ & (H1 & H2 & H3 & H4) & _).
    simpl in *; repeat split; congruence.
  - unfold _run_batch.
    destruct (w_run w t initial); simpl; [| discriminate].
    intros H; inversion H; subst; repeat split.
Qed.

(** The theorem of X9 at a streamed conversation. *)
Lemma X9_run_never_writes_witness :
  exists r tc',
    _run_streaming (world_with patch_then_complete None)
      {| kind := Swarm; participants := roster default_settings;
         termination_condition := MaxMessageTermination 20 |}
      "go" sample_context = Return (r, tc')
    /\ located_files tc' = PNone /\ critique tc' = PNone.
Proof.
  eexists; eexists; split; [reflexivity |].
  destruct (X9_run_never_writes_these_fields
              (world_with patch_then_complete None)
              {| kind := Swarm; participants := roster default_settings;
                 termination_condition := MaxMessageTermination 20 |}
              "go" true sample_context _ _ eq_refl) as (Hl & Hc & _).
  split; [exact Hl | exact Hc].
Defined.

(** ** Failures the driver does not prevent *)

Lemma stream_step_without_patch w st m :
  reaches_patch m = false ->
  exists st', stream_step w st m = Return st'.
Proof.
  unfold reaches_patch, mentions, stream_step.
  destruct (content m) as [| s |]; try (eexists; reflexivity).
  destruct (Py.contains "PLAN:" s); [eexists; reflexivity |].
  destruct (Py.contains "PATCH:" s); [discriminate |].
  destruct (Py.contains "TEST_RESULTS:" s); [eexists; reflexivity |].
  destruct (Py.contains "TASK_COMPLETE" s); eexists; reflexivity.
Qed.

Lemma stream_loop_without_patch w msgs : forall st,
  existsb reaches_patch msgs = false ->
  exists st',
    stream_loop w st msgs = Return st'
    /\ proposed_patches (st_context st') = proposed_patches (st_context st).
Proof.
  induction msgs as [| m rest IH]; intros st Hn; simpl.
  - eexists; split; reflexivity.
  - simpl in Hn; apply orb_false_elim in Hn as [Hm Hr].
    destruct (stream_step_without_patch w st m Hm) as [st1 E].
    rewrite E; simpl.
    destruct (IH st1 Hr) as (st' & Hrun & Hp).
    exists st'; split; [exact Hrun |].
    pose proof (stream_step_fields _ _ _ _ E) as (_ & Ep & _).
    simpl in Ep; rewrite Hm in Ep; congruence.
Qed.

Lemma stream_step_bad_patches w st m :
  reaches_patch m = true ->
  not_appendable (proposed_patches (st_context st)) ->
  stream_step w st m
  = Raise ("'" ++ type_name (proposed_patches (st_context st))
           ++ "' object has no attribute 'append'").
Proof.
  unfold reaches_patch, mentions, stream_step, append_patch.
  destruct (content m) as [| s |]; try discriminate.
  destruct (Py.contains "PLAN:" s); [discriminate |].
  destruct (Py.contains "PATCH:" s); [| discriminate].
  intros _ Hbad.
  destruct (proposed_patches (st_context st)); simpl in Hbad;
    try contradiction; reflexivity.
Qed.

(** X10.  When the field [proposed_patches] holds something that is
    neither [None] nor a list, the first message that takes the [PATCH:]
    branch makes the streaming run raise the attribute error of
    [append], whatever the conversation does later. *)
Theorem X10_patch_on_ill_typed_field_raises :
  forall (w : world) (before after : list Message) (m : Message)
         (failure : option exn) (tc : TaskContext),
    not_appendable (proposed_patches tc) ->
    existsb reaches_patch before = false ->
    reaches_patch m = true ->
    run_streaming_on w (before ++ m :: after)%list failure tc
    = Raise ("'" ++ type_name (proposed_patches tc)
             ++ "' object has no attribute 'append'").
Proof.
  intros w before after m failure tc Hbad Hbefore Hm.
  unfold run_streaming_on; rewrite stream_loop_app.
  destruct (stream_loop_without_patch w before (stream_start tc) Hbefore)
    as (st1 & -> & Hp); simpl in Hp.
  simpl; rewrite stream_step_bad_patches; [| exact Hm | rewrite Hp; exact Hbad].
  rewrite Hp; reflexivity.
Qed.

(** The theorem of X10 at a context whose patches field holds a string. *)
Lemma X10_patch_on_ill_typed_witness :
  not_appendable
    (proposed_patches (set_field sample_context "proposed_patches" (PStr "none")))
  /\ existsb reaches_patch [say "Planner" scenario_plan_message] = false
  /\ reaches_patch (say "Coder" "PATCH: cast the input to int") = true
  /\ run_streaming_on quiet_world
       ([say "Planner" scenario_plan_message]
        ++ say "Coder" "PATCH: cast the input to int" :: [])%list None
       (set_field sample_context "proposed_patches" (PStr "none"))
     = Raise "'str' object has no attribute 'append'".
Proof.
  split; [exact I |]; split; [reflexivity |]; split; [reflexivity |].
  exact (X10_patch_on_ill_typed_field_raises quiet_world
           [say "Planner" scenario_plan_message] []
           (say "Coder" "PATCH: cast the input to int") None
           (set_field sample_context "proposed_patches" (PStr "none"))
           I eq_refl eq_refl).
Defined.

Lemma apply_context_harmless w items : forall tc,
  harmless_keys w items ->
  exists tc', apply_context w tc items = Return tc'.
Proof.
  induction items as [| [key value] rest IH]; intros tc Hh.
  - eexists; reflexivity.
  - assert (Hrest : harmless_keys w rest)
      by (intros k Hin; apply Hh; right; exact Hin).
    simpl; destruct (is_field key) eqn:Hf; [apply IH, Hrest |].
    destruct (Hh key (or_introl eq_refl)) as [H | H];
      [rewrite H in Hf; discriminate |].
    rewrite H; apply IH, Hrest.
Qed.

Lemma apply_context_app w a : forall b tc,
  apply_context w tc (a ++ b)%list
  = (tc1 <- apply_context w tc a ;; apply_context w tc1 b).
Proof.
  induction a as [| [key value] a IH]; intros b tc; [reflexivity |].
  simpl; destruct (is_field key); [apply IH |].
  destruct (w_hasattr_other w key); [| apply IH].
  destruct (w_setattr_other w tc key value); simpl; [apply IH | reflexivity].
Qed.

(** X11.  The task context is created before the [try]: when a key of the
    caller context names an attribute of the model that is no declared
    field and its assignment raises, [_create_task_context] raises and
    [solve_bug] raises with it, instead of returning an error record. *)
Theorem X11_context_creation_failure_reaches_the_caller :
  forall (w : world) (self : DebugTeam) (cfg : Settings) (report : string)
         (before after : py_dict) (key : string) (value : py_value)
         (stream : bool) (e : exn),
    harmless_keys w before ->
    is_field key = false ->
    w_hasattr_other w key = true ->
    (forall tc, w_setattr_other w tc key value = Raise e) ->
    _create_task_context w cfg report
      (Some (before ++ (key, value) :: after)%list) = Raise e
    /\ solve_bug w self cfg report
         (Some (before ++ (key, value) :: after)%list) stream = Raise e.
Proof.
  intros w self cfg report before after key value stream e Hh Hf Ha Hset.
  assert (Hc : _create_task_context w cfg report
                 (Some (before ++ (key, value) :: after)%list) = Raise e).
  { unfold _create_task_context.
    set (fresh := new_TaskContext (w_task_uuid w) report
                    (max_rounds (team cfg))).
    assert (Happ : apply_context w fresh
                     (before ++ (key, value) :: after)%list = Raise e).
    { rewrite apply_context_app.
      destruct (apply_context_harmless w before fresh Hh) as [tc1 ->].
      simpl; rewrite Hf, Ha, Hset; reflexivity. }
    destruct (before ++ (key, value) :: after)%list eqn:El;
      [destruct before; discriminate | exact Happ]. }
  split; [exact Hc |].
  unfold solve_bug; rewrite Hc; reflexivity.
Qed.

(** The theorem of X11 at a caller context that names a method of the
    model. *)
Lemma X11_context_creation_failure_witness :
  harmless_keys (with_attributes quiet_world ["model_dump"])
    [("iteration", PInt 1)]
  /\ solve_bug (with_attributes quiet_world ["model_dump"]) default_team
       default_settings sample_report
       (Some ([("iteration", PInt 1)] ++ ("model_dump", PNone) :: [])%list)
       true
     = Raise "'TaskContext' object has no field 'model_dump'".
Proof.
  assert (Hh : harmless_keys (with_attributes quiet_world ["model_dump"])
                 [("iteration", PInt 1)]).
  { intros key [<- | []]; left; reflexivity. }
  split; [exact Hh |].
  exact (proj2 (X11_context_creation_failure_reaches_the_caller
                  (with_attributes quiet_world ["model_dump"]) default_team
                  default_settings sample_report [("iteration", PInt 1)] []
                  "model_dump" PNone true
                  "'TaskContext' object has no field 'model_dump'"
                  Hh eq_refl eq_refl (fun _ => eq_refl))).
Defined.

Lemma team_run_no_error w self cfg report tc stream similar r tc' :
  team_run w self cfg report tc stream similar = Return (r, tc') ->
  result_error r = None.
Proof.
  intros H; apply team_run_snapshot in H as [Hs _].
  destruct r; simpl in *; [reflexivity | reflexivity | discriminate].
Qed.

(** X12.  The metric calls of a run are bracketed.  Without a collector
    [solve_bug] makes no call.  With a collector and a task id that has a
    hash it reports the start once and then exactly one closing call, a
    completion with the success flag of the result it returns or a
    failure with the error text of the result it returns.  With a
    collector and a task id that has no hash, a list or a dict put there
    by the caller context, no call returns and [solve_bug] returns no
    result: the [TypeError] of the start is raised again by the failure
    call of the handler and reaches the caller. *)
Theorem X12_metric_calls_are_bracketed :
  forall (w : world) (self : DebugTeam) (cfg : Settings) (report : string)
         (context : option py_dict) (stream : bool) (tc : TaskContext),
    _create_task_context w cfg report context = Return tc ->
    (has_metrics self = false ->
     exists r, solve_bug w self cfg report context stream = Return (r, []))
    /\ (has_metrics self = true -> hashable (task_id tc) = true ->
        exists r log,
          solve_bug w self cfg report context stream = Return (r, log)
          /\ ((result_error r = None
               /\ log = [record_task_start (task_id tc);
                         record_task_completion (task_id tc)
                           (result_success r) (w_elapsed w)])
              \/ (exists e,
                     result_error r = Some e
                     /\ log = [record_task_start (task_id tc);
                               record_task_failure (task_id tc) e])))
    /\ (has_metrics self = true -> hashable (task_id tc) = false ->
        solve_bug w self cfg report context stream
        = Raise ("unhashable type: '" ++ type_name (task_id tc) ++ "'")).
Proof.
  intros w self cfg report context stream tc Htc.
  assert (Hrun : forall started,
             start_recorded self tc started ->
             exists r log,
               solve_bug w self cfg report context stream = Return (r, log)
               /\ ((result_error r = None
                    /\ log = (when_metrics self
                                [record_task_start (task_id tc)]
                              ++ when_metrics self
                                   [record_task_completion (task_id tc)
                                      (result_success r) (w_elapsed w)])%list)
                   \/ (exists e,
                          result_error r = Some e
                          /\ log = (when_metrics self
                                      [record_task_start (task_id tc)]
                                    ++ when_metrics self
                                         [record_task_failure (task_id tc)
                                            e])%list))).
  { intros started Hstart.
    destruct (solve_bug_body_run w self cfg report tc stream)
      as (similar & _ & Hbody).
    destruct (team_run w self cfg report tc stream similar)
      as [[res tc'] |] eqn:Erun; simpl in Hbody.
    - exists res; eexists; split;
        [eapply solve_bug_on_return; [exact Htc | exact Hstart | exact Hbody] |].
      left; split; [| reflexivity].
      eapply team_run_no_error; exact Erun.
    - eexists; eexists; split;
        [eapply solve_bug_on_raise; [exact Htc | exact Hstart | exact Hbody] |].
      right; exists e; split; reflexivity. }
  split; [| split].
  - intros Hm.
    destruct (Hrun _ (metric_call_returns self _ _ (or_introl Hm)))
      as (r & log & Hsolve & Hlog).
    exists r; rewrite Hsolve.
    unfold when_metrics in Hlog; rewrite Hm in Hlog.
    destruct Hlog as [[_ ->] | (e & _ & ->)]; reflexivity.
  - intros Hm Hh.
    destruct (Hrun _ (metric_call_returns self _ _ (or_intror Hh)))
      as (r & log & Hsolve & Hlog).
    exists r, log; split; [exact Hsolve |].
    unfold when_metrics in Hlog; rewrite Hm in Hlog; exact Hlog.
  - intros Hm Hh; apply solve_bug_unhashable; assumption.
Qed.

(** The theorem of X12 at a run whose model call fails, and at a caller
    context that sets a list as task id. *)
Lemma X12_metric_calls_witness :
  (exists r log,
      solve_bug failing_world default_team default_settings sample_report
        None true = Return (r, log)
      /\ List.length log = 2%nat)
  /\ solve_bug failing_world default_team default_settings sample_report
       (Some [("task_id", PList [PStr "a"])]) true
     = Raise "unhashable type: 'list'".
Proof.
  split.
  - destruct (X12_metric_calls_are_bracketed failing_world default_team
                default_settings sample_report None true
                (new_TaskContext (w_task_uuid failing_world) sample_report 20)
                eq_refl)
      as (_ & Hon & _).
    destruct (Hon eq_refl eq_refl) as (r & log & Hrun & Hlog).
    exists r, log; split; [exact Hrun |].
    destruct Hlog as [[_ ->] | (e & _ & ->)]; reflexivity.
  - exact (proj2 (proj2
             (X12_metric_calls_are_bracketed failing_world default_team
                default_settings sample_report
                (Some [("task_id", PList [PStr "a"])]) true
                (set_field
                   (new_TaskContext (w_task_uuid failing_world)
                      sample_report 20)
                   "task_id" (PList [PStr "a"]))
                eq_refl)) eq_refl eq_refl).
Defined.

(** ** The answer of the store *)

Lemma skipn_nth_error {A : Type} (l : list A) : forall k x,
  nth_error l k = Some x -> skipn k l = x :: skipn (S k) l.
Proof.
  induction l as [| a l IH]; intros [| k] x H; simpl in *;
    try discriminate.
  - inversion H; reflexivity.
  - apply IH; exact H.
Qed.

Lemma nth_error_in_range {A : Type} (l : list A) k :
  (k < List.length l)%nat -> exists x, nth_error l k = Some x.
Proof.
  intros H; destruct (nth_error l k) eqn:E; [eauto |].
  apply nth_error_None in E; lia.
Qed.

Lemma index_in_range {A : Type} (l : list A) k :
  (k < List.length l)%nat ->
  exists x, index l k = Return x /\ skipn k l = x :: skipn (S k) l.
Proof.
  intros H; destruct (nth_error_in_range l k H) as [x Hx].
  exists x; unfold index; rewrite Hx; split;
    [reflexivity | apply skipn_nth_error, Hx].
Qed.

(** The loop over the indices [k, k+1, ...] of consistent rows. *)
Lemma format_results_rows raw threshold vi vd vm vx count :
  ids raw = [vi] -> documents raw = [vd] ->
  metadatas raw = [vm] -> distances raw = [vx] ->
  List.length vd = List.length vi ->
  List.length vm = List.length vi ->
  List.length vx = List.length vi ->
  forall k formatted,
    (k + count = List.length vi)%nat ->
    format_results raw threshold (seq k count) formatted
    = Return (formatted
              ++ filter (reaches threshold)
                   (stored_hits (skipn k vi) (skipn k vd) (skipn k vm)
                      (skipn k vx)))%list.
Proof.
  intros Hi Hd Hm Hx Ld Lm Lx.
  induction count as [| count IH]; intros k formatted Hk.
  - simpl; rewrite Nat.add_0_r in Hk; subst k.
    rewrite skipn_all; simpl; rewrite app_nil_r; reflexivity.
  - simpl seq; cbn [format_results].
    rewrite Hx, Hi, Hd, Hm; simpl index at 1; simpl bind at 1.
    destruct (index_in_range vx k ltac:(lia)) as (d & -> & Sx).
    destruct (index_in_range vi k ltac:(lia)) as (id & Ei & Si).
    destruct (index_in_range vd k ltac:(lia)) as (doc & Ed & Sd).
    destruct (index_in_range vm k ltac:(lia)) as (meta & Em & Sm).
    rewrite Sx, Si, Sd, Sm; simpl stored_hits; simpl filter.
    unfold reaches at 1; simpl hit_similarity; simpl bind at 1.
    destruct (float_ge (similarity_of d) threshold).
    + simpl index; simpl bind; rewrite Ei, Ed, Em; simpl bind.
      rewrite (IH (S k)); [| lia].
      rewrite <- app_assoc; reflexivity.
    + apply (IH (S k)); lia.
Qed.

(** X13.  When the store answers with rows of equal length, the search
    tool returns exactly the stored entries whose similarity reaches the
    threshold, in the order of the store, none dropped and none added,
    and counts them in [total_results]. *)
Theorem X13_search_returns_all_entries_above_threshold :
  forall (w : world) (args : MemorySearchInput) (embedding : list float)
         (vi vd : list string) (vm : list py_value) (vx : list float),
    w_chroma_client w = Return tt ->
    w_embedding w (query args) = Return embedding ->
    w_query w embedding (max_results args) (where_clause (category args))
    = Return {| ids := [vi]; documents := [vd]; metadatas := [vm];
                distances := [vx] |} ->
    List.length vd = List.length vi ->
    List.length vm = List.length vi ->
    List.length vx = List.length vi ->
    let kept := filter (reaches (similarity_threshold args))
                  (stored_hits vi vd vm vx) in
    MemorySearchTool_run w args
    = Return {| result := Some {| results := kept;
                                  total_results := Z.of_nat (List.length kept) |};
                error := None |}.
Proof.
  intros w args embedding vi vd vm vx Hc He Hq Ld Lm Lx kept.
  unfold MemorySearchTool_run, search_body.
  rewrite Hc; simpl; rewrite He; simpl; rewrite Hq; simpl bind; simpl ids.
  destruct (0 <? Z.of_nat (List.length vi))%Z eqn:Hn.
  - rewrite (format_results_rows
               {| ids := [vi]; documents := [vd]; metadatas := [vm];
                  distances := [vx] |}
               (similarity_threshold args) vi vd vm vx
               (List.length vi) eq_refl eq_refl eq_refl eq_refl Ld Lm Lx
               0%nat [] eq_refl).
    reflexivity.
  - apply Z.ltb_ge in Hn.
    assert (E : vi = []) by (destruct vi; [reflexivity | simpl in Hn; lia]).
    subst vi; subst kept; simpl; reflexivity.
Qed.

(** The theorem of X13 at the stocked store: of its two entries the one
    at distance 0.125 is kept. *)
Lemma X13_search_returns_all_witness :
  w_chroma_client stocked_world = Return tt
  /\ option_map (fun found => map hit_id (results found))
       (match MemorySearchTool_run stocked_world (search_args sample_report 5)
        with
        | Return res => result res
        | Raise _ => None
        end)
     = Some ["m-1"].
Proof.
  split; [reflexivity |].
  rewrite (X13_search_returns_all_entries_above_threshold stocked_world
             (search_args sample_report 5) []
             ["m-1"; "m-2"]
             ["cast the input with int()"; "upgrade the dependency"]
             [PDict [("category", PStr "solution")];
              PDict [("category", PStr "solution")]]
             [0.125%float; 0.5%float]
             eq_refl eq_refl eq_refl eq_refl eq_refl eq_refl).
  vm_compute; reflexivity.
Defined.

Lemma index_message {A : Type} (l : list A) k e :
  index l k = Raise e -> e = "list index out of range".
Proof.
  unfold index; destruct (nth_error l k); intros H; inversion H; reflexivity.
Qed.

Lemma format_results_message raw threshold todo : forall formatted e,
  format_results raw threshold todo formatted = Raise e ->
  e = "list index out of range".
Proof.
  induction todo as [| i rest IH]; intros formatted e H; simpl in H;
    [discriminate |].
  destruct (index (distances raw) 0) as [drow |] eqn:E1; simpl in H;
    [| inversion H; subst; exact (index_message _ _ _ E1)].
  destruct (index drow i) as [d |] eqn:E2; simpl in H;
    [| inversion H; subst; exact (index_message _ _ _ E2)].
  destruct (float_ge (similarity_of d) threshold); [| exact (IH _ _ H)].
  destruct (index (ids raw) 0) as [irow |] eqn:E3; simpl in H;
    [| inversion H; subst; exact (index_message _ _ _ E3)].
  destruct (index irow i) as [id |] eqn:E4; simpl in H;
    [| inversion H; subst; exact (index_message _ _ _ E4)].
  destruct (index (documents raw) 0) as [crow |] eqn:E5; simpl in H;
    [| inversion H; subst; exact (index_message _ _ _ E5)].
  destruct (index crow i) as [doc |] eqn:E6; simpl in H;
    [| inversion H; subst; exact (index_message _ _ _ E6)].
  destruct (index (metadatas raw) 0) as [mrow |] eqn:E7; simpl in H;
    [| inversion H; subst; exact (index_message _ _ _ E7)].
  destruct (index mrow i) as [meta |] eqn:E8; simpl in H;
    [| inversion H; subst; exact (index_message _ _ _ E8)].
  exact (IH _ _ H).
Qed.

Lemma format_results_short_distances raw threshold vx others todo :
  distances raw = vx :: others ->
  forall formatted,
    (exists i, In i todo /\ (List.length vx <= i)%nat) ->
    format_results raw threshold todo formatted
    = Raise "list index out of range".
Proof.
  intros Hx; induction todo as [| i rest IH]; intros formatted (j & Hin & Hj).
  - destruct Hin.
  - destruct (format_results raw threshold (i :: rest) formatted)
      as [out |] eqn:E;
      [| rewrite (format_results_message _ _ _ _ _ E); reflexivity].
    exfalso; simpl in E; rewrite Hx in E; simpl in E.
    destruct (index vx i) as [d |] eqn:Ei; simpl in E; [| discriminate].
    destruct Hin as [-> | Hin].
    { unfold index in Ei.
      destruct (nth_error vx j) eqn:En; [| discriminate].
      assert (nth_error vx j <> None) by congruence.
      apply nth_error_Some in H; lia. }
    assert (Hrest : forall acc,
               format_results raw threshold rest acc
               = Raise "list index out of range")
      by (intros acc; apply IH; eauto).
    destruct (float_ge (similarity_of d) threshold);
      [| rewrite Hrest in E; discriminate].
    destruct (index (ids raw) 0) as [irow |]; simpl in E; [| discriminate].
    destruct (index irow i); simpl in E; [| discriminate].
    destruct (index (documents raw) 0) as [crow |]; simpl in E;
      [| discriminate].
    destruct (index crow i); simpl in E; [| discriminate].
    destruct (index (metadatas raw) 0) as [mrow |]; simpl in E;
      [| discriminate].
    destruct (index mrow i); simpl in E; [| discriminate].
    rewrite Hrest in E; discriminate.
Qed.

(** X14.  When the store answers with fewer distances than ids, the
    search tool returns no result at all, not even the entries that came
    before the gap, and reports the index error as text instead of
    raising. *)
Theorem X14_short_distance_row_gives_no_results :
  forall (w : world) (args : MemorySearchInput) (embedding : list float)
         (raw : QueryResult)
         (row_ids : list string) (more_ids : list (list string))
         (row_distances : list float) (more_distances : list (list float)),
    w_chroma_client w = Return tt ->
    w_embedding w (query args) = Return embedding ->
    w_query w embedding (max_results args) (where_clause (category args))
    = Return raw ->
    ids raw = row_ids :: more_ids ->
    distances raw = row_distances :: more_distances ->
    (List.length row_distances < List.length row_ids)%nat ->
    MemorySearchTool_run w args
    = Return {| result := Some {| results := []; total_results := 0 |};
                error := Some "list index out of range" |}.
Proof.
  intros w args embedding raw row_ids more_ids row_distances
    more_distances Hc He Hq Hi Hx Hshort.
  apply search_tool_failure; unfold search_body.
  rewrite Hc; simpl; rewrite He; simpl; rewrite Hq; simpl bind; rewrite Hi.
  assert (Hpos : (0 <? Z.of_nat (List.length row_ids))%Z = true)
    by (apply Z.ltb_lt; lia).
  rewrite Hpos.
  rewrite (format_results_short_distances raw (similarity_threshold args)
             row_distances more_distances _ Hx []); [reflexivity |].
  exists (List.length row_distances); split; [| lia].
  apply in_seq; lia.
Qed.

(** The theorem of X14 at an answer with two ids and one distance, whose
    first entry is above the threshold. *)
Lemma X14_short_distance_row_witness :
  (List.length [0.125%float] < List.length ["m-1"; "m-2"])%nat
  /\ MemorySearchTool_run (with_store quiet_world (Return gapped_answer))
       (search_args sample_report 5)
     = Return {| result := Some {| results := []; total_results := 0 |};
                 error := Some "list index out of range" |}.
Proof.
  assert (Hshort : (List.length [0.125%float]
                    < List.length ["m-1"; "m-2"])%nat) by (simpl; lia).
  split; [exact Hshort |].
  exact (X14_short_distance_row_gives_no_results
           (with_store quiet_world (Return gapped_answer))
           (search_args sample_report 5) [] gapped_answer
           ["m-1"; "m-2"] [] [0.125%float] []
           eq_refl eq_refl eq_refl eq_refl eq_refl Hshort).
Defined.

Lemma search_body_results_above w args res found :
  search_body w args = Return res ->
  result res = Some found ->
  Forall (above (similarity_threshold args)) (results found).
Proof.
  unfold search_body.
  destruct (w_chroma_client w) as [[] |]; simpl; [| discriminate].
  destruct (w_embedding w (query args)) as [emb |]; simpl; [| discriminate].
  destruct (w_query w emb (max_results args) (where_clause (category args)))
    as [raw |]; simpl; [| discriminate].
  destruct (ids raw) as [| first rest].
  { simpl; intros H Hr; inversion H; subst; simpl in Hr.
    inversion Hr; subst; constructor. }
  destruct (0 <? Z.of_nat (List.length first))%Z.
  2:{ simpl; intros H Hr; inversion H; subst; simpl in Hr.
      inversion Hr; subst; constructor. }
  destruct (format_results raw (similarity_threshold args)
              (seq 0 (List.length first)) []) as [out |] eqn:Ef; simpl;
    [| discriminate].
  intros H Hr; inversion H; subst; simpl in Hr; inversion Hr; subst; simpl.
  apply format_results_spec in Ef as [Hall _]; [exact Hall | constructor].
Qed.

(** X15.  [search_similar_issues] never returns an empty list: it returns
    [None], or a non-empty list of results whose similarity is at least
    0.7 each. *)
Theorem X15_similar_issues_are_none_or_nonempty :
  forall (w : world) (report : string) (n : Z) (hits : list Hit),
    search_similar_issues w report n = Return (Some hits) ->
    hits <> [] /\ Forall (above default_threshold) hits.
Proof.
  intros w report n hits; unfold search_similar_issues.
  destruct (w_input_class w); simpl; [| discriminate].
  unfold MemorySearchTool_run.
  destruct (search_body w (search_args report n)) as [res |] eqn:Eb; simpl;
    [| discriminate].
  destruct (result res) as [found |] eqn:Er; [| discriminate].
  pose proof (search_body_results_above _ _ _ _ Eb Er) as Hall.
  destruct (results found) as [| h rest]; [discriminate |].
  intros H; inversion H; subst; split; [discriminate | exact Hall].
Qed.

(** The theorem of X15 at the stocked store. *)
Lemma X15_similar_issues_witness :
  exists hits,
    search_similar_issues stocked_world sample_report 5 = Return (Some hits)
    /\ hits <> [] /\ Forall (above default_threshold) hits.
Proof.
  eexists; split; [reflexivity |].
  exact (X15_similar_issues_are_none_or_nonempty stocked_world sample_report
           5%Z _ eq_refl).
Defined.

(** X16.  A snapshot made by [model_dump] always has the keys [plan],
    [proposed_patches] and [test_results], so the defaults of [get] never
    apply: when one of the three still holds [None], [store_solution]
    returns [False] whatever the store does, and the solution is not
    stored. *)
Theorem X16_solution_of_incomplete_context_is_not_stored :
  forall (w : world) (report : string) (sol : py_value) (tc : TaskContext),
    plan tc = PNone \/ proposed_patches tc = PNone \/ test_results tc = PNone ->
    store_solution w report sol (model_dump tc) = Return false.
Proof.
  intros w report sol tc H; unfold store_solution.
  change (dict_get_default (model_dump tc) "plan" (PList [])) with (plan tc).
  change (dict_get_default (model_dump tc) "proposed_patches" (PList []))
    with (proposed_patches tc).
  change (dict_get_default (model_dump tc) "test_results" (PDict []))
    with (test_results tc).
  destruct H as [-> | [-> | ->]]; simpl.
  - reflexivity.
  - destruct (py_len (plan tc)); reflexivity.
  - destruct (py_len (plan tc)); simpl; [| reflexivity].
    destruct (py_len (proposed_patches tc)); reflexivity.
Qed.

(** The theorem of X16 at a fresh context and a store that works. *)
Lemma X16_incomplete_context_witness :
  (plan sample_context = PNone \/ proposed_patches sample_context = PNone
   \/ test_results sample_context = PNone)
  /\ store_solution stocked_world sample_report PNone
       (model_dump sample_context) = Return false.
Proof.
  assert (H : plan sample_context = PNone
              \/ proposed_patches sample_context = PNone
              \/ test_results sample_context = PNone) by (left; reflexivity).
  split; [exact H |].
  exact (X16_solution_of_incomplete_context_is_not_stored stocked_world
           sample_report PNone sample_context H).
Defined.

(** X17.  When plan and patches have a length, the test results are a
    [dict], the input class resolves and the store accepts the entry,
    [store_solution] returns [True]. *)
Theorem X17_solution_of_complete_context_is_stored :
  forall (w : world) (report : string) (sol : py_value) (tc : TaskContext)
         (entries : py_dict),
    has_len (plan tc) ->
    has_len (proposed_patches tc) ->
    test_results tc = PDict entries ->
    w_input_class w = Return tt ->
    w_chroma_client w = Return tt ->
    (forall text, exists embedding, w_embedding w text = Return embedding) ->
    (forall id embedding text metadata,
        w_add w id embedding text metadata = Return tt) ->
    store_solution w report sol (model_dump tc) = Return true.
Proof.
  intros w report sol tc entries Hp Hq Ht Hi Hc He Ha; unfold store_solution.
  change (dict_get_default (model_dump tc) "plan" (PList [])) with (plan tc).
  change (dict_get_default (model_dump tc) "proposed_patches" (PList []))
    with (proposed_patches tc).
  change (dict_get_default (model_dump tc) "test_results" (PDict []))
    with (test_results tc).
  rewrite Ht.
  destruct (plan tc); simpl in Hp; try contradiction;
    destruct (proposed_patches tc); simpl in Hq; try contradiction;
    simpl; rewrite Hi; simpl;
    unfold MemoryStoreTool_run, store_body; rewrite Hc; simpl;
    match goal with
    | |- context [w_embedding w ?text] =>
        destruct (He text) as [emb ->]
    end; simpl; rewrite Ha; reflexivity.
Qed.

(** The theorem of X17 at the context of a run that planned, patched and
    tested. *)
Lemma X17_complete_context_witness :
  has_len (plan worked_context)
  /\ has_len (proposed_patches worked_context)
  /\ store_solution stocked_world sample_report PNone
       (model_dump worked_context) = Return true.
Proof.
  split; [exact I |]; split; [exact I |].
  exact (X17_solution_of_complete_context_is_stored stocked_world
           sample_report PNone worked_context _ I I eq_refl eq_refl eq_refl
           (fun _ => ex_intro _ [] eq_refl) (fun _ _ _ _ => eq_refl)).
Defined.

(** ** Assembly and roles *)

(** X18.  A team that [_create_team] returns is bounded by the round
    count alone, is a round-robin team exactly when the mode in force is
    ["round_robin"] and a swarm for every other mode, known or not, and
    has planner, locator, coder and executor in this order, followed by
    the critic and the reviewer when the role was enabled both when the
    agents were created and at assembly. *)
Theorem X18_assembled_team_shape :
  forall (w : world) (cfg0 cfg1 : Settings) (want_memory want_monitoring : bool)
         (mode : option string) (t : Team),
    _create_team w (new_DebugTeam cfg0 want_memory want_monitoring) cfg1 mode
    = Return t ->
    termination_condition t = MaxMessageTermination (max_rounds (team cfg1))
    /\ kind t = (if String.eqb (effective_mode cfg1 mode) "round_robin"
                 then RoundRobinGroupChat else Swarm)
    /\ participants t
       = ([PlannerAgent; LocatorAgent; CoderAgent; ExecutorAgent]
          ++ (if both enable_critic cfg0 cfg1 then [CriticAgent] else [])
          ++ (if both enable_reviewer cfg0 cfg1 then [ReviewerAgent] else []))%list.
Proof.
  intros w cfg0 cfg1 wm wo mode t; unfold _create_team.
  fold (effective_mode cfg1 mode).
  assert (Hp : collect_agents (agents (new_DebugTeam cfg0 wm wo))
                 (agent_order cfg1)
               = ([PlannerAgent; LocatorAgent; CoderAgent; ExecutorAgent]
                  ++ (if both enable_critic cfg0 cfg1 then [CriticAgent]
                      else [])
                  ++ (if both enable_reviewer cfg0 cfg1 then [ReviewerAgent]
                      else []))%list).
  { unfold new_DebugTeam, create_all_agents, agent_order, both; simpl agents.
    destruct (enable_critic (team cfg0)), (enable_reviewer (team cfg0)),
      (enable_critic (team cfg1)), (enable_reviewer (team cfg1));
      reflexivity. }
  rewrite Hp; clear Hp; simpl hd; unfold group_chat.
  destruct (String.eqb_spec (effective_mode cfg1 mode) "swarm") as [E | _].
  - rewrite E; simpl String.eqb.
    destruct (w_team_check w Swarm _ _); [discriminate |].
    intros H; inversion H; subst; simpl; repeat split.
  - destruct (String.eqb (effective_mode cfg1 mode) "round_robin").
    + destruct (w_team_check w RoundRobinGroupChat _ _); [discriminate |].
      intros H; inversion H; subst; simpl; repeat split.
    + destruct (w_team_check w Swarm _ _); [discriminate |].
      intros H; inversion H; subst; simpl; repeat split.
Qed.

(** The theorem of X18 at agents created with critic and reviewer and a
    team assembled without them, under a mode the code does not know. *)
Lemma X18_assembled_team_witness :
  exists t,
    _create_team quiet_world (new_DebugTeam default_settings true true)
      lean_settings (Some "selector") = Return t
    /\ kind t = Swarm
    /\ List.length (participants t) = 4%nat.
Proof.
  eexists; split; [reflexivity |].
  destruct (X18_assembled_team_shape quiet_world default_settings
              lean_settings true true (Some "selector") _ eq_refl)
    as (_ & Hk & Hp).
  rewrite Hk, Hp; split; reflexivity.
Defined.

(** X19.  The hand-off graph of an assembled team is closed exactly when
    critic and reviewer are both enabled: otherwise some role names an
    absent role.  No role names the operator ["Human"], the target of the
    hand-off termination the code builds. *)
Theorem X19_handoff_graph_closed_iff_both_enabled :
  forall (w : world) (cfg : Settings) (want_memory want_monitoring : bool)
         (mode : option string) (t : Team),
    _create_team w (new_DebugTeam cfg want_memory want_monitoring) cfg mode
    = Return t ->
    (dangling_handoff t
     <-> enable_critic (team cfg) = false \/ enable_reviewer (team cfg) = false)
    /\ (forall a, In a (participants t) -> ~ In "Human" (handoffs a)).
Proof.
  intros w cfg wm wo mode t Ht.
  destruct (create_team_is_constructor w cfg wm wo mode) as [k Hk].
  rewrite Hk in Ht; unfold group_chat in Ht.
  destruct (w_team_check w k (roster cfg) _); [discriminate |].
  inversion Ht; subst; clear Ht; simpl participants.
  unfold dangling_handoff, roster; simpl participants.
  destruct (enable_critic (team cfg)), (enable_reviewer (team cfg)); simpl.
  - split.
    + split; [| intros [H | H]; discriminate].
      intros (a & target & Ha & Ht & Hn); exfalso; apply Hn.
      repeat (destruct Ha as [<- | Ha]; [simpl in Ht; intuition (subst; simpl; auto 10) |]).
      destruct Ha.
    + intros a Ha.
      repeat (destruct Ha as [<- | Ha];
              [simpl; intuition discriminate |]).
      destruct Ha.
  - split.
    + split; [intros _; right; reflexivity |].
      intros _; exists ExecutorAgent, "Reviewer"; simpl.
      split; [auto 10 |]; split; [auto |]; intuition discriminate.
    + intros a Ha.
      repeat (destruct Ha as [<- | Ha];
              [simpl; intuition discriminate |]).
      destruct Ha.
  - split.
    + split; [intros _; left; reflexivity |].
      intros _; exists ExecutorAgent, "Critic"; simpl.
      split; [auto 10 |]; split; [auto |]; intuition discriminate.
    + intros a Ha.
      repeat (destruct Ha as [<- | Ha];
              [simpl; intuition discriminate |]).
      destruct Ha.
  - split.
    + split; [intros _; left; reflexivity |].
      intros _; exists ExecutorAgent, "Critic"; simpl.
      split; [auto 10 |]; split; [auto |]; intuition discriminate.
    + intros a Ha.
      repeat (destruct Ha as [<- | Ha];
              [simpl; intuition discriminate |]).
      destruct Ha.
Qed.

(** The theorem of X19 at the default configuration: no role is left
    without its target. *)
Lemma X19_handoff_graph_witness :
  exists t,
    _create_team quiet_world default_team default_settings None = Return t
    /\ ~ dangling_handoff t.
Proof.
  eexists; split; [reflexivity |].
  intros Hd.
  destruct (proj1 (proj1 (X19_handoff_graph_closed_iff_both_enabled
                            quiet_world default_settings true true None _
                            eq_refl)) Hd) as [H | H]; discriminate.
Defined.

(** ** The initial message in general *)

Lemma prefix_app_l needle : forall a b,
  String.prefix needle a = true -> String.prefix needle (a ++ b) = true.
Proof.
  induction needle as [| x needle IH]; intros a b H.
  - destruct (a ++ b); reflexivity.
  - destruct a as [| y a]; [discriminate |]; simpl in *.
    destruct (ascii_dec x y); [apply IH; exact H | discriminate].
Qed.

Lemma contains_app_l needle a b :
  Py.contains needle a = true -> Py.contains needle (a ++ b) = true.
Proof.
  induction a as [| y a IH]; intros H.
  - simpl in H; rewrite orb_false_r in H.
    destruct needle; [| discriminate].
    destruct b; reflexivity.
  - change (Py.contains needle (String y a))
      with (String.prefix needle (String y a) || Py.contains needle a) in H.
    change (Py.contains needle (String y a ++ b))
      with (String.prefix needle (String y a ++ b)
            || Py.contains needle (a ++ b)).
    apply orb_true_iff in H as [H | H].
    + rewrite (prefix_app_l _ _ b H); reflexivity.
    + rewrite (IH H); apply orb_true_r.
Qed.

Lemma contains_cons needle c s :
  Py.contains needle s = true -> Py.contains needle (String c s) = true.
Proof. intros H; apply (contains_app_r needle (String c "") s H). Qed.

Lemma append_assoc_str (a b c : string) : (a ++ b) ++ c = a ++ (b ++ c).
Proof. induction a as [| x a IH]; simpl; [| rewrite IH]; reflexivity. Qed.

Lemma solution_entries_contain w hits : forall i h,
  In h hits ->
  Py.contains (hit_content h) (solution_entries w i hits) = true.
Proof.
  induction hits as [| h0 hits IH]; intros i h Hin; [destruct Hin |].
  cbn [solution_entries]; destruct Hin as [-> | Hin].
  - apply contains_app_l; unfold solution_entry.
    do 6 apply contains_app_r; apply contains_here.
  - apply contains_app_r, IH, Hin.
Qed.

(** X21.  Whatever the search found, the composed message contains the
    bug report and the task id and ends with the instructions; when the
    search found something, the message contains the heading of the past
    solutions and the content of each of the first three results. *)
Theorem X21_initial_message_contents :
  forall (w : world) (report : string) (tc : TaskContext)
         (similar : option (list Hit)),
    Py.contains report (_prepare_initial_message w report tc similar) = true
    /\ Py.contains (py_str w (task_id tc))
         (_prepare_initial_message w report tc similar) = true
    /\ (exists front,
           _prepare_initial_message w report tc similar
           = front ++ instructions)
    /\ (forall hits h,
          similar = Some hits -> In h (firstn 3 hits) ->
          Py.contains similar_heading
            (_prepare_initial_message w report tc similar) = true
          /\ Py.contains (hit_content h)
               (_prepare_initial_message w report tc similar) = true).
Proof.
  intros w report tc similar; unfold _prepare_initial_message.
  split; [| split; [| split]].
  - apply contains_app_r.
    change (String Py.nl report ++ ?x) with (String Py.nl (report ++ x)).
    apply contains_cons, contains_here.
  - do 3 apply contains_app_r; apply contains_here.
  - eexists; rewrite <- !append_assoc_str; reflexivity.
  - intros hits h -> Hin.
    destruct hits as [| h0 hits]; [destruct Hin |].
    unfold similar_section; split; do 5 apply contains_app_r;
      apply contains_app_l.
    + apply contains_here.
    + apply contains_app_r, solution_entries_contain, Hin.
Qed.

(** The theorem of X21 at a search that found one past solution. *)
Lemma X21_initial_message_witness :
  Py.contains "cast the input with int()"
    (_prepare_initial_message quiet_world sample_report sample_context
       (Some [ {| hit_id := "m-1"; hit_content := "cast the input with int()";
                  hit_metadata := None; hit_similarity := 0.875%float |} ]))
  = true.
Proof.
  apply (proj2 (proj2 (proj2 (proj2
           (X21_initial_message_contents quiet_world sample_report
              sample_context
              (Some [ {| hit_id := "m-1";
                         hit_content := "cast the input with int()";
                         hit_metadata := None;
                         hit_similarity := 0.875%float |} ]))))
          _ _ eq_refl (or_introl eq_refl))).
Defined.

(** ** The server's task registry *)

Lemma registry_get_set_same tasks task_id task :
  registry_get (registry_set tasks task_id task) task_id = Some task.
Proof.
  induction tasks as [| [k t] rest IH]; simpl.
  - rewrite String.eqb_refl; reflexivity.
  - destruct (String.eqb k task_id) eqn:E; simpl; rewrite E;
      [reflexivity | exact IH].
Qed.

Lemma registry_get_set_other tasks task_id task other :
  other <> task_id ->
  registry_get (registry_set tasks task_id task) other
  = registry_get tasks other.
Proof.
  intros Hne; induction tasks as [| [k t] rest IH]; simpl.
  - destruct (String.eqb_spec task_id other); [congruence | reflexivity].
  - destruct (String.eqb_spec k task_id) as [-> | Hk]; simpl.
    + destruct (String.eqb_spec task_id other); [congruence | reflexivity].
    + destruct (String.eqb k other); [reflexivity | exact IH].
Qed.

Lemma update_task_present tasks task_id t change :
  registry_get tasks task_id = Some t ->
  update_task tasks task_id change
  = Return (registry_set tasks task_id (change t)).
Proof. unfold update_task; intros ->; reflexivity. Qed.

Lemma update_task_frame tasks task_id change tasks' other :
  update_task tasks task_id change = Return tasks' ->
  other <> task_id ->
  registry_get tasks' other = registry_get tasks other.
Proof.
  unfold update_task; destruct (registry_get tasks task_id);
    intros H Hne; inversion H; subst.
  apply registry_get_set_other; exact Hne.
Qed.

(** Three updates of a registered task in a row. *)
Lemma update_task_thrice tasks task_id t f g h :
  registry_get tasks task_id = Some t ->
  exists tasks',
    (t1 <- update_task tasks task_id f ;;
     t2 <- update_task t1 task_id g ;;
     update_task t2 task_id h) = Return tasks'
    /\ registry_get tasks' task_id = Some (h (g (f t)))
    /\ forall other, other <> task_id ->
         registry_get tasks' other = registry_get tasks other.
Proof.
  intros H.
  rewrite (update_task_present _ _ _ f H); simpl.
  rewrite (update_task_present _ _ _ g (registry_get_set_same _ _ _)); simpl.
  rewrite (update_task_present _ _ _ h (registry_get_set_same _ _ _)).
  eexists; split; [reflexivity |]; split;
    [apply registry_get_set_same |].
  intros other Hne; rewrite !registry_get_set_other by exact Hne; reflexivity.
Qed.

Lemma solve_bug_after_creation w self cfg report context stream tc started :
  _create_task_context w cfg report context = Return tc ->
  start_recorded self tc started ->
  exists r log,
    solve_bug w self cfg report context stream = Return (r, log)
    /\ forall e, solve_bug_body w self cfg report tc stream = Raise e ->
         result_success r = false /\ result_error r = Some e.
Proof.
  intros Htc Hstart.
  destruct (solve_bug_body w self cfg report tc stream) as [res | e0] eqn:Eb.
  - exists res; eexists; split;
      [eapply solve_bug_on_return; [exact Htc | exact Hstart | exact Eb] |].
    intros e He; discriminate.
  - eexists; eexists; split;
      [eapply solve_bug_on_raise; [exact Htc | exact Hstart | exact Eb] |].
    intros e He; inversion He; subst; split; reflexivity.
Qed.

(** The first two statements of [solve_task] on a registered task. *)
Lemma solve_task_opening tasks task_id t stamp :
  registry_get tasks task_id = Some t ->
  exists tasks2,
    update_task tasks task_id (set_status "processing")
    = Return (registry_set tasks task_id (set_status "processing" t))
    /\ update_task (registry_set tasks task_id (set_status "processing" t))
         task_id (set_updated_at stamp) = Return tasks2
    /\ registry_get tasks2 task_id
       = Some (set_updated_at stamp (set_status "processing" t)).
Proof.
  intros Ht; eexists; split; [apply update_task_present, Ht |]; split;
    [apply update_task_present, registry_get_set_same |].
  apply registry_get_set_same.
Qed.

(** A registered task whose run returns [r] is completed with [r]. *)
Lemma solve_task_completed w parts cfg telemetry tasks app task_id t report
    context stream now r :
  registry_get tasks task_id = Some t ->
  fst (app_solve_bug w parts cfg telemetry app report context stream)
  = Return r ->
  exists srv' t',
    solve_task w parts cfg telemetry
      {| srv_tasks := tasks; srv_app := Some app |}
      task_id report context stream now = (Return tt, srv')
    /\ registry_get (srv_tasks srv') task_id = Some t'
    /\ t_status t' = "completed"
    /\ t_result t' = Some r
    /\ t_error t' = t_error t
    /\ t_updated_at t' = now 1%nat.
Proof.
  intros Ht Hrun.
  destruct (solve_task_opening tasks task_id t (now 0%nat) Ht)
    as (tasks2 & U1 & U2 & G2).
  destruct (update_task_thrice tasks2 task_id _ (set_status "completed")
              (set_result r) (set_updated_at (now 1%nat)) G2)
    as (tasks5 & U5 & G5 & _).
  unfold solve_task, solve_task_body; cbn [srv_tasks srv_app].
  rewrite U1, U2.
  destruct (app_solve_bug w parts cfg telemetry app report context stream)
    as [ran app']; simpl in Hrun; subst ran.
  rewrite U5.
  eexists; eexists; split; [reflexivity |]; simpl.
  split; [exact G5 |]; repeat split.
Qed.

(** A registered task whose run raises [e] is failed with [e]. *)
Lemma solve_task_failed w parts cfg telemetry tasks app task_id t report
    context stream now e :
  registry_get tasks task_id = Some t ->
  fst (app_solve_bug w parts cfg telemetry app report context stream)
  = Raise e ->
  exists srv' t',
    solve_task w parts cfg telemetry
      {| srv_tasks := tasks; srv_app := Some app |}
      task_id report context stream now = (Return tt, srv')
    /\ registry_get (srv_tasks srv') task_id = Some t'
    /\ t_status t' = "failed"
    /\ t_error t' = Some e
    /\ t_result t' = t_result t.
Proof.
  intros Ht Hrun.
  destruct (solve_task_opening tasks task_id t (now 0%nat) Ht)
    as (tasks2 & U1 & U2 & G2).
  destruct (update_task_thrice tasks2 task_id _ (set_status "failed")
              (set_error e) (set_updated_at (now 1%nat)) G2)
    as (tasks5 & U5 & G5 & _).
  unfold solve_task, solve_task_body; cbn [srv_tasks srv_app].
  rewrite U1, U2.
  destruct (app_solve_bug w parts cfg telemetry app report context stream)
    as [ran app']; simpl in Hrun; subst ran.
  cbn [srv_tasks srv_app]; rewrite U5.
  eexists; eexists; split; [reflexivity |]; simpl.
  split; [exact G5 |]; repeat split.
Qed.

(** X22.  The background task of the server ends in one of two states.
    When the team is there or can be built, the task context can be
    created and the collector takes the start of the task, the task
    becomes ["completed"] and carries the result, also when the run
    itself failed: the failure is inside the result ([success = false],
    the error text), and the task has no error of its own.  The task
    becomes ["failed"], with the error text and no result, when the team
    has to be built and a constructor raises, and when the [solve_bug] of
    the team raises. *)
Theorem X22_solve_task_completes_unless_solve_bug_raises :
  forall (w : world) (parts : outcome unit) (cfg : Settings)
         (telemetry : bool) (tasks : registry) (app : AutoDebugAI)
         (task_id : string) (t : Task) (report : string)
         (context : option py_dict) (stream : bool) (now : nat -> string),
    registry_get tasks task_id = Some t ->
    (forall app' tc started,
        ensure_team parts cfg telemetry app = Return app' ->
        _create_task_context w cfg report context = Return tc ->
        start_recorded (team_in_charge cfg telemetry app) tc started ->
        exists srv' t' r,
          solve_task w parts cfg telemetry
            {| srv_tasks := tasks; srv_app := Some app |}
            task_id report context stream now = (Return tt, srv')
          /\ registry_get (srv_tasks srv') task_id = Some t'
          /\ t_status t' = "completed"
          /\ t_result t' = Some r
          /\ t_error t' = t_error t
          /\ t_updated_at t' = now 1%nat
          /\ forall e,
              solve_bug_body w (team_in_charge cfg telemetry app) cfg report
                tc stream = Raise e ->
              result_success r = false /\ result_error r = Some e)
    /\ (forall e,
          ensure_team parts cfg telemetry app = Raise e
          \/ ((exists app', ensure_team parts cfg telemetry app = Return app')
              /\ solve_bug w (team_in_charge cfg telemetry app) cfg report
                   context stream = Raise e) ->
          exists srv' t',
            solve_task w parts cfg telemetry
              {| srv_tasks := tasks; srv_app := Some app |}
              task_id report context stream now = (Return tt, srv')
            /\ registry_get (srv_tasks srv') task_id = Some t'
            /\ t_status t' = "failed"
            /\ t_error t' = Some e
            /\ t_result t' = t_result t).
Proof.
  intros w parts cfg telemetry tasks app task_id t report context stream now
    Ht.
  split.
  - intros app' tc started Happ Htc Hstart.
    destruct (solve_bug_after_creation w (team_in_charge cfg telemetry app)
                cfg report context stream tc started Htc Hstart)
      as (r & log & Hrun & Hfail).
    destruct (solve_task_completed w parts cfg telemetry tasks app task_id t
                report context stream now r Ht)
      as (srv' & t' & Hsolve & Hrest).
    { unfold app_solve_bug; rewrite Happ, Hrun; reflexivity. }
    exists srv', t', r; split; [exact Hsolve |].
    destruct Hrest as (H1 & H2 & H3 & H4 & H5).
    repeat (split; [assumption |]); exact Hfail.
  - intros e He.
    apply (solve_task_failed w parts cfg telemetry tasks app task_id t report
             context stream now e Ht).
    unfold app_solve_bug.
    destruct He as [-> | [[app' ->] ->]]; reflexivity.
Qed.

(** The theorem of X22 at a run whose model call fails: the task is
    completed, and the failure is in its result; and at a team whose
    construction fails: the task is failed. *)
Lemma X22_solve_task_witness :
  registry_get (srv_tasks sample_server) "t-1"
    = Some (pending_task "t-1" sample_request)
  /\ (exists srv' t' r,
        solve_task failing_world (Return tt) default_settings true
          sample_server "t-1" sample_report None true sample_clock
        = (Return tt, srv')
        /\ registry_get (srv_tasks srv') "t-1" = Some t'
        /\ t_status t' = "completed"
        /\ t_result t' = Some r
        /\ result_success r = false
        /\ result_error r = Some "model call failed: 503")
  /\ (exists srv' t',
        solve_task failing_world (Raise "Unknown model provider: none")
          default_settings true sample_server "t-1" sample_report None true
          sample_clock
        = (Return tt, srv')
        /\ registry_get (srv_tasks srv') "t-1" = Some t'
        /\ t_status t' = "failed"
        /\ t_error t' = Some "Unknown model provider: none").
Proof.
  split; [reflexivity |]; split.
  - destruct (proj1 (X22_solve_task_completes_unless_solve_bug_raises
                       failing_world (Return tt) default_settings true
                       (srv_tasks sample_server) {| app_team := None |} "t-1"
                       (pending_task "t-1" sample_request) sample_report None
                       true sample_clock eq_refl)
                _
                (new_TaskContext (w_task_uuid failing_world) sample_report 20)
                _ eq_refl eq_refl eq_refl)
      as (srv' & t' & r & Hrun & Hget & Hst & Hres & _ & _ & Hfail).
    exists srv', t', r.
    destruct (Hfail "model call failed: 503" eq_refl) as [Hs He].
    repeat split; assumption.
  - destruct (proj2 (X22_solve_task_completes_unless_solve_bug_raises
                       failing_world (Raise "Unknown model provider: none")
                       default_settings true
                       (srv_tasks sample_server) {| app_team := None |} "t-1"
                       (pending_task "t-1" sample_request) sample_report None
                       true sample_clock eq_refl)
                "Unknown model provider: none" (or_introl eq_refl))
      as (srv' & t' & Hrun & Hget & Hst & He & _).
    exists srv', t'; repeat split; assumption.
Defined.

(** X23.  A task that [create_task] registers can be looked up at once:
    [get_task_status] answers with the status ["pending"], the two
    time stamps of the creation, no result and no error, and answers as
    before for every other id.  Without an application [create_task]
    answers 503 and registers nothing; for an id that is not registered
    [get_task_status] answers 404. *)
Theorem X23_created_task_is_pending_and_found :
  forall (app : AutoDebugAI) (tasks : registry) (request : BugReportRequest)
         (fresh_id : string) (now : nat -> string),
    (fst (create_task (Some app) tasks request fresh_id now)
     = Ok {| resp_task_id := fresh_id; resp_status := "pending";
             resp_created_at := now 0%nat |}
     /\ get_task_status
          (snd (create_task (Some app) tasks request fresh_id now)) fresh_id
        = Ok {| ts_task_id := fresh_id; ts_status := "pending";
                ts_result := None; ts_error := None;
                ts_created_at := now 0%nat; ts_updated_at := now 1%nat |}
     /\ forall other, other <> fresh_id ->
          get_task_status
            (snd (create_task (Some app) tasks request fresh_id now)) other
          = get_task_status tasks other)
    /\ create_task None tasks request fresh_id now
       = (HTTPException 503 "System not initialized", tasks)
    /\ (registry_get tasks fresh_id = None ->
        get_task_status tasks fresh_id = HTTPException 404 "Task not found").
Proof.
  intros app tasks request fresh_id now; split; [split; [| split] | split].
  - reflexivity.
  - unfold get_task_status; simpl; rewrite registry_get_set_same; reflexivity.
  - intros other Hne; unfold get_task_status; simpl.
    rewrite registry_get_set_other by exact Hne; reflexivity.
  - reflexivity.
  - intros H; unfold get_task_status; rewrite H; reflexivity.
Qed.

(** The theorem of X23 at an id that is not registered. *)
Lemma X23_created_task_witness :
  registry_get (srv_tasks sample_server) "t-9" = None
  /\ get_task_status (srv_tasks sample_server) "t-9"
     = HTTPException 404 "Task not found".
Proof.
  split; [reflexivity |].
  exact (proj2 (proj2 (X23_created_task_is_pending_and_found
                         {| app_team := None |} (srv_tasks sample_server)
                         sample_request "t-9" sample_clock)) eq_refl).
Defined.

Lemma solve_task_unknown w parts cfg telemetry srv task_id report context
    stream now :
  registry_get (srv_tasks srv) task_id = None ->
  solve_task w parts cfg telemetry srv task_id report context stream now
  = (Raise (Py.repr task_id), srv).
Proof.
  intros H; unfold solve_task, solve_task_body, update_task.
  rewrite H; simpl; rewrite H; reflexivity.
Qed.

(** X24.  [solve_task] touches the task it is given and no other: every
    other task of the registry reads afterwards as it did before,
    whatever the run does.  For an id that is not registered the key
    error of the first statement, whose text is [repr] of the id, is met
    again in the handler and reaches the server, the registry being as it
    was and the application not having been called. *)
Theorem X24_solve_task_touches_its_task_only :
  forall (w : world) (parts : outcome unit) (cfg : Settings)
         (telemetry : bool) (srv : Server) (task_id report : string)
         (context : option py_dict) (stream : bool) (now : nat -> string),
    (forall other, other <> task_id ->
       registry_get
         (srv_tasks (snd (solve_task w parts cfg telemetry srv task_id report
                            context stream now))) other
       = registry_get (srv_tasks srv) other)
    /\ (registry_get (srv_tasks srv) task_id = None ->
        solve_task w parts cfg telemetry srv task_id report context stream now
        = (Raise (Py.repr task_id), srv)).
Proof.
  intros w parts cfg telemetry srv task_id report context stream now.
  split; [| apply solve_task_unknown].
  intros other Hne.
  destruct (registry_get (srv_tasks srv) task_id) as [t |] eqn:Ht;
    [| rewrite (solve_task_unknown _ _ _ _ _ _ _ _ _ _ Ht); reflexivity].
  assert (G1 : registry_get
                 (registry_set (srv_tasks srv) task_id
                    (set_status "processing" t)) task_id
               = Some (set_status "processing" t))
    by apply registry_get_set_same.
  set (tasks1 := registry_set (srv_tasks srv) task_id
                   (set_status "processing" t)) in *.
  set (tasks2 := registry_set tasks1 task_id
                   (set_updated_at (now 0%nat) (set_status "processing" t))).
  assert (G2 : registry_get tasks2 task_id
               = Some (set_updated_at (now 0%nat) (set_status "processing" t)))
    by apply registry_get_set_same.
  assert (F2 : registry_get tasks2 other = registry_get (srv_tasks srv) other).
  { unfold tasks2, tasks1.
    rewrite !registry_get_set_other by exact Hne; reflexivity. }
  unfold solve_task, solve_task_body.
  rewrite (update_task_present _ _ _ _ Ht); fold tasks1.
  rewrite (update_task_present _ _ _ _ G1); fold tasks2.
  destruct (srv_app srv) as [app |].
  - destruct (app_solve_bug w parts cfg telemetry app report context stream)
      as [[r | e] app']; cbn [srv_tasks srv_app].
    + destruct (update_task_thrice tasks2 task_id _ (set_status "completed")
                  (set_result r) (set_updated_at (now 1%nat)) G2)
        as (tasks5 & -> & _ & F5).
      simpl; rewrite (F5 other Hne); exact F2.
    + destruct (update_task_thrice tasks2 task_id _ (set_status "failed")
                  (set_error e) (set_updated_at (now 1%nat)) G2)
        as (tasks5 & -> & _ & F5).
      simpl; rewrite (F5 other Hne); exact F2.
  - cbn [srv_tasks].
    destruct (update_task_thrice tasks2 task_id _ (set_status "failed")
                (set_error "'NoneType' object has no attribute 'solve_bug'")
                (set_updated_at (now 1%nat)) G2)
      as (tasks5 & -> & _ & F5).
    simpl; rewrite (F5 other Hne); exact F2.
Qed.

(** The theorem of X24 at the second task of a server that solves the
    first, and at an id with an apostrophe that is not registered: the
    text of the key error has the id between double quotes. *)
Lemma X24_solve_task_frame_witness :
  "t-2" <> "t-1"
  /\ registry_get
       (srv_tasks (snd (solve_task failing_world (Return tt) default_settings
                          true sample_server "t-1" sample_report None true
                          sample_clock))) "t-2"
     = Some (pending_task "t-2" sample_request)
  /\ registry_get (srv_tasks sample_server) "t'9" = None
  /\ solve_task failing_world (Return tt) default_settings true sample_server
       "t'9" sample_report None true sample_clock
     = (Raise (String Py.double_quote ("t'9" ++ String Py.double_quote "")),
        sample_server).
Proof.
  assert (Hne : "t-2" <> "t-1") by discriminate.
  split; [exact Hne |]; split; [| split; [reflexivity |]].
  - rewrite (proj1 (X24_solve_task_touches_its_task_only failing_world
                      (Return tt) default_settings true sample_server "t-1"
                      sample_report None true sample_clock) "t-2" Hne).
    reflexivity.
  - exact (proj2 (X24_solve_task_touches_its_task_only failing_world
                    (Return tt) default_settings true sample_server "t'9"
                    sample_report None true sample_clock) eq_refl).
Defined.

(** ** The metrics collector *)

Lemma entry_get_set_same {A : Type} (entries : list (string * A)) key (v : A) :
  entry_get (entry_set entries key v) key = Some v.
Proof.
  induction entries as [| [k old] rest IH]; simpl.
  - rewrite String.eqb_refl; reflexivity.
  - destruct (String.eqb k key) eqn:E; simpl; rewrite E;
      [reflexivity | exact IH].
Qed.

Lemma entry_set_length {A : Type} (entries : list (string * A)) key (v : A) :
  List.length (entry_set entries key v)
  = match entry_get entries key with
    | Some _ => List.length entries
    | None => S (List.length entries)
    end.
Proof.
  induction entries as [| [k old] rest IH]; simpl; [reflexivity |].
  destruct (String.eqb k key); simpl; [reflexivity |].
  rewrite IH; destruct (entry_get rest key); reflexivity.
Qed.

Lemma count_successful_bound entries :
  (0 <= count_successful entries <= Z.of_nat (List.length entries))%Z.
Proof.
  induction entries as [| [k entry] rest IH]; [simpl; lia |].
  cbn [count_successful List.length]; rewrite Nat2Z.inj_succ.
  destruct (status entry) as [s |]; [destruct (String.eqb s "success") |];
    lia.
Qed.

Lemma get_task_metrics_entry c task_id entry :
  task_id <> "" ->
  entry_get (task_metrics c) task_id = Some entry ->
  get_task_metrics c (Some task_id) = OneTask entry.
Proof.
  intros Hne He; unfold get_task_metrics.
  destruct task_id; [congruence |]; cbn [Py.truthy]; rewrite He; reflexivity.
Qed.

(** X25.  A task that is started and then closed leaves the gauge of
    active tasks where it was and is recorded with its start time, the
    status ["success"] or ["failure"] and its duration: the duration that
    was passed, or for a failure the time from the start to the second
    reading of the clock.  [get_task_metrics] answers with this record
    for every id but the empty one, for which it answers with the whole
    mapping.  Closing a task that was never started changes nothing. *)
Theorem X25_started_and_closed_task_restores_the_gauge :
  forall (c : Collector) (task_id : string) (t0 : float) (now : nat -> float),
    (forall ok d,
        let closed :=
          collector_task_completion (collector_task_start c task_id t0)
            task_id ok (Some d) now in
        let record :=
          {| start_time := Some t0;
             status := Some (if ok then "success" else "failure");
             duration := Some d; end_time := Some (now 0%nat) |} in
        active_tasks_gauge closed = active_tasks_gauge c
        /\ entry_get (task_metrics closed) task_id = Some record
        /\ (task_id <> "" ->
            get_task_metrics closed (Some task_id) = OneTask record))
    /\ (forall err,
          let failed :=
            collector_task_failure (collector_task_start c task_id t0)
              task_id err now in
          let record :=
            {| start_time := Some t0; status := Some "failure";
               duration := Some (now 1%nat - t0)%float;
               end_time := Some (now 2%nat) |} in
          active_tasks_gauge failed = active_tasks_gauge c
          /\ entry_get (task_metrics failed) task_id = Some record
          /\ (task_id <> "" ->
              get_task_metrics failed (Some task_id) = OneTask record))
    /\ (forall c', get_task_metrics c' (Some "") = AllTasks (task_metrics c'))
    /\ (entry_get (task_metrics c) task_id = None ->
        forall ok given err,
          collector_task_completion c task_id ok given now = c
          /\ collector_task_failure c task_id err now = c).
Proof.
  intros c task_id t0 now; split; [| split; [| split]].
  - intros ok d closed record.
    assert (He : entry_get (task_metrics closed) task_id = Some record).
    { unfold closed, record, collector_task_completion, collector_task_start;
        cbn [task_metrics]; rewrite entry_get_set_same.
      cbn [task_metrics start_time].
      rewrite entry_get_set_same; destruct ok; reflexivity. }
    split; [| split; [exact He |]].
    + unfold closed, collector_task_completion, collector_task_start;
        cbn [task_metrics]; rewrite entry_get_set_same.
      cbn [active_tasks_gauge]; lia.
    + intros Hne; apply get_task_metrics_entry; assumption.
  - intros err failed record.
    assert (He : entry_get (task_metrics failed) task_id = Some record).
    { unfold failed, record, collector_task_failure,
        collector_task_completion, collector_task_start;
        cbn [task_metrics]; rewrite entry_get_set_same.
      cbn [task_metrics start_time].
      rewrite entry_get_set_same; reflexivity. }
    split; [| split; [exact He |]].
    + unfold failed, collector_task_failure, collector_task_completion,
        collector_task_start; cbn [task_metrics];
        rewrite entry_get_set_same.
      cbn [active_tasks_gauge]; lia.
    + intros Hne; apply get_task_metrics_entry; assumption.
  - reflexivity.
  - intros H ok given err.
    unfold collector_task_failure, collector_task_completion; rewrite H.
    split; reflexivity.
Qed.

(** The theorem of X25 at a collector that has seen no task. *)
Lemma X25_started_and_closed_witness :
  entry_get (task_metrics new_collector) "t-1" = None
  /\ "t-1" <> ""
  /\ collector_task_failure new_collector "t-1" "boom" sample_readings
     = new_collector
  /\ get_task_metrics
       (collector_task_completion
          (collector_task_start new_collector "t-1" 100%float) "t-1" true
          (Some 4%float) sample_readings) (Some "t-1")
     = OneTask {| start_time := Some 100%float; status := Some "success";
                  duration := Some 4%float;
                  end_time := Some (sample_readings 0%nat) |}.
Proof.
  assert (Hne : "t-1" <> "") by discriminate.
  destruct (X25_started_and_closed_task_restores_the_gauge new_collector
              "t-1" 100%float sample_readings) as (Hclose & _ & _ & Hunknown).
  split; [reflexivity |]; split; [exact Hne |]; split.
  - exact (proj2 (Hunknown eq_refl true None "boom")).
  - exact (proj2 (proj2 (Hclose true 4%float)) Hne).
Defined.

(** X26.  In the system metrics the successful tasks are never more than
    the tasks; without any task the success rate is the integer 0 and no
    division takes place.  Starting a task raises the task count by one
    when its id is new and leaves it when the id is known, the earlier
    entry being replaced. *)
Theorem X26_system_metrics_count_tasks :
  forall (c : Collector) (task_id : string) (t0 : float),
    (0 <= successful_tasks (get_system_metrics c)
     <= total_tasks (get_system_metrics c))%Z
    /\ (task_metrics c = [] ->
        success_rate (get_system_metrics c) = RateZero)
    /\ total_tasks (get_system_metrics (collector_task_start c task_id t0))
       = match entry_get (task_metrics c) task_id with
         | Some _ => total_tasks (get_system_metrics c)
         | None => (total_tasks (get_system_metrics c) + 1)%Z
         end.
Proof.
  intros c task_id t0; split; [| split].
  - apply count_successful_bound.
  - intros H; unfold get_system_metrics; rewrite H; reflexivity.
  - unfold get_system_metrics, collector_task_start;
      cbn [total_tasks task_metrics].
    rewrite entry_set_length.
    destruct (entry_get (task_metrics c) task_id); [reflexivity | lia].
Qed.

(** The theorem of X26 at a collector that has seen no task. *)
Lemma X26_system_metrics_witness :
  task_metrics new_collector = []
  /\ success_rate (get_system_metrics new_collector) = RateZero.
Proof.
  split; [reflexivity |].
  exact (proj1 (proj2 (X26_system_metrics_count_tasks new_collector "t-1"
                         100%float)) eq_refl).
Defined.

(** ** Tools of the roles *)

(** X27.  [_detect_test_command] always names a command, one of seven.
    [pytest.ini] or [pyproject.toml] decide for ["pytest -xvs"] whatever
    else the directory holds.  The Go and Rust commands are chosen only
    when none of [pytest.ini], [pyproject.toml], [setup.py], [manage.py]
    and [package.json] exists: a [package.json] without a test script, or
    one that cannot be read, gives ["python -m pytest"] even beside a
    [go.mod]. *)
Theorem X27_test_command_precedence :
  forall p : Project,
    In (_detect_test_command p)
      ["pytest -xvs"; "python -m pytest"; "python manage.py test";
       "npm test"; "npm run jest"; "go test ./..."; "cargo test"]
    /\ (has_file p "pytest.ini" = true \/ has_file p "pyproject.toml" = true ->
        _detect_test_command p = "pytest -xvs")
    /\ (_detect_test_command p = "go test ./..." \/
        _detect_test_command p = "cargo test" ->
        has_file p "pytest.ini" = false /\ has_file p "pyproject.toml" = false
        /\ has_file p "setup.py" = false /\ has_file p "manage.py" = false
        /\ has_file p "package.json" = false)
    /\ (has_file p "pytest.ini" = false -> has_file p "pyproject.toml" = false ->
        has_file p "setup.py" = false -> has_file p "manage.py" = false ->
        has_file p "package.json" = true ->
        (forall command, npm_command p <> Return (Some command)) ->
        _detect_test_command p = "python -m pytest").
Proof.
  intros p; unfold _detect_test_command.
  set (npm := match npm_command p with
              | Return (Some command) => command
              | _ => "python -m pytest"
              end).
  assert (Hnpm : npm = "npm test" \/ npm = "npm run jest"
                 \/ npm = "python -m pytest").
  { unfold npm, npm_command.
    destruct (package_json p) as [package |]; simpl; [| auto].
    destruct (py_get package "scripts" (PDict [])) as [scripts |]; simpl;
      [| auto].
    destruct (py_in "test" scripts) as [[|] |]; simpl; auto.
    destruct (py_in "jest" scripts) as [[|] |]; simpl; auto. }
  split; [| split; [| split]].
  - destruct (has_file p "pytest.ini" || has_file p "pyproject.toml");
      [simpl; auto |].
    destruct (has_file p "setup.py"); [simpl; auto |].
    destruct (has_file p "manage.py"); [simpl; auto |].
    destruct (has_file p "package.json");
      [destruct Hnpm as [-> | [-> | ->]]; simpl; auto 10 |].
    destruct (has_file p "go.mod"); [simpl; auto 10 |].
    destruct (has_file p "Cargo.toml"); simpl; auto 10.
  - intros H.
    assert (E : has_file p "pytest.ini" || has_file p "pyproject.toml" = true)
      by (destruct H as [-> | ->]; [reflexivity | apply orb_true_r]).
    rewrite E; reflexivity.
  - destruct (has_file p "pytest.ini"), (has_file p "pyproject.toml");
      cbn [orb]; try (intros [H | H]; discriminate H).
    destruct (has_file p "setup.py"); [intros [H | H]; discriminate H |].
    destruct (has_file p "manage.py"); [intros [H | H]; discriminate H |].
    destruct (has_file p "package.json"); [| intros _; repeat split].
    intros [H | H]; exfalso;
      destruct Hnpm as [E | [E | E]]; rewrite E in H; discriminate H.
  - intros -> -> -> -> -> Hnone; cbn [orb]; unfold npm.
    destruct (npm_command p) as [[c |] |];
      [exfalso; apply (Hnone c); reflexivity | reflexivity | reflexivity].
Qed.

(** The theorem of X27 at a Go module with a [package.json] that has no
    test script. *)
Lemma X27_test_command_witness :
  has_file go_with_package_json "go.mod" = true
  /\ _detect_test_command go_with_package_json = "python -m pytest".
Proof.
  split; [reflexivity |].
  apply (proj2 (proj2 (proj2
           (X27_test_command_precedence go_with_package_json))));
    try reflexivity.
  intros command H; discriminate H.
Defined.

Lemma collect_matches_firstn max found : forall so_far,
  collect_matches max found so_far
  = (so_far
     ++ map code_match
          (firstn (Z.to_nat max - List.length so_far) found))%list.
Proof.
  induction found as [| m rest IH]; intros so_far; simpl.
  - rewrite firstn_nil, app_nil_r; reflexivity.
  - destruct (max <=? Z.of_nat (List.length so_far))%Z eqn:E.
    + apply Z.leb_le in E.
      replace (Z.to_nat max - List.length so_far)%nat with 0%nat by lia.
      simpl; rewrite app_nil_r; reflexivity.
    + apply Z.leb_gt in E.
      rewrite IH, length_app; simpl List.length.
      replace (Z.to_nat max - List.length so_far)%nat
        with (S (Z.to_nat max - (List.length so_far + 1)))%nat by lia.
      simpl; rewrite <- app_assoc; reflexivity.
Qed.

(** X28.  The code search returns the first [max_results] entries that
    ripgrep yields, in their order; [total_matches] counts the entries
    returned, not the entries found; [truncated] is set exactly when the
    number returned reaches [max_results], also when nothing was left
    out, and always when [max_results] is not positive, in which case no
    entry is returned.  When the search raises, the result is empty and
    carries the error text. *)
Theorem X28_code_search_returns_first_matches :
  forall (rg : CodeSearchInput -> outcome (list RgMatch))
         (args : CodeSearchInput),
    (forall found,
        rg args = Return found ->
        exists r,
          CodeSearchTool_run rg args = {| result := Some r; error := None |}
          /\ matches r
             = map code_match
                 (firstn (Z.to_nat (search_max_results args)) found)
          /\ total_matches r = Z.of_nat (List.length (matches r))
          /\ (truncated r = true
              <-> (search_max_results args
                   <= Z.of_nat (List.length (matches r)))%Z)
          /\ ((search_max_results args <= 0)%Z ->
              matches r = [] /\ truncated r = true)
          /\ ((0 < search_max_results args)%Z ->
              Z.of_nat (List.length found) = search_max_results args ->
              matches r = map code_match found /\ truncated r = true))
    /\ (forall e,
          rg args = Raise e ->
          CodeSearchTool_run rg args
          = {| result := Some {| matches := []; total_matches := 0;
                                 truncated := false |};
               error := Some e |}).
Proof.
  intros rg args; split.
  - intros found Hrg; unfold CodeSearchTool_run; rewrite Hrg.
    eexists; split; [reflexivity |]; cbn [matches total_matches truncated].
    rewrite collect_matches_firstn; simpl app; rewrite Nat.sub_0_r.
    split; [reflexivity |]; split; [reflexivity |]; split; [| split].
    + apply Z.leb_le.
    + intros Hmax; replace (Z.to_nat (search_max_results args)) with 0%nat
        by lia.
      split; [reflexivity | apply Z.leb_le; simpl; lia].
    + intros Hpos Hlen.
      replace (Z.to_nat (search_max_results args)) with (List.length found)
        by lia.
      rewrite firstn_all; split; [reflexivity |].
      apply Z.leb_le; rewrite length_map; lia.
  - intros e Hrg; unfold CodeSearchTool_run; rewrite Hrg; reflexivity.
Qed.

(** The theorem of X28 at a search that finds exactly as many entries as
    it may return. *)
Lemma X28_code_search_witness :
  (0 < search_max_results sample_search)%Z
  /\ Z.of_nat (List.length sample_found) = search_max_results sample_search
  /\ exists r,
      CodeSearchTool_run (fun _ => Return sample_found) sample_search
        = {| result := Some r; error := None |}
      /\ List.length (matches r) = 2%nat
      /\ truncated r = true.
Proof.
  assert (Hpos : (0 < search_max_results sample_search)%Z) by (simpl; lia).
  split; [exact Hpos |]; split; [reflexivity |].
  destruct (proj1 (X28_code_search_returns_first_matches
                     (fun _ => Return sample_found) sample_search)
              sample_found eq_refl)
    as (r & Hrun & _ & _ & _ & _ & Hall).
  exists r; split; [exact Hrun |].
  destruct (Hall Hpos eq_refl) as [Hm Ht].
  rewrite Hm; split; [reflexivity | exact Ht].
Defined.

(** ** Line ranges *)

Lemma splitlines_nil s : splitlines s = [] -> s = "".
Proof.
  destruct s as [| c rest]; [reflexivity |]; simpl.
  destruct (is_line_break c); [discriminate |].
  destruct (splitlines rest); discriminate.
Qed.

Lemma join_nl_cons line rest :
  rest <> [] -> join_nl (line :: rest) = line ++ String Py.nl (join_nl rest).
Proof. destruct rest; [congruence | reflexivity]. Qed.

(** Joining the lines of a plain text gives the text back. *)
Lemma join_splitlines s : plain_text s = true -> join_nl (splitlines s) = s.
Proof.
  induction s as [| c rest IH]; [reflexivity |].
  cbn [plain_text]; intros H; apply andb_prop in H as [Hc Hrest].
  specialize (IH Hrest); cbn [splitlines].
  destruct (Ascii.eqb_spec c Py.nl) as [-> | Hne].
  - change (is_line_break Py.nl) with true; cbn iota.
    change (Ascii.eqb Py.nl cr) with false; cbn iota.
    destruct rest as [| d rest']; [discriminate |].
    rewrite join_nl_cons; [rewrite IH; reflexivity |].
    intros E; apply splitlines_nil in E; discriminate.
  - apply negb_true_iff in Hc; rewrite Hc.
    destruct (splitlines rest) as [| first others] eqn:E.
    + apply splitlines_nil in E; subst; reflexivity.
    + destruct others as [| second others'].
      * simpl in IH |- *; rewrite IH; reflexivity.
      * rewrite join_nl_cons by discriminate.
        rewrite join_nl_cons in IH by discriminate.
        rewrite <- IH; reflexivity.
Qed.

Lemma py_slice_inside {A : Type} (l : list A) (start stop : Z) :
  (0 <= start <= stop)%Z -> (stop <= Z.of_nat (List.length l))%Z ->
  py_slice l start stop
  = firstn (Z.to_nat (stop - start)) (skipn (Z.to_nat start) l).
Proof.
  intros H1 H2; unfold py_slice, slice_index.
  destruct (Z.ltb_spec start 0); [lia |].
  destruct (Z.ltb_spec stop 0); [lia |].
  rewrite !Z.min_r, !Z.max_r by lia; reflexivity.
Qed.

(** X29.  [total_lines] is the number of lines of the whole file
    whatever range is asked for.  Without a range (both bounds [None] or
    [0]) the content is the text of the file as it is.  For
    [1 <= start_line <= end_line <= total_lines] the content is made of
    the lines from [start_line] to [end_line], both included, joined by
    line feeds: [end_line - start_line + 1] lines. *)
Theorem X29_line_range_is_one_based_and_inclusive :
  forall (text : string) (start_line end_line : option Z),
    snd (select_lines text start_line end_line)
    = Z.of_nat (List.length (splitlines text))
    /\ (int_truthy start_line = false -> int_truthy end_line = false ->
        fst (select_lines text start_line end_line) = text)
    /\ (forall first last,
          start_line = Some first -> end_line = Some last ->
          (1 <= first <= last)%Z ->
          (last <= Z.of_nat (List.length (splitlines text)))%Z ->
          let chosen :=
            firstn (Z.to_nat (last - first + 1))
              (skipn (Z.to_nat (first - 1)) (splitlines text)) in
          fst (select_lines text start_line end_line) = join_nl chosen
          /\ Z.of_nat (List.length chosen) = (last - first + 1)%Z).
Proof.
  intros text start_line end_line; unfold select_lines.
  split; [| split].
  - destruct (int_truthy start_line || int_truthy end_line); reflexivity.
  - intros -> ->; reflexivity.
  - intros first last -> -> H1 H2; cbv zeta.
    assert (Hs : int_truthy (Some first) = true)
      by (simpl; apply negb_true_iff, Z.eqb_neq; lia).
    rewrite Hs; cbn [orb fst int_or].
    destruct (Z.eqb_spec first 0); [lia |].
    destruct (Z.eqb_spec last 0); [lia |].
    rewrite py_slice_inside by lia.
    replace (last - (first - 1))%Z with (last - first + 1)%Z by lia.
    split; [reflexivity |].
    rewrite length_firstn, length_skipn; lia.
Qed.

(** The theorem of X29 at the first two lines of a file of four lines. *)
Lemma X29_line_range_witness :
  (1 <= 1 <= 2)%Z
  /\ (2 <= Z.of_nat (List.length (splitlines sample_file)))%Z
  /\ fst (select_lines sample_file (Some 1%Z) (Some 2%Z))
     = "def calculate(a, b):" ++ String Py.nl "    return a + b".
Proof.
  assert (H : (1 <= 1 <= 2)%Z) by lia.
  assert (H' : (2 <= Z.of_nat (List.length (splitlines sample_file)))%Z)
    by (vm_compute; discriminate).
  destruct (X29_line_range_is_one_based_and_inclusive sample_file
              (Some 1%Z) (Some 2%Z)) as (_ & _ & Hrange).
  split; [exact H |]; split; [exact H' |].
  rewrite (proj1 (Hrange 1%Z 2%Z eq_refl eq_refl H H')).
  reflexivity.
Defined.

(** Reading the lines 1 to [total_lines] of a file gives the text of the
    file back when the line feed is its only line boundary and it does
    not end with one: splitting into lines and joining them with line
    feeds loses nothing then. *)
Lemma full_range_of_plain_text text :
  plain_text text = true ->
  fst (select_lines text (Some 1%Z)
         (Some (Z.of_nat (List.length (splitlines text)))))
  = text.
Proof.
  intros Hplain; unfold select_lines.
  destruct (splitlines text) as [| l0 ls] eqn:E.
  - apply splitlines_nil in E; subst; reflexivity.
  - assert (Hs : int_truthy (Some 1%Z) = true) by reflexivity.
    rewrite Hs; cbn [orb fst int_or].
    change (1 =? 0)%Z with false; cbn iota.
    destruct (Z.eqb_spec (Z.of_nat (List.length (l0 :: ls))) 0);
      [simpl in *; lia |].
    rewrite py_slice_inside by (simpl; lia).
    change (Z.to_nat (1 - 1)) with 0%nat; cbn [skipn].
    rewrite Z.sub_0_r, Nat2Z.id, firstn_all, <- E.
    apply join_splitlines, Hplain.
Qed.

(** ** Applying patches *)

Lemma patch_body_applied pw dry_run patch_data ops file ops' :
  patch_body pw dry_run patch_data ops = (Return (Applied file), ops') ->
  file = path_of pw patch_data.
Proof.
  unfold patch_body, path_of.
  destruct (dict_get patch_data "file_path") as [[| | | p | |] |];
    try discriminate.
  destruct (has_key patch_data "unified_diff").
  - destruct dry_run; [intros [= <- _]; reflexivity |].
    destruct (pw_patch_set pw _) as [[targets text] | e]; [| discriminate].
    destruct (patch_targets pw text targets ops) as [[u | e] ops''];
      [intros [= <- _]; reflexivity | discriminate].
  - destruct (has_key patch_data "content"); [| discriminate].
    destruct dry_run; [intros [= <- _]; reflexivity |].
    destruct (pw_write_text pw ops _ _);
      [intros [= <- _]; reflexivity | discriminate].
Qed.

Lemma patch_body_dry pw patch_data ops :
  snd (patch_body pw true patch_data ops) = ops.
Proof.
  unfold patch_body.
  destruct (dict_get patch_data "file_path") as [[| | | p | |] |];
    try reflexivity.
  destruct (has_key patch_data "unified_diff"); [reflexivity |].
  destruct (has_key patch_data "content"); reflexivity.
Qed.

Lemma patch_body_dry_keyed pw patch_data ops p :
  dict_get patch_data "file_path" = Some (PStr p) ->
  has_key patch_data "unified_diff" || has_key patch_data "content" = true ->
  patch_body pw true patch_data ops = (Return (Applied (pw_str pw p)), ops).
Proof.
  intros Hp Hk; unfold patch_body; rewrite Hp.
  destruct (has_key patch_data "unified_diff"); [reflexivity |].
  simpl in Hk; rewrite Hk; reflexivity.
Qed.

Lemma apply_patches_dry pw todo :
  forall applied failed ops,
    snd (apply_patches pw true todo applied failed ops) = ops.
Proof.
  induction todo as [| patch_data rest IH]; intros applied failed ops;
    [reflexivity |].
  cbn [apply_patches].
  pose proof (patch_body_dry pw patch_data ops) as Hdry.
  destruct (patch_body pw true patch_data ops) as [[[file | file] | e] ops'];
    simpl in Hdry; subst ops'; apply IH.
Qed.

Lemma apply_patches_counts pw dry_run todo :
  forall applied failed ops,
    let done := apply_patches pw dry_run todo applied failed ops in
    (List.length (fst (fst done)) + List.length (snd (fst done))
     = List.length applied + List.length failed + List.length todo)%nat.
Proof.
  induction todo as [| patch_data rest IH]; intros applied failed ops;
    cbn zeta; [simpl; lia |].
  cbn [apply_patches].
  destruct (patch_body pw dry_run patch_data ops)
    as [[[file | file] | e] ops'];
    rewrite IH, ?length_app; simpl; lia.
Qed.

(** The entries of [failed] keep what was there, and name strings when
    the patches do. *)
Lemma apply_patches_failed pw dry_run todo :
  forall applied failed ops,
    string_paths todo = true ->
    Forall (fun entry => exists s, fst entry = PStr s) failed ->
    Forall (fun entry => exists s, fst entry = PStr s)
      (snd (fst (apply_patches pw dry_run todo applied failed ops))).
Proof.
  induction todo as [| patch_data rest IH]; intros applied failed ops Hs Hf;
    [exact Hf |].
  cbn [string_paths forallb] in Hs; apply andb_prop in Hs as [Hhere Hrest].
  cbn [apply_patches].
  destruct (patch_body pw dry_run patch_data ops)
    as [[[file | file] | e] ops'].
  - apply IH; assumption.
  - apply IH; [exact Hrest |].
    apply Forall_app; split; [exact Hf |].
    constructor; [exists file; reflexivity | constructor].
  - apply IH; [exact Hrest |].
    apply Forall_app; split; [exact Hf |].
    constructor; [| constructor].
    unfold dict_get_default; cbn [fst].
    destruct (dict_get patch_data "file_path") as [[| | | p | |] |];
      try discriminate; eexists; reflexivity.
Qed.

(** When nothing failed, every patch was appended to [applied], in
    order. *)
Lemma apply_patches_clean pw dry_run todo :
  forall applied failed ops,
    snd (fst (apply_patches pw dry_run todo applied failed ops)) = [] ->
    fst (fst (apply_patches pw dry_run todo applied failed ops))
    = (applied ++ map (path_of pw) todo)%list.
Proof.
  induction todo as [| patch_data rest IH]; intros applied failed ops;
    [intros _; simpl; rewrite app_nil_r; reflexivity |].
  cbn [apply_patches map].
  destruct (patch_body pw dry_run patch_data ops)
    as [[[file | file] | e] ops'] eqn:Eb; intros Hclean.
  - rewrite (IH _ _ _ Hclean), <- app_assoc.
    rewrite (patch_body_applied _ _ _ _ _ _ Eb); reflexivity.
  - exfalso.
    pose proof (apply_patches_counts pw dry_run rest applied
                  (failed ++ [(PStr file, "Invalid patch format")])%list ops')
      as Hc; cbn zeta in Hc.
    pose proof (IH _ _ _ Hclean) as Ha.
    rewrite Hclean, Ha, !length_app, length_map in Hc; simpl in Hc; lia.
  - exfalso.
    pose proof (apply_patches_counts pw dry_run rest applied
                  (failed
                   ++ [(dict_get_default patch_data "file_path"
                          (PStr "unknown"), e)])%list ops')
      as Hc; cbn zeta in Hc.
    pose proof (IH _ _ _ Hclean) as Ha.
    rewrite Hclean, Ha, !length_app, length_map in Hc; simpl in Hc; lia.
Qed.

Lemma apply_patches_dry_keyed pw todo :
  forall applied failed ops,
    well_keyed todo = true ->
    apply_patches pw true todo applied failed ops
    = ((applied ++ map (path_of pw) todo)%list, failed, ops).
Proof.
  induction todo as [| patch_data rest IH]; intros applied failed ops Hk;
    [simpl; rewrite app_nil_r; reflexivity |].
  cbn [well_keyed forallb] in Hk; apply andb_prop in Hk as [Hhere Hrest].
  cbn [apply_patches map]; unfold path_of at 1.
  destruct (dict_get patch_data "file_path") as [[| | | p | |] |] eqn:Ep;
    try discriminate.
  rewrite (patch_body_dry_keyed pw patch_data ops p Ep Hhere).
  rewrite (IH _ _ _ Hrest), <- app_assoc; reflexivity.
Qed.

Lemma failed_field_strings pw failed :
  Forall (fun entry => exists s, fst entry = PStr s) failed ->
  exists reported,
    failed_field pw failed = Return reported
    /\ List.length reported = List.length failed.
Proof.
  induction 1 as [| [file message] rest [s Hs] _ [reported [IH Hlen]]].
  - exists []; split; reflexivity.
  - simpl in Hs; subst file; cbn [failed_field str_field bind].
    rewrite IH; cbn [bind].
    eexists; split; [reflexivity | simpl; rewrite Hlen; reflexivity].
Qed.

(** X30.  A dry run asks nothing of the file system.  When the
    ['file_path'] of every patch that has one is a string, the call
    returns a result without an error text in which every patch is
    counted once, in [applied_patches] or in [failed_patches]; [success]
    holds exactly when [failed_patches] is empty, and then
    [applied_patches] lists the paths of all patches in the order given.
    A dry run of patches that each have a string ['file_path'] and a
    ['unified_diff'] or a ['content'] key reports success whatever the
    values under these keys are: the diff is not parsed. *)
Theorem X30_patches_are_applied_or_reported :
  forall (pw : PatchWorld) (args : ApplyPatchInput),
    (ap_dry_run args = true -> snd (ApplyPatchTool_run pw args) = [])
    /\ (string_paths (ap_patches args) = true ->
        exists r,
          fst (ApplyPatchTool_run pw args)
          = Return {| result := Some r; error := None |}
          /\ (List.length (applied_patches r)
              + List.length (failed_patches r)
              = List.length (ap_patches args))%nat
          /\ (patch_success r = true <-> failed_patches r = [])
          /\ (patch_success r = true ->
              applied_patches r = map (path_of pw) (ap_patches args)))
    /\ (ap_dry_run args = true -> well_keyed (ap_patches args) = true ->
        fst (ApplyPatchTool_run pw args)
        = Return {| result :=
                      Some {| patch_success := true;
                              applied_patches :=
                                map (path_of pw) (ap_patches args);
                              failed_patches := [] |};
                    error := None |}).
Proof.
  intros pw [todo dry_run]; cbn [ap_dry_run ap_patches].
  unfold ApplyPatchTool_run; cbn [ap_dry_run ap_patches].
  split; [| split].
  - intros ->.
    pose proof (apply_patches_dry pw todo [] [] []) as Hdry.
    destruct (apply_patches pw true todo [] [] []) as [[applied failed] ops].
    exact Hdry.
  - intros Hs.
    pose proof (apply_patches_counts pw dry_run todo [] [] []) as Hc.
    pose proof (apply_patches_failed pw dry_run todo [] [] [] Hs
                  (Forall_nil _)) as Hf.
    pose proof (apply_patches_clean pw dry_run todo [] [] []) as Hclean.
    destruct (apply_patches pw dry_run todo [] [] [])
      as [[applied failed] ops].
    cbn [fst snd] in Hc, Hf, Hclean.
    destruct (failed_field_strings pw failed Hf) as [reported [Hr Hlen]].
    cbn [fst]; rewrite Hr; cbn [bind].
    eexists; split; [reflexivity |].
    cbn [patch_success applied_patches failed_patches].
    assert (Hiff : Nat.eqb (List.length failed) 0 = true <-> reported = []).
    { rewrite Nat.eqb_eq, <- Hlen.
      destruct reported; simpl; split; congruence. }
    split; [simpl in Hc; lia |]; split; [exact Hiff |].
    intros Hok; apply Hclean.
    apply Nat.eqb_eq in Hok; destruct failed; [reflexivity | discriminate].
  - intros -> Hk.
    rewrite (apply_patches_dry_keyed pw todo [] [] [] Hk); reflexivity.
Qed.

(** The theorem of X30 at four patches, of which one fails in [patch],
    one is written, one has neither key and one has no path; and at a dry
    run of two patches whose values are no diff and no text. *)
Lemma X30_patches_witness :
  string_paths sample_patches = true
  /\ well_keyed keyed_patches = true
  /\ (exists r,
        fst (ApplyPatchTool_run patching_world
               {| ap_patches := sample_patches; ap_dry_run := false |})
        = Return {| result := Some r; error := None |}
        /\ (List.length (applied_patches r) + List.length (failed_patches r)
            = 4)%nat)
  /\ ApplyPatchTool_run patching_world
       {| ap_patches := keyed_patches; ap_dry_run := true |}
     = (Return {| result :=
                    Some {| patch_success := true;
                            applied_patches := ["calculator.py"; "notes.txt"];
                            failed_patches := [] |};
                  error := None |}, []).
Proof.
  pose proof (X30_patches_are_applied_or_reported patching_world
                {| ap_patches := sample_patches; ap_dry_run := false |})
    as (_ & Hreal & _).
  pose proof (X30_patches_are_applied_or_reported patching_world
                {| ap_patches := keyed_patches; ap_dry_run := true |})
    as (Hops & _ & Hdry).
  split; [reflexivity |]; split; [reflexivity |]; split.
  - destruct (Hreal eq_refl) as (r & Hr & Hcount & _).
    exists r; split; [exact Hr | exact Hcount].
  - apply injective_projections; [exact (Hdry eq_refl eq_refl) |].
    exact (Hops eq_refl).
Defined.
